(** * Basketball analytics: the scouting-report service and its web client

    A shallow embedding of the report pipeline of the scouting service
    (Python, FastAPI + SQLAlchemy) and of the React client that drives it.

    Backend sources.  The service ships as compiled CPython 3.12 modules;
    the definitions of [Module Service] follow their bytecode, statement by
    statement:
    - [app/services/report_service.py]  (class [ReportService]:
      [create_report], [get_reports], [get_report], [delete_report],
      [get_report_file_path], [generate_report]);
    - [app/api/routes/reports.py]  (the five routes under [/reports]).

    Client sources.
    - [frontend/src/controllers/scoutingController.js];
    - the Scouting Report page ([handleCreateReport]);
    - the Report Details page and [ReportCard.jsx].

    Further sources, embedded after the scenarios of the report pipeline.
    - [app/services/video_analysis_service.py] and [app/api/responses.py]
      of the scouting service, [app/core/events.py] of the main backend
      (bytecode);
    - [models/auth.js], [models/user.js], [models/video.js];
    - [controllers/videoController.js], [controllers/authController.js],
      [context/AuthContext.jsx], [utils/fetchInterceptor.js] and the
      token of the [axios] configuration;
    - the handlers of the Scouting Report page, of the Report Details
      page, of the report card, of the registration page and of the tag
      editor.                                                              *)

From stdpp Require Import base option list strings sorting gmap.
From Stdlib Require Import ZArith Lia DecimalString HexadecimalString
  DecimalZ HexadecimalZ Ascii.

Local Open Scope Z_scope.

(* ===================================================================== *)
(** * Exceptions and state

    Both languages are embedded in one state-and-exception monad: a
    computation takes the current state and either returns a value or
    raises, together with the state it leaves behind.  [try_except m h] is
    Python's [try: m except Exception as e: h e] and JavaScript's
    [try { m } catch (e) { h e }]: effects of [m] before the raise stay.   *)

Inductive Result (E A : Type) : Type :=
| Returned (a : A)
| Raised (e : E).
Arguments Returned {E A} a.
Arguments Raised {E A} e.

Definition ES (S E A : Type) : Type := S → Result E A * S.

Section ES.
Context {S E : Type}.

Definition es_ret {A} (a : A) : ES S E A := λ s, (Returned a, s).

Definition es_bind {A B} (m : ES S E A) (k : A → ES S E B) : ES S E B :=
  λ s, match m s with
       | (Returned a, s') => k a s'
       | (Raised e, s') => (Raised e, s')
       end.

Definition raise {A} (e : E) : ES S E A := λ s, (Raised e, s).

Definition try_except {A} (m : ES S E A) (h : E → ES S E A) : ES S E A :=
  λ s, match m s with
       | (Returned a, s') => (Returned a, s')
       | (Raised e, s') => h e s'
       end.

Definition get_state : ES S E S := λ s, (Returned s, s).
Definition modify (f : S → S) : ES S E unit := λ s, (Returned (), f s).

(** Lift the outcome of a call that does not touch the state. *)
Definition of_result {A} (r : Result E A) : ES S E A := λ s, (r, s).
End ES.

Global Instance ES_ret {S E} : MRet (ES S E) := λ A, es_ret.
Global Instance ES_bind {S E} : MBind (ES S E) := λ A B k m, es_bind m k.

(* ===================================================================== *)
(** * JSON documents

    The wire format between service and client, and the type of the JSON
    column [analysis_results].  Numbers are restricted to integers: no
    statement below depends on a fractional value.  An object lists its
    properties with distinct keys; [obj_get] returns the first match.      *)

#[warnings="-register-all"]
Inductive Json : Type :=
| JNull
| JBool (b : bool)
| JNum (n : Z)
| JStr (s : string)
| JArr (items : list Json)
| JObj (fields : list (string * Json)).

Definition PyDict : Type := list (string * Json).

Fixpoint obj_get (fields : list (string * Json)) (k : string) : option Json :=
  match fields with
  | [] => None
  | (k', v) :: rest => if decide (k' = k) then Some v else obj_get rest k
  end.

(** Decimal rendering of an integer: Python's [str(n)] / [f"{n}"], and
    JavaScript's [String(n)] for the integers it represents exactly.       *)
Definition Z_to_string (n : Z) : string :=
  DecimalString.NilZero.string_of_int (Z.to_int n).

Fixpoint join (sep : string) (l : list string) : string :=
  match l with
  | [] => ""
  | [x] => x
  | x :: rest => x +:+ sep +:+ join sep rest
  end.

(* ===================================================================== *)
(** * The scouting service *)

Module Service.

(** ** Rows of the [reports] table

    One record per report job.  [status] is a plain string column; dates
    are abstract instants (integers).  The three result columns
    [file_path], [analysis_results] and [completed_at] are nullable.       *)

Record Report : Type := mkReport {
  id : Z;
  title : string;
  description : option string;
  video_id : Z;
  video_title : option string;
  team_name : option string;
  opponent_name : option string;
  game_date : option Z;
  user_id : Z;
  status : string;
  file_path : option string;
  analysis_results : option PyDict;
  created_at : Z;
  updated_at : Z;
  completed_at : option Z
}.

(** [ReportCreate] of [app/schemas/report.py]: the body of a creation
    request. *)
Record ReportCreate : Type := mkReportCreate {
  rc_title : string;
  rc_description : option string;
  rc_video_id : Z;
  rc_video_title : option string;
  rc_team_name : option string;
  rc_opponent_name : option string;
  rc_game_date : option Z;
  rc_user_id : Z
}.

(** ** The database session

    [generate_report] writes to the attributes of the ORM object [report]
    and the writes reach the table at the next [db.commit()].  The session
    therefore keeps the pending attribute writes ([dirty]) apart from the
    table, so that the order of assignments and commits in the code is
    what decides which values are ever persisted.  [commits] records the
    table after every successful commit, oldest first.  [files] is the
    artifact store the renderer writes to.                                 *)

Inductive Attr : Type :=
| AStatus (s : string)
| AFilePath (p : string)
| AAnalysisResults (a : PyDict)
| ACompletedAt (t : Z).

Definition set_attr (a : Attr) (r : Report) : Report :=
  match a with
  | AStatus s =>
      mkReport (id r) (title r) (description r) (video_id r) (video_title r)
        (team_name r) (opponent_name r) (game_date r) (user_id r)
        s (file_path r) (analysis_results r)
        (created_at r) (updated_at r) (completed_at r)
  | AFilePath p =>
      mkReport (id r) (title r) (description r) (video_id r) (video_title r)
        (team_name r) (opponent_name r) (game_date r) (user_id r)
        (status r) (Some p) (analysis_results r)
        (created_at r) (updated_at r) (completed_at r)
  | AAnalysisResults d =>
      mkReport (id r) (title r) (description r) (video_id r) (video_title r)
        (team_name r) (opponent_name r) (game_date r) (user_id r)
        (status r) (file_path r) (Some d)
        (created_at r) (updated_at r) (completed_at r)
  | ACompletedAt t =>
      mkReport (id r) (title r) (description r) (video_id r) (video_title r)
        (team_name r) (opponent_name r) (game_date r) (user_id r)
        (status r) (file_path r) (analysis_results r)
        (created_at r) (updated_at r) (Some t)
  end.

Record Session : Type := mkSession {
  table : gmap Z Report;
  next_id : Z;
  dirty : list (Z * Attr);
  commits : list (gmap Z Report);
  files : gset string
}.

(** Python exceptions carry their message. *)
Definition Py (A : Type) : Type := ES Session string A.

(** [db.query(Report).filter(Report.id == report_id).first()] *)
Definition query_first (report_id : Z) : Py (option Report) :=
  s ← get_state; mret (table s !! report_id).

(** [report.<attr> = value] on the ORM object of row [report_id]. *)
Definition assign (report_id : Z) (a : Attr) : Py unit :=
  modify (λ s, mkSession (table s) (next_id s) (dirty s ++ [(report_id, a)])
                 (commits s) (files s)).

(** The UPDATEs of a flush, in assignment order; a write to a row that is
    no longer in the table fails the flush. *)
Fixpoint flush (d : list (Z * Attr)) (t : gmap Z Report)
  : option (gmap Z Report) :=
  match d with
  | [] => Some t
  | (i, a) :: d' =>
      match t !! i with
      | Some r => flush d' (<[i := set_attr a r]> t)
      | None => None
      end
  end.

(** [db.commit()] *)
Definition commit : Py unit :=
  s ← get_state;
  match flush (dirty s) (table s) with
  | Some t =>
      modify (λ s, mkSession t (next_id s) [] (commits s ++ [t]) (files s))
  | None => raise "StaleDataError"
  end.

(** Reading an attribute of the ORM object after a commit reloads the row
    (the session expires its objects on commit). *)
Definition reload (report_id : Z) : Py Report :=
  s ← get_state;
  match table s !! report_id with
  | Some r => mret r
  | None => raise "ObjectDeletedError"
  end.

(** ** The collaborators of the pipeline

    [video_analysis_service.get_video_data], [.analyze_video] and
    [pdf_generator_service.generate_pdf].  Their bodies (an HTTP call, a
    randomised stand-in analysis, PDF rendering) are outside the pipeline:
    a call either returns its value or raises.  The pipeline is stated for
    every such collaborator; those of the sources are embedded in
    [Module VideoAnalysis] below, where [get_video_data] turns out never
    to raise.                                                              *)

Record Collaborators : Type := mkCollaborators {
  get_video_data : Z → Result string PyDict;
  analyze_video : PyDict → Result string PyDict;
  generate_pdf : PyDict → Report → Result string string
}.

Definition await {A} (r : Result string A) : Py A := of_result r.

(** Modelled from the spec: [pdf_generator_service] is not among the
    sources; following the Artifact Renderer contract ("produces a
    persisted artifact and returns its storage location") a successful
    call leaves the artifact in the store at the returned location.        *)
Definition render (c : Collaborators) (a : PyDict) (r : Report) : Py string :=
  p ← await (generate_pdf c a r);
  modify (λ s, mkSession (table s) (next_id s) (dirty s) (commits s)
                 ({[p]} ∪ files s));;
  mret p.

(** ** [ReportService] *)

(** Modelled from the spec: the table definition [app/models/report.py] is
    not among the sources.  The identity is assigned by the database at
    insertion (a fresh, increasing key), both timestamps start at the
    insertion time, and the columns [create_report] does not pass start
    NULL ("null until completed", "null until terminal").                  *)
Definition new_row (now fresh : Z) (report_in : ReportCreate) : Report :=
  mkReport fresh (rc_title report_in) (rc_description report_in)
    (rc_video_id report_in) (rc_video_title report_in)
    (rc_team_name report_in) (rc_opponent_name report_in)
    (rc_game_date report_in) (rc_user_id report_in)
    "queued" None None now now None.

(** [create_report(db, report_in)]:
    [db_report = Report(title=..., ..., user_id=..., status="queued")],
    [db.add(db_report)], [db.commit()], [db.refresh(db_report)],
    [return db_report].                                                   *)
Definition create_report (now : Z) (report_in : ReportCreate) : Py Report :=
  s ← get_state;
  let db_report := new_row now (next_id s) report_in in
  modify (λ s, mkSession (<[next_id s := db_report]> (table s))
                 (next_id s + 1) (dirty s) (commits s) (files s));;
  commit;;
  reload (id db_report).

(** [delete_report(db, report_id)]: [False] when the row is missing, else
    [db.delete(report)], [db.commit()], [True].                            *)
Definition delete_report (report_id : Z) : Py bool :=
  report ← query_first report_id;
  match report with
  | None => mret false
  | Some _ =>
      modify (λ s, mkSession (delete report_id (table s)) (next_id s)
                     (dirty s) (commits s) (files s));;
      commit;;
      mret true
  end.

(** [generate_report(db, report_id)], the background task.

<<
    report = db.query(Report).filter(Report.id == report_id).first()
    if not report:
        logger.error(...); return
    try:
        report.status = "processing"
        db.commit()
        video_data = await video_analysis_service.get_video_data(report.video_id)
        analysis_results = await video_analysis_service.analyze_video(video_data)
        pdf_path = await pdf_generator_service.generate_pdf(analysis_results, report)
        report.status = "completed"
        report.file_path = pdf_path
        report.analysis_results = analysis_results
        report.completed_at = datetime.now()
        db.commit()
    except Exception as e:
        logger.error(..., exc_info=True)
        report.status = "failed"
        db.commit()
>>
    There is no test of [report.status] before the run, and the handler
    assigns [status] only.                                                 *)

Definition pipeline (c : Collaborators) (now : Z) (report_id : Z) : Py unit :=
  r ← reload report_id;
  video_data ← await (get_video_data c (video_id r));
  analysis ← await (analyze_video c video_data);
  r' ← reload report_id;
  pdf_path ← render c analysis r';
  assign report_id (AStatus "completed");;
  assign report_id (AFilePath pdf_path);;
  assign report_id (AAnalysisResults analysis);;
  assign report_id (ACompletedAt now);;
  commit.

Definition on_failure (report_id : Z) (e : string) : Py unit :=
  assign report_id (AStatus "failed");;
  commit.

Definition generate_report (c : Collaborators) (now : Z) (report_id : Z)
  : Py unit :=
  report ← query_first report_id;
  match report with
  | None => mret ()
  | Some _ =>
      try_except
        (assign report_id (AStatus "processing");;
         commit;;
         pipeline c now report_id)
        (on_failure report_id)
  end.

(** The run in two halves.  The coroutine is suspended at its [await]s, and
    other requests are served meanwhile: [generate_report_start] is the
    code up to the first commit, [generate_report_finish] the rest.  The
    handler of the [try] statement guards both halves.                     *)
Definition generate_report_start (report_id : Z) : Py bool :=
  report ← query_first report_id;
  match report with
  | None => mret false
  | Some _ =>
      try_except
        (assign report_id (AStatus "processing");; commit;; mret true)
        (λ e, on_failure report_id e;; mret false)
  end.

Definition generate_report_finish (c : Collaborators) (now : Z)
    (report_id : Z) : Py unit :=
  try_except (pipeline c now report_id) (on_failure report_id).

(** ** What the service returns to the routes *)

(** The dictionary built for every report by [get_reports] (14 keys) and,
    with [analysis_results] added, by [get_report] (15 keys).  Dates stay
    instants; their ISO rendering is not modelled.                         *)
Record ReportDict : Type := mkReportDict {
  d_id : Z;
  d_title : string;
  d_description : option string;
  d_video_id : Z;
  d_video_title : option string;
  d_team_name : option string;
  d_opponent_name : option string;
  d_game_date : option Z;
  d_status : string;
  d_user_id : Z;
  d_created_at : Z;
  d_updated_at : Z;
  d_completed_at : option Z;
  d_download_url : option string
}.

Record ReportDetail : Type := mkReportDetail {
  summary : ReportDict;
  d_analysis_results : option PyDict
}.

(** [f"/api/reports/{report.id}/download" if report.status == "completed"
     else None] *)
Definition download_url (report : Report) : option string :=
  if decide (status report = "completed")
  then Some ("/api/reports/" +:+ Z_to_string (id report) +:+ "/download")
  else None.

Definition report_dict (report : Report) : ReportDict :=
  mkReportDict (id report) (title report) (description report)
    (video_id report) (video_title report) (team_name report)
    (opponent_name report) (game_date report) (status report)
    (user_id report) (created_at report) (updated_at report)
    (completed_at report) (download_url report).

(** [order_by(Report.created_at.desc())]; rows created at the same
    instant come in the order the sort leaves them in.  The database
    fixes no order among them, and may change it from one request to the
    next: what is stated below of the order of a listing either leaves
    the order among such rows open or assumes distinct instants. *)
Definition newest_first : relation Report :=
  λ r1 r2, created_at r2 ≤ created_at r1.

Global Instance newest_first_dec r1 r2 : Decision (newest_first r1 r2).
Proof. unfold newest_first. apply _. Defined.
Global Instance newest_first_total : Total newest_first.
Proof. intros r1 r2. unfold newest_first. lia. Qed.
Global Instance newest_first_trans : Transitive newest_first.
Proof. intros r1 r2 r3. unfold newest_first. lia. Qed.

(** [get_reports(db, user_id=None, skip, limit)]:
<<
    query = db.query(Report)
    if user_id is not None:
        query = query.filter(Report.user_id == user_id)
    reports = query.order_by(Report.created_at.desc())
                   .offset(skip).limit(limit).all()
    return [ {...} for report in reports ]
>>                                                                        *)
Definition select_reports (owner : option Z) (t : gmap Z Report)
  : list Report :=
  let query := (map_to_list t).*2 in
  match owner with
  | Some u => filter (λ r, user_id r = u) query
  | None => query
  end.

Definition get_reports (owner : option Z) (skip limit : nat)
  : Py (list ReportDict) :=
  s ← get_state;
  let reports :=
    take limit (drop skip (merge_sort newest_first (select_reports owner (table s)))) in
  mret (report_dict <$> reports).

(** [get_report(db, report_id)]: [None] when the row is missing. *)
Definition get_report (report_id : Z) : Py (option ReportDetail) :=
  report ← query_first report_id;
  match report with
  | None => mret None
  | Some report =>
      mret (Some (mkReportDetail (report_dict report) (analysis_results report)))
  end.

(** Python truthiness of an optional string: [None] and [""] are false. *)
Definition truthy_str (o : option string) : bool :=
  match o with
  | Some s => bool_decide (s ≠ "")
  | None => false
  end.

(** [get_report_file_path(db, report_id)]:
    [if not report or not report.file_path: return None],
    [return report.file_path].                                            *)
Definition get_report_file_path (report_id : Z) : Py (option string) :=
  report ← query_first report_id;
  match report with
  | None => mret None
  | Some report =>
      if truthy_str (file_path report) then mret (file_path report)
      else mret None
  end.

(** ** The routes of [app/api/routes/reports.py] *)

(** [ResponseModel.success(data, message, status_code)] is the dictionary
    [{"status": "success", "message": ..., "data": ..., "code": ...}];
    [raise HTTPException(status_code, detail)] ends the request with that
    error.                                                                 *)
Inductive Response (A : Type) : Type :=
| Success (data : A) (message : string) (code : Z)
| HTTPException (status_code : Z) (detail : string)
| FileResponse (path filename media_type : string).
Arguments Success {A} data message code.
Arguments HTTPException {A} status_code detail.
Arguments FileResponse {A} path filename media_type.

(** [background_tasks.add_task(report_service.generate_report, db, id)] *)
Inductive Task : Type := GenerateReport (report_id : Z).

(** The [data] of the creation response:
    [{"report_id": report.id, "status": report.status}]. *)
Record Created : Type := mkCreated {
  created_report_id : Z;
  created_status : string
}.

(** [POST /reports]: create, schedule the run, answer 202. *)
Definition create_report_route (now : Z) (report_in : ReportCreate)
  : Py (Response Created * list Task) :=
  report ← create_report now report_in;
  let background_tasks := [GenerateReport (id report)] in
  mret (Success (mkCreated (id report) (status report))
          "Report creation initiated" 202,
        background_tasks).

(** [GET /reports]: [user_id = Query(None)], [skip = Query(0, ge=0)],
    [limit = Query(100, ge=1, le=100)]. *)
Definition list_reports (owner : option Z) (skip limit : nat)
  : Py (Response (list ReportDict)) :=
  reports ← get_reports owner skip limit;
  mret (Success reports "Reports retrieved successfully" 200).

(** [GET /reports/{report_id}] *)
Definition get_report_route (report_id : Z) : Py (Response ReportDetail) :=
  report ← get_report report_id;
  match report with
  | None => mret (HTTPException 404 "Report not found")
  | Some report => mret (Success report "Report retrieved successfully" 200)
  end.

(** [GET /reports/{report_id}/download] *)
Definition download_report (report_id : Z) : Py (Response unit) :=
  report_path ← get_report_file_path report_id;
  match report_path with
  | None => mret (HTTPException 404 "Report file not found")
  | Some path =>
      mret (FileResponse path
              ("scouting_report_" +:+ Z_to_string report_id +:+ ".pdf")
              "application/pdf")
  end.

(** [DELETE /reports/{report_id}] *)
Definition delete_report_route (report_id : Z) : Py (Response unit) :=
  success ← delete_report report_id;
  if success : bool
  then mret (Success () "Report deleted successfully" 200)
  else mret (HTTPException 404 "Report not found").

(** ** Vocabulary of the statements below *)

(** The three awaited calls in the order of [generate_report]; [r] is the
    row as the run reads it, after its first commit. *)
Definition run_steps (c : Collaborators) (r : Report)
  : Result string (PyDict * string) :=
  match get_video_data c (video_id r) with
  | Raised e => Raised e
  | Returned video_data =>
      match analyze_video c video_data with
      | Raised e => Raised e
      | Returned analysis =>
          match generate_pdf c analysis r with
          | Raised e => Raised e
          | Returned pdf_path => Returned (analysis, pdf_path)
          end
      end
  end.

Definition processing_row (r : Report) : Report :=
  set_attr (AStatus "processing") r.

Definition failed_row (r : Report) : Report :=
  set_attr (AStatus "failed") r.

Definition completed_row (now : Z) (pdf_path : string) (analysis : PyDict)
    (r : Report) : Report :=
  set_attr (ACompletedAt now)
    (set_attr (AAnalysisResults analysis)
       (set_attr (AFilePath pdf_path) (set_attr (AStatus "completed") r))).

(** The tables a computation committed, oldest first. *)
Definition committed_by {A} (m : Py A) (s : Session) : list (gmap Z Report) :=
  drop (length (commits s)) (commits (m s).2).

End Service.

(* ===================================================================== *)
(** * The running service

    The routes and the background tasks they schedule, as a transition
    system.  A state holds the table, the key sequence, the artifact store,
    and the runs of [generate_report] that were scheduled but have not
    started ([scheduled]) or are suspended between their first and their
    last commit ([running]).  Every request gets a fresh session.          *)

Module System.
Import Service.

Record State : Type := mkState {
  db : gmap Z Report;
  seq : Z;
  store : gset string;
  scheduled : gset Z;
  running : gset Z
}.

Definition initial : State := mkState ∅ 1 ∅ ∅ ∅.

Definition session_of (σ : State) : Session :=
  mkSession (db σ) (seq σ) [] [] (store σ).

Definition task_id (t : Task) : Z :=
  match t with GenerateReport report_id => report_id end.

(** [POST /reports]: the response is sent, the tasks it added wait. *)
Definition create (now : Z) (report_in : ReportCreate) (σ : State) : State :=
  match create_report_route now report_in (session_of σ) with
  | (Returned (_, tasks), s) =>
      mkState (table s) (next_id s) (files s)
        (list_to_set (task_id <$> tasks) ∪ scheduled σ) (running σ)
  | (Raised _, s) =>
      mkState (table s) (next_id s) (files s) (scheduled σ) (running σ)
  end.

(** A scheduled run starts and reaches its first [await]. *)
Definition start (report_id : Z) (σ : State) : State :=
  match generate_report_start report_id (session_of σ) with
  | (Returned true, s) =>
      mkState (table s) (next_id s) (files s)
        (scheduled σ ∖ {[report_id]}) ({[report_id]} ∪ running σ)
  | (_, s) =>
      mkState (table s) (next_id s) (files s)
        (scheduled σ ∖ {[report_id]}) (running σ)
  end.

(** A suspended run resumes and runs to its end. *)
Definition finish (c : Collaborators) (now : Z) (report_id : Z) (σ : State)
  : State :=
  let s := (generate_report_finish c now report_id (session_of σ)).2 in
  mkState (table s) (next_id s) (files s)
    (scheduled σ) (running σ ∖ {[report_id]}).

(** [DELETE /reports/{report_id}] *)
Definition delete (report_id : Z) (σ : State) : State :=
  let s := (delete_report_route report_id (session_of σ)).2 in
  mkState (table s) (next_id s) (files s) (scheduled σ) (running σ).

(** The reading routes leave the state as it is and are not steps;
    [update_report] of the service is called by no route. *)
Inductive step : State → State → Prop :=
| step_create now report_in σ :
    step σ (create now report_in σ)
| step_start report_id σ :
    report_id ∈ scheduled σ → step σ (start report_id σ)
| step_finish c now report_id σ :
    report_id ∈ running σ → step σ (finish c now report_id σ)
| step_delete report_id σ :
    step σ (delete report_id σ).

Definition reachable (σ : State) : Prop := rtc step initial σ.

(** ** Vocabulary of the statements below *)

Definition statuses : list string :=
  ["queued"; "processing"; "completed"; "failed"].

Definition terminal (st : string) : Prop := st = "completed" ∨ st = "failed".

(** The arrows of the life-cycle diagram. *)
Definition arrow (a b : string) : Prop :=
  (a = "queued" ∧ b = "processing") ∨ (a = "processing" ∧ terminal b).

Definition no_result (r : Report) : Prop :=
  file_path r = None ∧ analysis_results r = None ∧ completed_at r = None.

Definition has_result (r : Report) : Prop :=
  is_Some (file_path r) ∧ is_Some (analysis_results r)
  ∧ is_Some (completed_at r).

(** Where a row stands with respect to the runs. *)
Definition row_ok (σ : State) (i : Z) (r : Report) : Prop :=
  id r = i ∧ i < seq σ ∧
  ((status r = "queued" ∧ (i ∈ scheduled σ) ∧ (i ∉ running σ) ∧ no_result r)
   ∨ (status r = "processing" ∧ (i ∉ scheduled σ) ∧ (i ∈ running σ)
      ∧ no_result r)
   ∨ (status r = "completed" ∧ (i ∉ scheduled σ) ∧ (i ∉ running σ)
      ∧ has_result r)
   ∨ (status r = "failed" ∧ (i ∉ scheduled σ) ∧ (i ∉ running σ)
      ∧ no_result r)).

Definition invariant (σ : State) : Prop :=
  (∀ i r, db σ !! i = Some r → row_ok σ i r)
  ∧ (∀ i, i ∈ scheduled σ ∨ i ∈ running σ → i < seq σ).

End System.

(* ===================================================================== *)
(** * The web client *)

Module Client.

(** ** JavaScript values

    Numbers are the integers and NaN; [VError] is an [Error] object (of any
    subclass) with its message.  Objects compare by reference, which is not
    modelled: every [===] below has a primitive on one side.               *)

#[warnings="-register-all"]
Inductive JsVal : Type :=
| VUndefined
| VNull
| VBool (b : bool)
| VNum (n : Z)
| VNaN
| VStr (s : string)
| VArr (items : list JsVal)
| VObj (props : list (string * JsVal))
| VError (message : string).

(** [JSON.parse] *)
Fixpoint of_json (j : Json) : JsVal :=
  match j with
  | JNull => VNull
  | JBool b => VBool b
  | JNum n => VNum n
  | JStr s => VStr s
  | JArr items => VArr (map of_json items)
  | JObj fields => VObj (map (λ kv, (kv.1, of_json kv.2)) fields)
  end.

(** [JSON.stringify]: [undefined] has no rendering (a property holding it
    is dropped, an array slot becomes [null]), NaN becomes [null], an
    [Error] has no enumerable property.                                    *)
Fixpoint stringify (v : JsVal) : option Json :=
  match v with
  | VUndefined => None
  | VNull | VNaN => Some JNull
  | VBool b => Some (JBool b)
  | VNum n => Some (JNum n)
  | VStr s => Some (JStr s)
  | VArr items =>
      Some (JArr (map (λ x, default JNull (stringify x)) items))
  | VObj props =>
      Some (JObj ((fix go (ps : list (string * JsVal)) : list (string * Json) :=
                     match ps with
                     | [] => []
                     | (k, x) :: ps' =>
                         match stringify x with
                         | Some j => (k, j) :: go ps'
                         | None => go ps'
                         end
                     end) props))
  | VError _ => Some (JObj [])
  end.

(** [ToString].  A number is rendered in decimal, which is JavaScript's
    rendering of an integer below 1e21 (from there on JavaScript writes an
    exponent). *)
Fixpoint to_string (v : JsVal) : string :=
  match v with
  | VUndefined => "undefined"
  | VNull => "null"
  | VBool true => "true"
  | VBool false => "false"
  | VNum n => Z_to_string n
  | VNaN => "NaN"
  | VStr s => s
  | VArr items =>
      join "," (map (λ x, match x with
                          | VUndefined | VNull => ""
                          | _ => to_string x
                          end) items)
  | VObj _ => "[object Object]"
  | VError m => if decide (m = "") then "Error" else "Error: " +:+ m
  end.

(** [ToBoolean] *)
Definition truthy (v : JsVal) : bool :=
  match v with
  | VUndefined | VNull | VNaN => false
  | VBool b => b
  | VNum n => bool_decide (n ≠ 0)
  | VStr s => bool_decide (s ≠ "")
  | VArr _ | VObj _ | VError _ => true
  end.

(** [a || b] *)
Definition or_else (a b : JsVal) : JsVal := if truthy a then a else b.

(** [v === "literal"] and [v === n] for a number [n] *)
Definition strict_eq_str (v : JsVal) (s : string) : bool :=
  match v with VStr s' => bool_decide (s' = s) | _ => false end.

Definition strict_eq_num (v n : JsVal) : bool :=
  match v, n with VNum a, VNum b => bool_decide (a = b) | _, _ => false end.

Fixpoint prop_get (props : list (string * JsVal)) (k : string) : JsVal :=
  match props with
  | [] => VUndefined
  | (k', v) :: rest => if decide (k' = k) then v else prop_get rest k
  end.

(** [v.k] for a [v] that is neither [null] nor [undefined].  The keys read
    by the client ([status], [data], [message], [id], [title], ...) are
    own properties or absent; [length] and inherited methods are never
    read.                                                                  *)
Definition prop_of (v : JsVal) (k : string) : JsVal :=
  match v with
  | VObj props => prop_get props k
  | VError m => if decide (k = "message") then VStr m else VUndefined
  | _ => VUndefined
  end.

(** ** Effects of the client *)

Record Request : Type := mkRequest {
  url : string;
  method : string;
  body : option Json
}.

Inductive Call : Type :=
| OnSuccess (arg : JsVal)
| OnError (arg : JsVal).

Inductive Ui : Type :=
| showError (msg : string)
| setCreating (b : bool)
| createReport_called (reportData : JsVal).

Record World : Type := mkWorld {
  sent : list Request;
  invoked : list Call;
  ui : list Ui
}.

Definition Js (A : Type) : Type := ES World JsVal A.

(** [v.k]: a [TypeError] on [null] and [undefined] (the text of the
    message is the engine's). *)
Definition get_prop (v : JsVal) (k : string) : Js JsVal :=
  match v with
  | VUndefined | VNull =>
      raise (VError ("Cannot read properties of " +:+ to_string v
                       +:+ " (reading '" +:+ k +:+ "')"))
  | _ => mret (prop_of v k)
  end.

(** [new Error(x)] *)
Definition new_Error (x : JsVal) : JsVal :=
  VError (match x with
          | VUndefined => ""
          | _ => to_string x
          end).

(** [try { m } finally { f }] *)
Definition finally {A} (m : Js A) (f : Js unit) : Js A :=
  λ w, match m w with
       | (r, w') =>
           match f w' with
           | (Returned _, w'') => (r, w'')
           | (Raised e, w'') => (Raised e, w'')
           end
       end.

(** What the network does with a request: [fetch] rejects, or resolves
    with a response whose body parses as JSON or does not. *)
Inductive ResponseBody : Type :=
| JsonBody (data : Json)
| NotJson (message : string).

Inductive Fetch : Type :=
| Rejects (message : string)
| Resolves (ok : bool) (payload : ResponseBody).

(** [fetchWithAuth(url, options)] adds the bearer token and calls
    [fetch]; headers are not modelled. *)
Definition fetchWithAuth (net : Request → Fetch) (rq : Request)
  : Js (bool * ResponseBody) :=
  modify (λ w, mkWorld (sent w ++ [rq]) (invoked w) (ui w));;
  match net rq with
  | Rejects m => raise (VError m)
  | Resolves ok payload => mret (ok, payload)
  end.

(** [await response.json()] *)
Definition response_json (payload : ResponseBody) : Js JsVal :=
  match payload with
  | JsonBody data => mret (of_json data)
  | NotJson m => raise (VError m)
  end.

(** The two callbacks of a controller call: each either returns or throws
    the given value.  What a callback does to the page is its own affair. *)
Record Callbacks : Type := mkCallbacks {
  onSuccess : JsVal → option JsVal;
  onError : JsVal → option JsVal
}.

Definition call (f : JsVal → option JsVal) (c : JsVal → Call) (arg : JsVal)
  : Js unit :=
  modify (λ w, mkWorld (sent w) (invoked w ++ [c arg]) (ui w));;
  match f arg with
  | Some e => raise e
  | None => mret ()
  end.

(** ** [scoutingController.js] *)

Section Controllers.
Variable api : string.        (* process.env.REACT_APP_SCOUTING_API_URL *)
Variable net : Request → Fetch.
Variable cb : Callbacks.

(** [if (!response.ok) throw new Error(data.message || fallback)] *)
Definition check_ok (ok : bool) (data : JsVal) (fallback : string)
  : Js unit :=
  if negb ok
  then m ← get_prop data "message";
       raise (new_Error (or_else m (VStr fallback)))
  else mret ().

(** [onError(data.message || fallback)] *)
Definition report_failure (data : JsVal) (fallback : string) : Js unit :=
  m ← get_prop data "message";
  call (onError cb) OnError (or_else m (VStr fallback)).

(** [catch (error) { console.error(...); onError(error.message); }] *)
Definition handler (error : JsVal) : Js unit :=
  m ← get_prop error "message";
  call (onError cb) OnError m.

(** [data.status === 'success' && data.data] *)
Definition success_with_data (data : JsVal) : Js bool :=
  st ← get_prop data "status";
  if strict_eq_str st "success"
  then d ← get_prop data "data"; mret (truthy d)
  else mret false.

Definition getReports : Js unit :=
  try_except
    ('(ok, payload) ← fetchWithAuth net (mkRequest (api +:+ "/reports") "GET" None);
     data ← response_json payload;
     check_ok ok data "Failed to fetch reports";;
     ready ← success_with_data data;
     if ready : bool
     then d ← get_prop data "data"; call (onSuccess cb) OnSuccess d
     else report_failure data "Failed to fetch reports")
    handler.

Definition getReportById (reportId : JsVal) : Js unit :=
  try_except
    ('(ok, payload) ← fetchWithAuth net
        (mkRequest (api +:+ "/reports/" +:+ to_string reportId) "GET" None);
     data ← response_json payload;
     check_ok ok data "Failed to fetch report";;
     ready ← success_with_data data;
     if ready : bool
     then d ← get_prop data "data"; call (onSuccess cb) OnSuccess d
     else report_failure data "Failed to fetch report")
    handler.

Definition createReport (reportData : JsVal) : Js unit :=
  try_except
    ('(ok, payload) ← fetchWithAuth net
        (mkRequest (api +:+ "/reports") "POST" (stringify reportData));
     data ← response_json payload;
     check_ok ok data "Failed to create report";;
     st ← get_prop data "status";
     if strict_eq_str st "success"
     then d ← get_prop data "data"; call (onSuccess cb) OnSuccess d
     else report_failure data "Failed to create report")
    handler.

Definition deleteReport (reportId : JsVal) : Js unit :=
  try_except
    ('(ok, payload) ← fetchWithAuth net
        (mkRequest (api +:+ "/reports/" +:+ to_string reportId) "DELETE" None);
     data ← response_json payload;
     check_ok ok data "Failed to delete report";;
     st ← get_prop data "status";
     if strict_eq_str st "success"
     then call (onSuccess cb) OnSuccess VUndefined
     else report_failure data "Failed to delete report")
    handler.
End Controllers.

(** ** [parseInt]

    [parseInt(v)] with no radix: [ToString], leading white space dropped,
    an optional sign, [0x]/[0X] selects base 16, then the longest prefix
    of digits; NaN when that prefix is empty.  Strings are byte strings,
    so only the ASCII white space is recognised, and the result is the
    integer the digits denote.  This is JavaScript's function on the
    values of [plain_id] below: ASCII text and integers that a number
    holds exactly.  Outside of them JavaScript also drops the Unicode
    white space, rounds an integer of 2^53 or more to the nearest number,
    and parses a number of 1e21 or more from its exponent form.            *)

Definition is_space (c : ascii) : bool :=
  match c with
  | " "%char | "009"%char | "010"%char | "011"%char | "012"%char
  | "013"%char => true
  | _ => false
  end.

Fixpoint trim_start (s : string) : string :=
  match s with
  | String c s' => if is_space c then trim_start s' else s
  | EmptyString => s
  end.

Definition dec_digit (c : ascii) : option (Decimal.uint → Decimal.uint) :=
  match c with
  | "0"%char => Some Decimal.D0 | "1"%char => Some Decimal.D1
  | "2"%char => Some Decimal.D2 | "3"%char => Some Decimal.D3
  | "4"%char => Some Decimal.D4 | "5"%char => Some Decimal.D5
  | "6"%char => Some Decimal.D6 | "7"%char => Some Decimal.D7
  | "8"%char => Some Decimal.D8 | "9"%char => Some Decimal.D9
  | _ => None
  end.

Definition hex_digit (c : ascii)
  : option (Hexadecimal.uint → Hexadecimal.uint) :=
  match c with
  | "0"%char => Some Hexadecimal.D0 | "1"%char => Some Hexadecimal.D1
  | "2"%char => Some Hexadecimal.D2 | "3"%char => Some Hexadecimal.D3
  | "4"%char => Some Hexadecimal.D4 | "5"%char => Some Hexadecimal.D5
  | "6"%char => Some Hexadecimal.D6 | "7"%char => Some Hexadecimal.D7
  | "8"%char => Some Hexadecimal.D8 | "9"%char => Some Hexadecimal.D9
  | "a"%char | "A"%char => Some Hexadecimal.Da
  | "b"%char | "B"%char => Some Hexadecimal.Db
  | "c"%char | "C"%char => Some Hexadecimal.Dc
  | "d"%char | "D"%char => Some Hexadecimal.Dd
  | "e"%char | "E"%char => Some Hexadecimal.De
  | "f"%char | "F"%char => Some Hexadecimal.Df
  | _ => None
  end.

Fixpoint dec_prefix (s : string) : Decimal.uint :=
  match s with
  | String c s' =>
      match dec_digit c with
      | Some d => d (dec_prefix s')
      | None => Decimal.Nil
      end
  | EmptyString => Decimal.Nil
  end.

Fixpoint hex_prefix (s : string) : Hexadecimal.uint :=
  match s with
  | String c s' =>
      match hex_digit c with
      | Some d => d (hex_prefix s')
      | None => Hexadecimal.Nil
      end
  | EmptyString => Hexadecimal.Nil
  end.

(** The unsigned part; [None] is NaN. *)
Definition parse_magnitude (s : string) : option Z :=
  match s with
  | String "0"%char (String ("x"%char | "X"%char) s') =>
      match hex_prefix s' with
      | Hexadecimal.Nil => None
      | h => Some (Z.of_hex_uint h)
      end
  | _ =>
      match dec_prefix s with
      | Decimal.Nil => None
      | d => Some (Z.of_uint d)
      end
  end.

Definition number (o : option Z) : JsVal :=
  match o with Some n => VNum n | None => VNaN end.

Definition parseInt (v : JsVal) : JsVal :=
  match trim_start (to_string v) with
  | String "-"%char s => number (Z.opp <$> parse_magnitude s)
  | String "+"%char s => number (parse_magnitude s)
  | s => number (parse_magnitude s)
  end.

(** ** The Scouting Report page *)

Record ScoutingReportPage : Type := mkScoutingReportPage {
  videos : list JsVal;
  selectedVideo : JsVal;      (* '' or the [video.id] of a menu item *)
  reportTitle : string;
  teamName : string;
  opponentName : string;
  user : JsVal                (* useAuth().user *)
}.

Definition toast (msg : string) : Js unit :=
  modify (λ w, mkWorld (sent w) (invoked w) (ui w ++ [showError msg])).

Definition set_creating (b : bool) : Js unit :=
  modify (λ w, mkWorld (sent w) (invoked w) (ui w ++ [setCreating b])).

(** [videos.find(v => v.id === n)] *)
Fixpoint find_video (vs : list JsVal) (n : JsVal) : Js JsVal :=
  match vs with
  | [] => mret VUndefined
  | v :: vs' =>
      i ← get_prop v "id";
      if strict_eq_num i n then mret v else find_video vs' n
  end.

(** [handleCreateReport], up to and including its call of [createReport]
    (recorded with the [reportData] it passes; the controller takes over
    from there):
<<
    if (!selectedVideo) { showError('Please select a video'); return; }
    if (!reportTitle) { showError('Please enter a report title'); return; }
    try {
      setCreating(true);
      const videoObj = videos.find(v => v.id === parseInt(selectedVideo));
      const reportData = {
        title: reportTitle,
        description: `Scouting report for ${teamName || 'opponent team'}`,
        video_id: parseInt(selectedVideo),
        video_title: videoObj ? videoObj.title : '',
        team_name: teamName,
        opponent_name: opponentName,
        user_id: user.id
      };
      await createReport(reportData, ..., ...);
    } catch (error) { showError('Failed to create report'); }
    finally { setCreating(false); }
>>                                                                        *)
Definition handleCreateReport (pg : ScoutingReportPage) : Js unit :=
  if negb (truthy (selectedVideo pg)) then toast "Please select a video"
  else if negb (truthy (VStr (reportTitle pg)))
  then toast "Please enter a report title"
  else
    finally
      (try_except
         (set_creating true;;
          videoObj ← find_video (videos pg) (parseInt (selectedVideo pg));
          video_title ← (if truthy videoObj then get_prop videoObj "title"
                         else mret (VStr ""));
          user_id ← get_prop (user pg) "id";
          let reportData :=
            VObj [("title", VStr (reportTitle pg));
                  ("description",
                   VStr ("Scouting report for " +:+
                         to_string (or_else (VStr (teamName pg))
                                            (VStr "opponent team"))));
                  ("video_id", parseInt (selectedVideo pg));
                  ("video_title", video_title);
                  ("team_name", VStr (teamName pg));
                  ("opponent_name", VStr (opponentName pg));
                  ("user_id", user_id)] in
          modify (λ w, mkWorld (sent w) (invoked w)
                         (ui w ++ [createReport_called reportData])))
         (λ error, toast "Failed to create report"))
      (set_creating false).

(** The creation requests a click on "Create Report" leads to: the body
    [createReport] sends for each [reportData] it was called with. *)
Definition creation_bodies (pg : ScoutingReportPage) : list (option Json) :=
  omap (λ e, match e with
             | createReport_called rd => Some (stringify rd)
             | _ => None
             end)
       (ui (handleCreateReport pg (mkWorld [] [] [])).2).

(** ** Report card and Report Details page *)

(** [getStatusColor(status)] (the same function in both files) *)
Definition getStatusColor (status : JsVal) : string :=
  if strict_eq_str status "completed" then "success"
  else if strict_eq_str status "processing" then "warning"
  else if strict_eq_str status "queued" then "info"
  else if strict_eq_str status "failed" then "error"
  else "default".

(** [disabled={report.status !== 'completed' || !report.download_url}] on
    both download buttons and on the menu item. *)
Definition download_disabled (report : JsVal) : bool :=
  negb (strict_eq_str (prop_of report "status") "completed")
  || negb (truthy (prop_of report "download_url")).

Inductive DownloadAction : Type :=
| window_open (target : string)
| download_refused (msg : string).

(** [handleDownload]: [if (report.download_url)] on the card,
    [if (report && report.download_url)] on the details page. *)
Definition handleDownload (api : string) (report : JsVal) : DownloadAction :=
  if truthy report && truthy (prop_of report "download_url")
  then window_open (api +:+ to_string (prop_of report "download_url"))
  else download_refused "Download not available yet".

(** [report.analysis_results?.team_analysis || null] *)
Definition teamAnalysis (report : JsVal) : JsVal :=
  let a := prop_of report "analysis_results" in
  or_else (match a with
           | VUndefined | VNull => VUndefined
           | _ => prop_of a "team_analysis"
           end) VNull.

Inductive RightColumn : Type :=
| PlayerAnalysis (team : JsVal)
| BeingGenerated
| GenerationFailed
| NoAnalysisAvailable.

Inductive DetailsPage : Type :=
| ReportNotFound
| Details (download_button_disabled : bool)
          (team_analysis_panel : option JsVal)
          (right_column : RightColumn).

(** What [ReportDetailsPage] chooses to render once loading is over: the
    state of the download button, the value handed to the team analysis
    panel, and the right column.  The panel itself reads
    [offensive_style], [defensive_style], [team_strengths] and [players]
    of that value; its rendering is not part of this definition. *)
Definition ReportDetailsPage (report : JsVal) : DetailsPage :=
  if negb (truthy report) then ReportNotFound
  else
    let st := prop_of report "status" in
    let team := teamAnalysis report in
    Details
      (download_disabled report)
      (if truthy team then Some team else None)
      (if strict_eq_str st "completed" && truthy team then PlayerAnalysis team
       else if strict_eq_str st "processing" || strict_eq_str st "queued"
       then BeingGenerated
       else if strict_eq_str st "failed" then GenerationFailed
       else NoAnalysisAvailable).

(** ** Vocabulary of the statements below *)

(** The integers that a JavaScript number holds exactly
    ([Number.isSafeInteger]). *)
Definition safe_integer (n : Z) : Prop := - 2 ^ 53 < n < 2 ^ 53.

(** A text of ASCII characters: on such a text the bytes of the model are
    the characters of JavaScript, its length is [.length], and the white
    space of [is_space] is that of [\s] and of [trim]. *)
Definition is_ascii (c : ascii) : bool :=
  match c with Ascii _ _ _ _ _ _ _ b7 => negb b7 end.

Definition ascii_text (s : string) : Prop :=
  Forall (λ c, is_ascii c = true) (String.list_ascii_of_string s).

(** The ids on which [parseInt] above is the function of JavaScript: an
    integer held exactly, or an ASCII text whose integer is held exactly;
    every value that is neither a number, a text nor an array is parsed
    to NaN by both. *)
Definition plain_id (v : JsVal) : Prop :=
  match v with
  | VNum n => safe_integer n
  | VStr s => ascii_text s ∧ ∀ k, parseInt (VStr s) = VNum k → safe_integer k
  | VArr _ => False
  | _ => True
  end.

(** Callbacks that do not throw. *)
Definition quiet (cb : Callbacks) : Prop :=
  (∀ v, onSuccess cb v = None) ∧ (∀ v, onError cb v = None).

Definition is_string (v : JsVal) : Prop := ∃ s, v = VStr s.

(** A network failure, a response that is not OK, a body that is not
    JSON, or a body whose [status] is not ['success']. *)
Definition failed (out : Fetch) : Prop :=
  match out with
  | Rejects _ => True
  | Resolves _ (NotJson _) => True
  | Resolves ok (JsonBody j) =>
      ok = false
      ∨ strict_eq_str (prop_of (of_json j) "status") "success" = false
  end.

(** One request [rq] is sent, one callback is called, the promise is
    fulfilled; on a failure the callback is [onError], and its argument is
    a string or else the truthy [message] property of the JSON body of an
    OK response. *)
Definition calls_back_once (net : Request → Fetch) (rq : Request) (w : World)
    (res : Result JsVal () * World) : Prop :=
  ∃ call,
    res = (Returned (),
           mkWorld (sent w ++ [rq]) (invoked w ++ [call]) (ui w))
    ∧ (failed (net rq) →
       ∃ arg, call = OnError arg
              ∧ (is_string arg
                 ∨ ∃ j, net rq = Resolves true (JsonBody j)
                        ∧ arg = prop_of (of_json j) "message"
                        ∧ truthy arg = true)).

(** "Every failure is translated into an [onError] call carrying a message
    string." *)
Definition error_carries_a_string (net : Request → Fetch) (f : Js unit)
    (w : World) : Prop :=
  ∀ rq,
    sent (f w).2 = sent w ++ [rq] → failed (net rq) →
    ∃ m, invoked (f w).2 = invoked w ++ [OnError (VStr m)].

End Client.

(* ===================================================================== *)
(** * From the service to the client

    The JSON rendering of the dictionaries the routes return, as the
    client reads them from [data.data].  An instant is rendered as a
    non-empty string (its ISO form is not modelled), [None] as [null].    *)

Module Wire.
Import Service.

Definition opt {A} (f : A → Json) (o : option A) : Json :=
  match o with Some a => f a | None => JNull end.

Definition isoformat (t : Z) : Json := JStr ("@" +:+ Z_to_string t).

Definition encode_dict (d : ReportDict) : list (string * Json) :=
  [("id", JNum (d_id d));
   ("title", JStr (d_title d));
   ("description", opt JStr (d_description d));
   ("video_id", JNum (d_video_id d));
   ("video_title", opt JStr (d_video_title d));
   ("team_name", opt JStr (d_team_name d));
   ("opponent_name", opt JStr (d_opponent_name d));
   ("game_date", opt isoformat (d_game_date d));
   ("status", JStr (d_status d));
   ("user_id", JNum (d_user_id d));
   ("created_at", isoformat (d_created_at d));
   ("updated_at", isoformat (d_updated_at d));
   ("completed_at", opt isoformat (d_completed_at d));
   ("download_url", opt JStr (d_download_url d))].

Definition encode_summary (d : ReportDict) : Json := JObj (encode_dict d).

Definition encode_detail (d : ReportDetail) : Json :=
  JObj (encode_dict (summary d)
          ++ [("analysis_results", opt JObj (d_analysis_results d))]).

End Wire.

(* ===================================================================== *)
(** * Scenarios

    Concrete jobs, collaborators, sessions and pages used to exercise the
    statements, and the sentences of the specification that the code is
    compared with as they are written.                                     *)

Module Scenarios.
Import Service.

Definition report_in_1 : ReportCreate :=
  mkReportCreate "Scouting Report - Team X"
    (Some "Scouting report for Team X") 123 (Some "Game 1")
    (Some "Team X") (Some "Team Y") None 456.

Definition video_123 : PyDict :=
  [("id", JNum 123); ("title", JStr "Sample Game Video 123");
   ("duration", JNum 7200)].

Definition analysis_123 : PyDict :=
  [("video_id", JNum 123);
   ("team_analysis",
    JObj [("team_name", JStr "Opponent Team"); ("players", JArr []);
          ("team_strengths", JArr [JStr "Good ball movement"])])].

Definition pdf_of (r : Report) : string :=
  "/app/reports/scouting_report_" +:+ Z_to_string (id r) +:+ ".pdf".

(** Scenario A: every step succeeds. *)
Definition all_succeed : Collaborators :=
  mkCollaborators (λ _, Returned video_123) (λ _, Returned analysis_123)
    (λ _ r, Returned (pdf_of r)).

(** Scenario C: metadata and analysis succeed, rendering raises. *)
Definition render_fails : Collaborators :=
  mkCollaborators (λ _, Returned video_123) (λ _, Returned analysis_123)
    (λ _ _, Raised "RenderFailed").

(** Job 1, as [create_report] leaves it at instant 10. *)
Definition queued_1 : Report := new_row 10 1 report_in_1.

Definition session_queued : Session :=
  mkSession {[1 := queued_1]} 2 [] [] ∅.

(** Job 1 after a successful run that ended at instant 20. *)
Definition completed_1 : Report :=
  completed_row 20 (pdf_of queued_1) analysis_123 queued_1.

Definition session_completed : Session :=
  mkSession {[1 := completed_1]} 2 [] [] {[pdf_of queued_1]}.

(** The running service after the creation of job 1, after the start of
    its run, and after the run has ended well. *)
Definition created_1 : System.State :=
  System.create 10 report_in_1 System.initial.
Definition started_1 : System.State := System.start 1 created_1.
Definition finished_1 : System.State :=
  System.finish all_succeed 20 1 started_1.

(** Scenario D: three jobs of owner 456 and one of owner 7. *)
Definition job (i owner created : Z) : Report :=
  new_row created i
    (mkReportCreate "Report" None 123 None None None None owner).

Definition session_D : Session :=
  mkSession {[1 := job 1 456 10; 2 := job 2 456 20; 3 := job 3 7 25;
              4 := job 4 456 30]} 5 [] [] ∅.

(** "If any step fails the job ends in [failed] with [completed_at] set
    and with artifact and analysis still null." *)
Definition failed_with_completion_time (c : Collaborators) (now : Z)
    (s : Session) (report_id : Z) : Prop :=
  ∀ r e,
    table s !! report_id = Some r →
    run_steps c (processing_row r) = Raised e →
    ∃ r', table (generate_report c now report_id s).2 !! report_id = Some r'
          ∧ status r' = "failed" ∧ is_Some (completed_at r')
          ∧ file_path r' = None ∧ analysis_results r' = None.

(** "[RunJob] on a job whose status is not [queued] is a no-op." *)
Definition reentry_is_noop (c : Collaborators) (now : Z) (s : Session)
    (report_id : Z) : Prop :=
  ∀ r,
    table s !! report_id = Some r → status r ≠ "queued" →
    (generate_report c now report_id s).2 = s.

(** "After a successful delete -- which also removes the associated
    artifact -- [GetJob] on the same id returns NotFound." *)
Definition delete_removes_artifact (s : Session) (report_id : Z) : Prop :=
  ∀ r s',
    table s !! report_id = Some r →
    delete_report_route report_id s
    = (Returned (Success () "Report deleted successfully" 200), s') →
    (get_report_route report_id s').1
    = Returned (HTTPException 404 "Report not found")
    ∧ ∀ p, file_path r = Some p → p ∉ files s'.

(** A page with one video, selected, and a title typed in. *)
Definition page_1 : Client.ScoutingReportPage :=
  Client.mkScoutingReportPage
    [Client.VObj [("id", Client.VNum 123); ("title", Client.VStr "Game 1")]]
    (Client.VNum 123) "Scouting Report - Team X" "Team X" "Team Y"
    (Client.VObj [("id", Client.VNum 456)]).

Definition body_1 : Json :=
  JObj [("title", JStr "Scouting Report - Team X");
        ("description", JStr "Scouting report for Team X");
        ("video_id", JNum 123);
        ("video_title", JStr "Game 1");
        ("team_name", JStr "Team X");
        ("opponent_name", JStr "Team Y");
        ("user_id", JNum 456)].

(** A server that answers every request with
    [{"status": "error", "message": 5}]. *)
Definition numeric_message : Client.Request → Client.Fetch :=
  λ _, Client.Resolves true
         (Client.JsonBody (JObj [("status", JStr "error"); ("message", JNum 5)])).

(** A server that is down. *)
Definition server_down : Client.Request → Client.Fetch :=
  λ _, Client.Rejects "Failed to fetch".

Definition silent : Client.Callbacks :=
  Client.mkCallbacks (λ _, None) (λ _, None).

(** A server that answers every request with a list of one report, and a
    success callback that throws. *)
Definition one_report : Client.Request → Client.Fetch :=
  λ _, Client.Resolves true
         (Client.JsonBody
            (JObj [("status", JStr "success");
                   ("data", JArr [JObj [("id", JNum 1)]])])).

Definition throwing_onSuccess : Client.Callbacks :=
  Client.mkCallbacks (λ _, Some (Client.VError "setReports failed"))
    (λ _, None).

Definition fresh_world : Client.World := Client.mkWorld [] [] [].

End Scenarios.

(* ===================================================================== *)
(** * The video analysis service

    [app/services/video_analysis_service.py] of the scouting service: the
    two collaborators of the pipeline that are among the sources.          *)

Global Instance Result_ret {E} : MRet (Result E) := λ A, Returned.
Global Instance Result_bind {E} : MBind (Result E) :=
  λ A B k m, match m with Returned a => k a | Raised e => Raised e end.

Module VideoAnalysis.

(** [v[key]] on a value that [json] produced: only a dict can be indexed
    by a string, and the key has to be there. *)
Definition subscript (v : Json) (key : string) : Result string Json :=
  match v with
  | JObj fields =>
      match obj_get fields key with
      | Some x => Returned x
      | None => Raised "KeyError"
      end
  | _ => Raised "TypeError"
  end.

(** [v.get(key)]: only a dict has the method; a missing key gives [None]. *)
Definition dict_get (v : Json) (key : string) : Result string Json :=
  match v with
  | JObj fields => Returned (default JNull (obj_get fields key))
  | _ => Raised "AttributeError"
  end.

(** The [httpx] response as the code reads it: [status_code], [text] and
    [json()], which raises when the body is not JSON. *)
Record HttpResponse : Type := mkHttpResponse {
  status_code : Z;
  text : string;
  json : Result string Json
}.

Section VideoAnalysisService.
Variable MAIN_BACKEND_URL : string.              (* settings.MAIN_BACKEND_URL *)
(** [await client.get(url, headers=..., timeout=30.0)]: a response, or the
    exception of a failed connection or of a timeout. *)
Variable client_get : string → Result string HttpResponse.
(** [self._generate_mock_team_analysis().dict()], a randomised stand-in
    whose draw is fixed here. *)
Variable team_analysis : Result string PyDict.
Variable loop_time : Z.               (* asyncio.get_event_loop().time() *)

(** The record [get_video_data] answers with when the fetch fails. *)
Definition sample_video (video_id : Z) : Json :=
  JObj [("id", JNum video_id);
        ("title", JStr ("Sample Game Video " +:+ Z_to_string video_id));
        ("description", JStr "Basketball game footage");
        ("streaming_url",
         JStr ("http://example.com/videos/" +:+ Z_to_string video_id));
        ("duration", JNum 3600);
        ("content_type", JStr "video/mp4")].

Definition video_url (video_id : Z) : string :=
  MAIN_BACKEND_URL +:+ "/api/videos/" +:+ Z_to_string video_id.

(** The body of the [try] statement of [get_video_data]:
<<
    async with httpx.AsyncClient() as client:
        response = await client.get(f"{settings.MAIN_BACKEND_URL}/api/videos/{video_id}", ...)
        if response.status_code != 200:
            logger.error(f"Error fetching video data: {response.text}")
            raise Exception(f"Failed to fetch video data: {response.status_code}")
        return response.json()["data"]
>>                                                                        *)
Definition fetch_video (video_id : Z) : Result string Json :=
  response ← client_get (video_url video_id);
  if decide (status_code response ≠ 200)
  then Raised ("Failed to fetch video data: "
                 +:+ Z_to_string (status_code response))
  else body ← json response; subscript body "data".

(** [get_video_data(video_id)]: the [try] above, and
<<
    except Exception as e:
        logger.error(f"Error fetching video data: {str(e)}")
        return {"id": video_id, "title": f"Sample Game Video {video_id}", ...}
>>                                                                        *)
Definition get_video_data (video_id : Z) : Result string Json :=
  match fetch_video video_id with
  | Returned video_data => Returned video_data
  | Raised e => Returned (sample_video video_id)
  end.

(** [analyze_video(video_data)]:
<<
    logger.info(f"Analyzing video: {video_data.get('id')}")
    await asyncio.sleep(5)
    team_analysis = self._generate_mock_team_analysis()
    return {"video_id": video_data.get("id"),
            "video_title": video_data.get("title"),
            "analysis_timestamp": asyncio.get_event_loop().time(),
            "team_analysis": team_analysis.dict()}
>>                                                                        *)
Definition analyze_video (video_data : Json) : Result string PyDict :=
  logged ← dict_get video_data "id";
  team ← team_analysis;
  video_id ← dict_get video_data "id";
  video_title ← dict_get video_data "title";
  mret [("video_id", video_id);
        ("video_title", video_title);
        ("analysis_timestamp", JNum loop_time);
        ("team_analysis", JObj team)].

(** The first two steps of the pipeline of [generate_report]:
    [video_data = await get_video_data(report.video_id)],
    [analysis_results = await analyze_video(video_data)]. *)
Definition fetch_and_analyze (video_id : Z) : Result string PyDict :=
  video_data ← get_video_data video_id;
  analyze_video video_data.

End VideoAnalysisService.
End VideoAnalysis.

(* ===================================================================== *)
(** * The event bus of the main backend

    [backend/app/core/events.py]: an in-memory publish/subscribe bus.
    Callbacks are Python callables; the bus keeps them in one [set] per
    event type, so a callback counts by identity.  A callback is named by
    a number here, and what it does when it is called is given apart.      *)

Module Events.

Inductive EventType : Type :=
| VIDEO_CREATED | VIDEO_UPDATED | VIDEO_DELETED | VIDEO_PROCESSED
| USER_CREATED | USER_UPDATED | USER_DELETED
| SYSTEM_STARTUP | SYSTEM_SHUTDOWN.

(** The value of the enumeration member. *)
Definition value (e : EventType) : string :=
  match e with
  | VIDEO_CREATED => "video.created" | VIDEO_UPDATED => "video.updated"
  | VIDEO_DELETED => "video.deleted" | VIDEO_PROCESSED => "video.processed"
  | USER_CREATED => "user.created" | USER_UPDATED => "user.updated"
  | USER_DELETED => "user.deleted"
  | SYSTEM_STARTUP => "system.startup" | SYSTEM_SHUTDOWN => "system.shutdown"
  end.

Global Instance EventType_eq_dec : EqDecision EventType.
Proof. solve_decision. Defined.

Definition EventType_code (e : EventType) : nat :=
  match e with
  | VIDEO_CREATED => 0 | VIDEO_UPDATED => 1 | VIDEO_DELETED => 2
  | VIDEO_PROCESSED => 3 | USER_CREATED => 4 | USER_UPDATED => 5
  | USER_DELETED => 6 | SYSTEM_STARTUP => 7 | SYSTEM_SHUTDOWN => 8
  end%nat.

Definition EventType_of_code (n : nat) : option EventType :=
  match n with
  | 0 => Some VIDEO_CREATED | 1 => Some VIDEO_UPDATED
  | 2 => Some VIDEO_DELETED | 3 => Some VIDEO_PROCESSED
  | 4 => Some USER_CREATED | 5 => Some USER_UPDATED
  | 6 => Some USER_DELETED | 7 => Some SYSTEM_STARTUP
  | 8 => Some SYSTEM_SHUTDOWN | _ => None
  end%nat.

Global Instance EventType_countable : Countable EventType.
Proof.
  apply (inj_countable EventType_code EventType_of_code). by intros [].
Defined.

Definition Callback : Type := nat.

(** One call [callback(event_type, data)] that the bus made. *)
Record Delivery : Type := mkDelivery {
  callee : Callback;
  event : EventType;
  payload : Json
}.

(** The bus ([self.subscribers]), with the calls it made and the lines it
    wrote with [logger.error], oldest first. *)
Record EventBus : Type := mkEventBus {
  subscribers : gmap EventType (gset Callback);
  delivered : list Delivery;
  errors : list string
}.

(** [EventBus()] *)
Definition new_bus : EventBus := mkEventBus ∅ [] [].

(** [subscribe(event_type, callback)]:
<<
    if event_type not in self.subscribers:
        self.subscribers[event_type] = set()
    self.subscribers[event_type].add(callback)
>>                                                                        *)
Definition subscribe (event_type : EventType) (callback : Callback)
    (bus : EventBus) : EventBus :=
  let subs :=
    match subscribers bus !! event_type with
    | None => <[event_type := ∅]> (subscribers bus)
    | Some _ => subscribers bus
    end in
  mkEventBus
    (<[event_type := {[callback]} ∪ default ∅ (subs !! event_type)]> subs)
    (delivered bus) (errors bus).

(** [unsubscribe(event_type, callback)]:
<<
    if event_type in self.subscribers and callback in self.subscribers[event_type]:
        self.subscribers[event_type].remove(callback)
>>                                                                        *)
Definition unsubscribe (event_type : EventType) (callback : Callback)
    (bus : EventBus) : EventBus :=
  match subscribers bus !! event_type with
  | Some subs =>
      if decide (callback ∈ subs)
      then mkEventBus (<[event_type := subs ∖ {[callback]}]> (subscribers bus))
             (delivered bus) (errors bus)
      else bus
  | None => bus
  end.

(** The callbacks [publish] would call for an event: the set
    [self.subscribers[event_type]], empty when there is none. *)
Definition listeners (bus : EventBus) (event_type : EventType)
  : gset Callback :=
  default ∅ (subscribers bus !! event_type).

(** How a call of a callback ends: it returns, it raises an [Exception]
    (with the text of [str(e)]), or it raises an exception that is not an
    [Exception] -- [KeyboardInterrupt], [SystemExit],
    [asyncio.CancelledError] -- given by the name of its class. *)
Inductive Outcome : Type :=
| Returns
| RaisesException (message : string)
| RaisesBaseException (class : string).

Definition raised (o : Outcome) : bool :=
  match o with RaisesException _ => true | _ => false end.

(** The calls of [subscribe] and [unsubscribe] made on the bus while a
    callback runs, by the callback or, when it is awaited, by another
    task. *)
Inductive Action : Type :=
| Subscribe (event_type : EventType) (callback : Callback)
| Unsubscribe (event_type : EventType) (callback : Callback).

Definition perform (a : Action) (bus : EventBus) : EventBus :=
  match a with
  | Subscribe event_type callback => subscribe event_type callback bus
  | Unsubscribe event_type callback => unsubscribe event_type callback bus
  end.

(** The bus after the actions, and whether one of them changed the set of
    [event_type]. *)
Fixpoint perform_all (event_type : EventType) (actions : list Action)
    (bus : EventBus) : EventBus * bool :=
  match actions with
  | [] => (bus, false)
  | a :: rest =>
      let changed :=
        bool_decide (listeners (perform a bus) event_type
                     ≠ listeners bus event_type) in
      let '(bus', touched) := perform_all event_type rest (perform a bus) in
      (bus', changed || touched)
  end.

Section Publish.
(** What a call [callback(event_type, data)] does: how it ends, and the
    actions on the bus made while it runs. *)
Variable behaviour : Callback → EventType → Json → Outcome * list Action.

(** [publish(event_type, data)]:
<<
    if event_type in self.subscribers:
        for callback in self.subscribers[event_type]:
            try:
                if asyncio.iscoroutinefunction(callback):
                    await callback(event_type, data)
                else:
                    callback(event_type, data)
            except Exception as e:
                logger.error(f"Error in event callback: {str(e)}")
>>
    The [for] statement iterates over the set itself, not over a copy,
    and the [try] statement is inside the loop.  An exception that is not
    an [Exception] leaves [publish] at once.  When the loop asks the
    iterator for its next member -- after every callback, the last one
    included -- and the set has another size than at the start, the
    iterator raises [RuntimeError], outside of the [try].  When the set
    was changed and has its old size, what the iterator yields next is
    not fixed by the language: the result is [None].  The loop visits the
    members in the order the set gives them, for which the order of
    [elements] stands. *)
Fixpoint deliver_all (event_type : EventType) (data : Json)
    (size_at_start : nat) (callbacks : list Callback) (bus : EventBus)
  : option (Result string unit * EventBus) :=
  match callbacks with
  | [] => Some (Returned (), bus)
  | callback :: rest =>
      let '(outcome, actions) := behaviour callback event_type data in
      let called :=
        mkEventBus (subscribers bus)
          (delivered bus ++ [mkDelivery callback event_type data])
          (errors bus) in
      let '(bus', touched) := perform_all event_type actions called in
      match outcome with
      | RaisesBaseException class => Some (Raised class, bus')
      | _ =>
          let logged :=
            match outcome with
            | RaisesException e =>
                mkEventBus (subscribers bus') (delivered bus')
                  (errors bus' ++ ["Error in event callback: " +:+ e])
            | _ => bus'
            end in
          if decide (size (listeners logged event_type) ≠ size_at_start)
          then Some (Raised "RuntimeError: Set changed size during iteration",
                     logged)
          else if touched : bool then None
          else deliver_all event_type data size_at_start rest logged
      end
  end.

Definition publish (event_type : EventType) (data : Json) (bus : EventBus)
  : option (Result string unit * EventBus) :=
  match subscribers bus !! event_type with
  | Some subs =>
      deliver_all event_type data (size subs) (elements subs) bus
  | None => Some (Returned (), bus)
  end.
End Publish.

End Events.

(* ===================================================================== *)
(** * The answers of the service on the wire

    [app/api/responses.py] and what FastAPI sends for a route.             *)

Module Responses.
Import Service.

(** [ResponseModel.success(data, message, status_code)] *)
Definition success (data : Json) (message : string) (status_code : Z)
  : PyDict :=
  [("status", JStr "success"); ("message", JStr message);
   ("data", data); ("code", JNum status_code)].

(** The HTTP response of a route.  A route that returns the dictionary of
    [ResponseModel.success] is answered with status 200 (no route of
    [reports.py] sets another one; the 202 of the creation is the [code]
    of the body) and that dictionary as JSON.  [raise HTTPException] is
    answered with its status code; the body is written by the handlers of
    [app/api/errors.py], which are not among the sources, and is left
    open.  A file is not JSON. *)
Definition http_response {A} (encode : A → Json)
    (error_body : Z → string → Client.ResponseBody) (r : Response A)
  : Client.Fetch :=
  match r with
  | Success data message code =>
      Client.Resolves true
        (Client.JsonBody (JObj (success (encode data) message code)))
  | HTTPException status_code detail =>
      Client.Resolves (bool_decide (200 ≤ status_code < 300))
        (error_body status_code detail)
  | FileResponse path filename media_type =>
      Client.Resolves true (Client.NotJson "Unexpected token")
  end.

End Responses.

(* ===================================================================== *)
(** * The browser side of the client

    The models ([models/auth.js], [models/user.js], [models/video.js]),
    the controllers that use [axios], and the handlers of the pages.       *)

Module Browser.
Import Client.

(** ** More of JavaScript *)

(** [v?.k] *)
Definition opt_chain (v : JsVal) (k : string) : JsVal :=
  match v with
  | VUndefined | VNull => VUndefined
  | _ => prop_of v k
  end.

(** [a === b] for primitives.  Two objects are equal when they are the
    same object, which the values do not tell: the comparisons below have
    a primitive on one side at least. *)
Definition strict_eq (a b : JsVal) : bool :=
  match a, b with
  | VUndefined, VUndefined | VNull, VNull => true
  | VBool x, VBool y => bool_decide (x = y)
  | VNum x, VNum y => bool_decide (x = y)
  | VStr x, VStr y => bool_decide (x = y)
  | _, _ => false
  end.

(** [{...obj, k: v}] and [obj.k = v] on an object. *)
Fixpoint set_prop (props : list (string * JsVal)) (k : string) (v : JsVal)
  : list (string * JsVal) :=
  match props with
  | [] => [(k, v)]
  | (k', v') :: rest =>
      if decide (k' = k) then (k, v) :: rest
      else (k', v') :: set_prop rest k v
  end.

(** [new Date(x)]: an object that holds the value it was made from. *)
Definition new_Date (x : JsVal) : JsVal := VObj [("[[DateValue]]", x)].

(** ** [localStorage]

    The storage holds texts by key.  A text that is the JSON of a document
    is represented by the document, any other text by its characters:
    [JSON.parse] of the first is the value of the document, of the second
    a [SyntaxError].                                                       *)

Inductive Text : Type :=
| Doc (document : Json)
| Plain (chars : string).

(** [JSON.parse(text)] *)
Definition JSON_parse (t : Text) : Result JsVal JsVal :=
  match t with
  | Doc j => Returned (of_json j)
  | Plain s => Raised (VError "Unexpected token in JSON")
  end.

(** The text [setItem] stores for [JSON.stringify(v)]: the string
    ["undefined"] when there is no rendering. *)
Definition JSON_text (v : JsVal) : Text :=
  match stringify v with
  | Some j => Doc j
  | None => Plain "undefined"
  end.

(** Truthiness of a string. *)
Definition text_truthy (t : Text) : bool :=
  match t with
  | Doc _ => true
  | Plain s => bool_decide (s ≠ "")
  end.

(** ** The state of the page *)

(** The state of [ToastProvider]. *)
Record Toast : Type := mkToast {
  open : bool;
  message : JsVal;
  severity : string;
  duration : Z
}.

Inductive Effect : Type :=
| setToast (t : Toast)                  (* ToastProvider *)
| setState (setter : string) (v : JsVal) (* a setter of [useState] *)
| navigate (to : string)                (* react-router *)
| onRefresh_called.                     (* the [onRefresh] of a card *)

(** A request as a controller asks [axios] for it. *)
Record AxiosRequest : Type := mkAxiosRequest {
  a_method : string;
  a_url : string;
  a_headers : list (string * string);
  a_data : JsVal
}.

Record Env : Type := mkEnv {
  localStorage : gmap string Text;
  world : World;                         (* what [fetch] and the scouting
                                            controllers did *)
  requests : list AxiosRequest;          (* what [axios] was asked *)
  authorization : option string;         (* axios.defaults.headers.common
                                            ['Authorization'] *)
  effects : list Effect                  (* what the page was told, oldest
                                            first *)
}.

Definition Br (A : Type) : Type := ES Env JsVal A.

Definition getItem (key : string) : Br (option Text) :=
  e ← get_state; mret (localStorage e !! key).

Definition setItem (key : string) (t : Text) : Br unit :=
  modify (λ e, mkEnv (<[key := t]> (localStorage e)) (world e) (requests e)
                 (authorization e) (effects e)).

Definition removeItem (key : string) : Br unit :=
  modify (λ e, mkEnv (delete key (localStorage e)) (world e) (requests e)
                 (authorization e) (effects e)).

Definition set_authorization (h : option string) : Br unit :=
  modify (λ e, mkEnv (localStorage e) (world e) (requests e) h (effects e)).

Definition tell (x : Effect) : Br unit :=
  modify (λ e, mkEnv (localStorage e) (world e) (requests e)
                 (authorization e) (effects e ++ [x])).

(** [showSuccess(message)] and [showError(message)] of [useToast], with
    the default duration. *)
Definition showSuccess (message : JsVal) : Br unit :=
  tell (setToast (mkToast true message "success" 6000)).

Definition showError (message : JsVal) : Br unit :=
  tell (setToast (mkToast true message "error" 6000)).

(** [try { m } finally { f }] *)
Definition try_finally {A} (m : Br A) (f : Br unit) : Br A :=
  λ e, match m e with
       | (r, e') =>
           match f e' with
           | (Returned _, e'') => (r, e'')
           | (Raised x, e'') => (Raised x, e'')
           end
       end.

(** [if (f) f(x)] *)
Definition call_if_given (f : option (JsVal → Br unit)) (x : JsVal)
  : Br unit :=
  match f with
  | Some f => f x
  | None => mret ()
  end.

(** [v.k] inside the page's monad. *)
Definition get (v : JsVal) (k : string) : Br JsVal :=
  match v with
  | VUndefined | VNull =>
      raise (VError ("Cannot read properties of " +:+ to_string v
                       +:+ " (reading '" +:+ k +:+ "')"))
  | _ => mret (prop_of v k)
  end.

(** ** [models/auth.js] *)

Definition USER_STORAGE_KEY : string := "user".

(** [getUserFromStorage]:
<<
    try {
      const userStr = localStorage.getItem(USER_STORAGE_KEY);
      return userStr ? JSON.parse(userStr) : null;
    } catch (error) { console.error(...); return null; }
>>                                                                        *)
Definition getUserFromStorage : Br JsVal :=
  try_except
    (userStr ← getItem USER_STORAGE_KEY;
     match userStr with
     | Some t => if text_truthy t then of_result (JSON_parse t) else mret VNull
     | None => mret VNull
     end)
    (λ error, mret VNull).

(** [saveUserToStorage(userData)] *)
Definition saveUserToStorage (userData : JsVal) : Br unit :=
  try_except (setItem USER_STORAGE_KEY (JSON_text userData))
    (λ error, mret ()).

(** [removeUserFromStorage()] *)
Definition removeUserFromStorage : Br unit := removeItem USER_STORAGE_KEY.

(** [isAuthenticated(user)]: [!!user && !!user.token] *)
Definition isAuthenticated (user : JsVal) : bool :=
  truthy user && truthy (prop_of user "token").

(** ** The token as the [axios] configuration reads it

    [getAuthToken] of the module that installs the request interceptor:
<<
    try {
      const userData = localStorage.getItem('userData');
      if (userData) { const parsedData = JSON.parse(userData);
                      return parsedData.token; }
      return null;
    } catch (error) { console.error(...); return null; }
>>                                                                        *)
Definition getAuthToken : Br JsVal :=
  try_except
    (userData ← getItem "userData";
     match userData with
     | Some t =>
         if text_truthy t
         then parsedData ← of_result (JSON_parse t); get parsedData "token"
         else mret VNull
     | None => mret VNull
     end)
    (λ error, mret VNull).

(** ** [config/api.js] *)

Section Api.
Variable API_URL : string.   (* process.env.REACT_APP_API_URL || 'http://localhost:8000/api' *)

Definition VIDEOS_LIST : string := API_URL +:+ "/videos".
Definition VIDEOS_STREAM (id : JsVal) : string :=
  API_URL +:+ "/videos/stream/" +:+ to_string id.
Definition AUTH_REGISTER : string := API_URL +:+ "/auth/register".
Definition AUTH_ME : string := API_URL +:+ "/auth/me".

(** ** [models/video.js] *)

(** The metadata kept in the storage for a video: the body of the [try]
    statement of [formatVideoData],
<<
    const storageKey = `video_metadata_${videoData.id}`;
    const storedMetadata = localStorage.getItem(storageKey);
    if (storedMetadata) {
      const metadata = JSON.parse(storedMetadata);
      tags = metadata.tags || [];
      color = metadata.color || '';
      folder = metadata.folder || 'Uncategorized';
    }
>>
    with the three variables as they stand at its end. *)
Definition metadata_key (id : JsVal) : string :=
  "video_metadata_" +:+ to_string id.

Definition no_metadata : JsVal * JsVal * JsVal :=
  (VArr [], VStr "", VStr "Uncategorized").

Definition stored_metadata (videoData : JsVal) : Br (JsVal * JsVal * JsVal) :=
  try_except
    (storedMetadata ← getItem (metadata_key (prop_of videoData "id"));
     match storedMetadata with
     | Some t =>
         if text_truthy t
         then metadata ← of_result (JSON_parse t);
              tags ← get metadata "tags";
              color ← get metadata "color";
              folder ← get metadata "folder";
              mret (or_else tags (VArr []), or_else color (VStr ""),
                    or_else folder (VStr "Uncategorized"))
         else mret no_metadata
     | None => mret no_metadata
     end)
    (λ error, mret no_metadata).

(** [formatVideoData(videoData)] *)
Definition formatVideoData (videoData : JsVal) : Br JsVal :=
  if negb (truthy videoData) then mret VNull
  else
    let id := prop_of videoData "id" in
    let videoUrl :=
      if truthy id then VStr (VIDEOS_STREAM id +:+ "?self=true")
      else if truthy (prop_of videoData "streaming_url")
           then prop_of videoData "streaming_url"
           else VStr "" in
    '(tags, color, folder) ← stored_metadata videoData;
    mret (VObj
      [("id", id);
       ("title", prop_of videoData "title");
       ("description", or_else (prop_of videoData "description") (VStr ""));
       ("url", videoUrl);
       ("file_path", or_else (prop_of videoData "file_path") (VStr ""));
       ("thumbnail_url", or_else (prop_of videoData "thumbnail_url") VNull);
       ("createdAt",
        if truthy (prop_of videoData "created_at")
        then new_Date (prop_of videoData "created_at") else VNull);
       ("duration", or_else (prop_of videoData "duration") (VNum 0));
       ("processingStatus",
        or_else (prop_of videoData "processing_status") (VStr "unknown"));
       ("tags", or_else (prop_of videoData "tags") tags);
       ("color", or_else (prop_of videoData "color") color);
       ("folder", or_else (prop_of videoData "folder") folder)]).

(** [videosData.map(formatVideoData)] *)
Fixpoint map_formatVideoData (videos : list JsVal) : Br (list JsVal) :=
  match videos with
  | [] => mret []
  | v :: rest =>
      v' ← formatVideoData v;
      rest' ← map_formatVideoData rest;
      mret (v' :: rest')
  end.

(** [formatVideoList(videosData)]:
    [if (!videosData || !Array.isArray(videosData)) return [];] *)
Definition formatVideoList (videosData : JsVal) : Br JsVal :=
  match videosData with
  | VArr videos => formatted ← map_formatVideoData videos; mret (VArr formatted)
  | _ => mret (VArr [])
  end.

(** [isVideoReady(video)]: the answer, and the video as the call leaves it
    (the function sets [video.url] when it is missing). *)
Definition isVideoReady (video : JsVal) : bool * JsVal :=
  if truthy video && truthy (prop_of video "id")
  then
    let st := prop_of video "processingStatus" in
    if truthy st && negb (strict_eq st (VStr "completed"))
       && negb (strict_eq st (VStr "unknown"))
    then (false, video)
    else if truthy (prop_of video "url") then (true, video)
    else (true,
          match video with
          | VObj props =>
              VObj (set_prop props "url"
                      (VStr (VIDEOS_STREAM (prop_of video "id")
                               +:+ "?self=true")))
          | _ => video
          end)
  else (false, video).

End Api.

End Browser.

(* ===================================================================== *)
(** * Regular expressions

    The fragment the client's patterns are written in: character classes,
    concatenation and repetition, matched against the whole text (the
    patterns are anchored with [^] and [$]).  Matching is by derivatives.  *)

Module Regex.

Inductive Re : Type :=
| Never                          (* matches nothing *)
| Empty                          (* matches the empty text *)
| Class (p : ascii → bool)       (* one character of a class *)
| Seq (a b : Re)
| Alt (a b : Re)
| Star (a : Re).

(** [a+] *)
Definition Plus (a : Re) : Re := Seq a (Star a).

Fixpoint nullable (r : Re) : bool :=
  match r with
  | Never => false
  | Empty => true
  | Class _ => false
  | Seq a b => nullable a && nullable b
  | Alt a b => nullable a || nullable b
  | Star _ => true
  end.

Fixpoint derive (c : ascii) (r : Re) : Re :=
  match r with
  | Never | Empty => Never
  | Class p => if p c then Empty else Never
  | Seq a b =>
      if nullable a then Alt (Seq (derive c a) b) (derive c b)
      else Seq (derive c a) b
  | Alt a b => Alt (derive c a) (derive c b)
  | Star a => Seq (derive c a) (Star a)
  end.

(** [/^r$/.test(s)] *)
Fixpoint test (r : Re) (s : string) : bool :=
  match s with
  | EmptyString => nullable r
  | String c s' => test (derive c r) s'
  end.

End Regex.

Module User.
Import Client Browser Regex.

(** ** [models/user.js] *)

(** [[^\s@]]: any character but white space and [@].  On ASCII text
    ([ascii_text]) this is JavaScript's class; its [\s] also holds the
    Unicode white space, which a byte string spells with several bytes. *)
Definition not_space_nor_at (c : ascii) : bool :=
  negb (is_space c) && negb (Ascii.eqb c "@").

(** [/^[^\s@]+@[^\s@]+\.[^\s@]+$/] *)
Definition emailRegex : Re :=
  Seq (Plus (Class not_space_nor_at))
    (Seq (Class (Ascii.eqb "@"))
       (Seq (Plus (Class not_space_nor_at))
          (Seq (Class (Ascii.eqb "."))
             (Plus (Class not_space_nor_at))))).

(** [isValidEmail(email)]: [if (!email) return false;] then
    [emailRegex.test(email)], which matches against the string of the
    value. *)
Definition isValidEmail (email : JsVal) : bool :=
  if negb (truthy email) then false
  else test emailRegex (to_string email).

(** A field of a form: the text typed in, or [undefined] when the caller
    passed no such field.  Texts are byte strings: their lengths and the
    classes of their characters are JavaScript's on ASCII text. *)
Definition Field : Type := option string.

Definition field_value (f : Field) : JsVal :=
  match f with Some s => VStr s | None => VUndefined end.

(** The result of [validatePassword]: [{ isValid, message }]. *)
Record PasswordCheck : Type := mkPasswordCheck {
  isValid : bool;
  check_message : string
}.

(** [validatePassword(password)].  [String.length] counts bytes, which is
    [password.length] (UTF-16 units) on ASCII text. *)
Definition validatePassword (password : Field) : PasswordCheck :=
  match password with
  | None | Some EmptyString => mkPasswordCheck false "Password is required"
  | Some s =>
      if decide (String.length s < 6)%nat
      then mkPasswordCheck false "Password must be at least 6 characters long"
      else mkPasswordCheck true ""
  end.

Record FormData : Type := mkFormData {
  email : Field;
  username : Field;
  password : Field;
  confirmPassword : Field
}.

(** [validateRegistration(formData)]: the [errors] object as the list of
    its properties, in the order they were set; [isValid] is
    [Object.keys(errors).length === 0].  Lengths are counted in bytes:
    the function of the sources on forms typed in ASCII ([ascii_form]). *)
Definition validateRegistration (formData : FormData)
  : list (string * string) :=
  (if negb (truthy (field_value (email formData)))
   then [("email", "Email is required")]
   else if negb (isValidEmail (field_value (email formData)))
        then [("email", "Invalid email format")]
        else [])
  ++ (match username formData with
      | None | Some EmptyString => [("username", "Username is required")]
      | Some s =>
          if decide (String.length s < 3)%nat
          then [("username", "Username must be at least 3 characters long")]
          else []
      end)
  ++ (let passwordValidation := validatePassword (password formData) in
      if negb (isValid passwordValidation)
      then [("password", check_message passwordValidation)]
      else [])
  ++ (if negb (bool_decide (password formData = confirmPassword formData))
      then [("confirmPassword", "Passwords do not match")]
      else []).

Definition registration_is_valid (formData : FormData) : bool :=
  bool_decide (validateRegistration formData = []).

End User.

(* ===================================================================== *)
(** * The controllers that use [axios] *)

Module Controllers.
Import Client Browser User.

Section Axios.
Variable API_URL : string.
(** What [axios] does with a request it is asked for (its request
    interceptor and the network), given the default [Authorization] header
    at that moment: the promise is fulfilled with a response object
    ([data], [status]) or rejected with an error. *)
Variable axios : option string → AxiosRequest → Result JsVal JsVal.

Definition request (rq : AxiosRequest) : Br JsVal :=
  e ← get_state;
  modify (λ e, mkEnv (localStorage e) (world e) (requests e ++ [rq])
                 (authorization e) (effects e));;
  of_result (axios (authorization e) rq).

(** [error.response?.data?.detail || error.response?.data?.message ||
     error.message || fallback] *)
Definition error_message (error : JsVal) (fallback : string) : Br JsVal :=
  response ← get error "response";
  let data := opt_chain response "data" in
  mret (or_else (opt_chain data "detail")
          (or_else (opt_chain data "message")
             (or_else (prop_of error "message") (VStr fallback)))).

(** The lines every controller of [videoController.js] starts with:
<<
    const userData = getUserFromStorage();
    if (!userData || !userData.token) {
      const errorMessage = 'Authentication required';
      if (onError) onError(errorMessage);
      throw new Error(errorMessage);
    }
>>                                                                        *)
Definition require_token (onError : option (JsVal → Br unit)) : Br JsVal :=
  userData ← getUserFromStorage;
  if negb (truthy userData) || negb (truthy (prop_of userData "token"))
  then call_if_given onError (VStr "Authentication required");;
       raise (new_Error (VStr "Authentication required"))
  else mret userData.

Definition bearer (userData : JsVal) : list (string * string) :=
  [("Authorization", "Bearer " +:+ to_string (prop_of userData "token"))].

(** The [catch] block every controller ends with. *)
Definition report_and_rethrow (onError : option (JsVal → Br unit))
    (fallback : string) (error : JsVal) : Br JsVal :=
  errorMessage ← error_message error fallback;
  call_if_given onError errorMessage;;
  raise error.

(** ** [videoController.js] *)

Definition getVideos (onSuccess onError : option (JsVal → Br unit))
  : Br JsVal :=
  try_except
    (userData ← require_token onError;
     response ← request
       (mkAxiosRequest "GET" (VIDEOS_LIST API_URL +:+ "?self=true")
          (bearer userData) VUndefined);
     data ← get response "data";
     formattedVideos ← formatVideoList API_URL data;
     call_if_given onSuccess formattedVideos;;
     mret formattedVideos)
    (report_and_rethrow onError "Failed to fetch videos").

(** [updateVideo(videoData, ...)]: tags, colour and folder are kept in the
    storage, nothing is sent. *)
Definition updateVideo (videoData : JsVal)
    (onSuccess onError : option (JsVal → Br unit)) : Br JsVal :=
  try_except
    (userData ← require_token onError;
     id ← get videoData "id";
     setItem (metadata_key id)
       (JSON_text
          (VObj [("tags", or_else (prop_of videoData "tags") (VArr []));
                 ("color", or_else (prop_of videoData "color") (VStr ""));
                 ("folder",
                  or_else (prop_of videoData "folder")
                    (VStr "Uncategorized"))]));;
     call_if_given onSuccess videoData;;
     mret videoData)
    (report_and_rethrow onError "Failed to update video").

(** ** [authController.js] *)

Definition register (userData : FormData)
    (onSuccess onError : option (JsVal → Br unit)) : Br JsVal :=
  try_except
    (match validateRegistration userData with
     | (_, errorMessage) :: _ =>
         call_if_given onError (VStr errorMessage);;
         mret VUndefined
     | [] =>
         response ← request
           (mkAxiosRequest "POST" (AUTH_REGISTER API_URL) []
              (VObj [("email", field_value (email userData));
                     ("username", field_value (username userData));
                     ("password", field_value (password userData))]));
         status ← get response "status";
         if strict_eq status (VNum 200) || strict_eq status (VNum 201)
         then data ← get response "data";
              call_if_given onSuccess data;;
              mret data
         else raise (new_Error (VStr "Registration failed"))
     end)
    (report_and_rethrow onError "Registration failed. Please try again.").

(** [checkAuth()] *)
Definition checkAuth : Br JsVal :=
  userData ← getUserFromStorage;
  if negb (truthy userData) || negb (truthy (prop_of userData "token"))
  then mret VNull
  else
    try_except
      (set_authorization
         (Some ("Bearer " +:+ to_string (prop_of userData "token")));;
       response ← request (mkAxiosRequest "GET" (AUTH_ME API_URL) [] VUndefined);
       data ← get response "data";
       if truthy data
       then mret (match userData with
                  | VObj props => VObj (set_prop props "user" data)
                  | _ => VObj [("user", data)]
                  end)
       else mret userData)
      (λ error, removeUserFromStorage;; set_authorization None;; mret VNull).

(** ** [AuthContext.jsx] *)

(** [register(email, username, password)] of the context:
    [registerUser({ email, username, password }, () => {})]. *)
Definition AuthContext_register (email username password : Field)
  : Br JsVal :=
  try_except
    (register (mkFormData email username password None)
       (Some (λ _, mret ())) None)
    (λ error, raise error).

End Axios.

(** ** Vocabulary of the statements about the controllers *)

(** A callback that returns. *)
Definition returns (f : JsVal → Br unit) : Prop :=
  ∀ v e, (f v e).1 = Returned ().

(** The message a controller reports for an error. *)
Definition reported (error : JsVal) (fallback : string) : JsVal :=
  let data := opt_chain (prop_of error "response") "data" in
  or_else (opt_chain data "detail")
    (or_else (opt_chain data "message")
       (or_else (prop_of error "message") (VStr fallback))).

(** The browser after [axios] was asked [rq]. *)
Definition after_request (e : Env) (rq : AxiosRequest) : Env :=
  mkEnv (localStorage e) (world e) (requests e ++ [rq]) (authorization e)
    (effects e).

End Controllers.

(* ===================================================================== *)
(** * The handlers of the pages *)

Module Pages.
Import Client Browser User Controllers.

(** ** Calling a scouting controller from a page

    The callbacks a page passes to the controllers of
    [scoutingController.js] set state and show toasts; they do not throw.
    The controller is run with callbacks that return, and the calls it
    made are handed to the callbacks of the page in order. *)

Definition returning : Callbacks := mkCallbacks (λ _, None) (λ _, None).

Definition lift {A} (m : Js A) : Br A :=
  λ e, match m (world e) with
       | (r, w) =>
           (r, mkEnv (localStorage e) w (requests e) (authorization e)
                 (effects e))
       end.

Fixpoint hand_over (calls : list Call) (onSuccess onError : JsVal → Br unit)
  : Br unit :=
  match calls with
  | [] => mret ()
  | OnSuccess arg :: rest =>
      onSuccess arg;; hand_over rest onSuccess onError
  | OnError arg :: rest =>
      onError arg;; hand_over rest onSuccess onError
  end.

Definition run_controller (controller : Callbacks → Js unit)
    (onSuccess onError : JsVal → Br unit) : Br unit :=
  before ← get_state;
  lift (controller returning);;
  after ← get_state;
  hand_over (drop (length (invoked (world before))) (invoked (world after)))
    onSuccess onError.

Section Handlers.
Variable API_URL : string.             (* the main backend *)
Variable axios : option string → AxiosRequest → Result JsVal JsVal.
Variable api : string.                 (* REACT_APP_SCOUTING_API_URL *)
Variable net : Request → Fetch.

Definition setLoading (b : bool) : Br unit :=
  tell (setState "setLoading" (VBool b)).

(** ** The Scouting Report page *)

(** [fetchData] of the effect that runs when the page is mounted:
<<
    try {
      setLoading(true);
      await getVideos((videosData) => setVideos(videosData),
                      (error) => showError(error));
      await getReports((reportsData) => setReports(reportsData),
                       (error) => showError(error));
      setLoading(false);
    } catch (error) { console.error(...); setLoading(false); }
>>                                                                        *)
Definition fetchData : Br unit :=
  try_except
    (setLoading true;;
     getVideos API_URL axios
       (Some (λ videosData, tell (setState "setVideos" videosData)))
       (Some (λ error, showError error));;
     run_controller (getReports api net)
       (λ reportsData, tell (setState "setReports" reportsData))
       (λ error, showError error);;
     setLoading false)
    (λ error, setLoading false).

(** ** The report card *)

(** [handleDelete(event)] of [ReportCard]; [onRefresh] is the property of
    the card, which may be missing:
<<
    event.stopPropagation();
    setAnchorEl(null);
    try {
      await deleteReport(report.id,
        () => { showSuccess('Report deleted successfully');
                if (onRefresh) onRefresh(); },
        (error) => showError(error));
    } catch (error) { console.error(...); showError('Failed to delete report'); }
>>                                                                        *)
Definition handleDelete (report : JsVal) (onRefresh : bool) : Br unit :=
  tell (setState "setAnchorEl" VNull);;
  try_except
    (id ← get report "id";
     run_controller (λ cb, deleteReport api net cb id)
       (λ _, showSuccess (VStr "Report deleted successfully");;
             if onRefresh then tell onRefresh_called else mret ())
       (λ error, showError error))
    (λ error, showError (VStr "Failed to delete report")).

(** ** The Report Details page *)

(** [fetchReport] of the effect that runs when [reportId] changes. *)
Definition fetchReport (reportId : JsVal) : Br unit :=
  try_finally
    (try_except
       (setLoading true;;
        run_controller (λ cb, getReportById api net cb reportId)
          (λ reportData, tell (setState "setReport" reportData))
          (λ error, showError error))
       (λ error, showError (VStr "Failed to fetch report")))
    (setLoading false).

(** ** The registration page *)

(** [handleSubmit] of [RegisterPage]. *)
Definition RegisterPage_handleSubmit (formData : FormData) : Br unit :=
  match validateRegistration formData with
  | (_ :: _) as errors =>
      tell (setState "setErrors"
              (VObj (map (λ kv, (kv.1, VStr kv.2)) errors)))
  | [] =>
      tell (setState "setErrors" (VObj []));;
      try_finally
        (try_except
           (setLoading true;;
            register API_URL axios formData
              (Some (λ _, showSuccess
                            (VStr "Registration successful! You can now log in.");;
                          tell (navigate "/login")))
              (Some (λ error, showError error));;
            mret ())
           (λ error, mret ()))
        (setLoading false)
  end.

End Handlers.

(** ** The editor of the tags of a video *)

(** [s.trim()] on ASCII text: the white space dropped is that of
    [is_space]; JavaScript also drops the Unicode white space. *)
Definition trim (s : string) : string :=
  String.rev (trim_start (String.rev (trim_start s))).

(** The state of [VideoTagsEditor] that the tag handlers use: the tags
    (texts typed into the editor) and the text of the input. *)
Record TagsEditor : Type := mkTagsEditor {
  tags : list string;
  newTag : string
}.

(** [handleAddTag]:
<<
    if (newTag.trim() && !tags.includes(newTag.trim())) {
      setTags([...tags, newTag.trim()]);
      setNewTag('');
    }
>>                                                                        *)
Definition handleAddTag (ed : TagsEditor) : TagsEditor :=
  if bool_decide (trim (newTag ed) ≠ "")
     && negb (bool_decide (trim (newTag ed) ∈ tags ed))
  then mkTagsEditor (tags ed ++ [trim (newTag ed)]) ""
  else ed.

(** [handleDeleteTag(tagToDelete)]:
    [setTags(tags.filter(tag => tag !== tagToDelete))] *)
Definition handleDeleteTag (tagToDelete : string) (ed : TagsEditor)
  : TagsEditor :=
  mkTagsEditor (filter (λ tag, tag ≠ tagToDelete) (tags ed)) (newTag ed).

(** ** Vocabulary of the statements about the pages *)

(** The page after the effects [xs]. *)
Definition told (e : Env) (xs : list Effect) : Env :=
  mkEnv (localStorage e) (world e) (requests e) (authorization e)
    (effects e ++ xs).

(** The page after a scouting controller sent [rq] and called [call]. *)
Definition fetched (e : Env) (rq : Request) (call : Call) : Env :=
  mkEnv (localStorage e)
    (mkWorld (sent (world e) ++ [rq]) (invoked (world e) ++ [call])
       (ui (world e)))
    (requests e) (authorization e) (effects e).

End Pages.

(* ===================================================================== *)
(** * [utils/fetchInterceptor.js] *)

Module FetchInterceptor.
Import Client Browser.

(** The [options] of a [fetch]: the caller's properties other than
    [headers] and [credentials] are passed on as they are. *)
Record Options : Type := mkOptions {
  headers : option (list (string * JsVal));
  credentials : option string
}.

(** The statements both [fetchWithAuth] and the replacement of
    [window.fetch] apply to the options, for the user in the storage:
<<
    const token = userData?.token;
    if (token) {
      options.headers = options.headers || {};
      options.headers = { ...options.headers,
                          'Authorization': `Bearer ${token}` };
      options.credentials = 'include';
    }
>>                                                                        *)
Definition add_authorization (userData : JsVal) (options : Options)
  : Options :=
  let token := opt_chain userData "token" in
  if truthy token
  then mkOptions
         (Some (set_prop (default [] (headers options)) "Authorization"
                  (VStr ("Bearer " +:+ to_string token))))
         (Some "include")
  else options.

(** [url.includes(needle)] *)
Fixpoint includes (needle url : string) : bool :=
  String.prefix needle url
  || match url with
     | String _ rest => includes needle rest
     | EmptyString => false
     end.

(** The replacement of [window.fetch]: only requests to the main backend
    are touched. *)
Definition window_fetch (url : string) (options : Options)
  : Br (string * Options) :=
  if includes "localhost:8000" url
  then userData ← getUserFromStorage;
       mret (url, add_authorization userData options)
  else mret (url, options).

(** [fetchWithAuth(url, options)]: what reaches the original [fetch]. *)
Definition outgoing (url : string) (options : Options)
  : Br (string * Options) :=
  userData ← getUserFromStorage;
  window_fetch url (add_authorization userData options).

End FetchInterceptor.

(* ===================================================================== *)
(** * Vocabulary of the statements about the models and the runs *)

Module Shapes.
Import Service Client Browser User.

(** The attributes of a row that a run never assigns. *)
Definition same_description (r r' : Report) : Prop :=
  id r' = id r ∧ title r' = title r ∧ description r' = description r
  ∧ video_id r' = video_id r ∧ video_title r' = video_title r
  ∧ team_name r' = team_name r ∧ opponent_name r' = opponent_name r
  ∧ game_date r' = game_date r ∧ user_id r' = user_id r
  ∧ created_at r' = created_at r.

(** An order in which the database may hand out the rows that
    [get_reports] selects: [ORDER BY created_at DESC] fixes it up to the
    rows of equal [created_at]. *)
Definition database_order (owner : option Z) (t : gmap Z Report)
    (rows : list Report) : Prop :=
  rows ≡ₚ select_reports owner t ∧ Sorted newest_first rows.

(** A form typed in ASCII: its e-mail, user name and password. *)
Definition ascii_field (f : Field) : Prop :=
  match f with Some s => ascii_text s | None => True end.

Definition ascii_form (formData : FormData) : Prop :=
  ascii_field (email formData) ∧ ascii_field (username formData)
  ∧ ascii_field (password formData).

(** A text of one character at least, none of them white space or [@]. *)
Definition word (w : string) : Prop :=
  w ≠ "" ∧ Forall (λ c, is_space c = false ∧ c ≠ "@"%char)
             (String.list_ascii_of_string w).

End Shapes.

(* ===================================================================== *)
(** * Scenarios of the browser and of the collaborators *)

Module BrowserScenarios.
Import Service Client Browser User Controllers Pages FetchInterceptor.
Import VideoAnalysis Scenarios.

Definition main_backend : string := "http://localhost:8000/api".
Definition scouting_api : string := "http://localhost:8001/api".

(** The user as [login] stores it, a browser with that user in the
    storage, and one with an empty storage. *)
Definition user_1 : Json :=
  JObj [("token", JStr "abc"); ("type", JStr "bearer")].

Definition signed_in : Env :=
  mkEnv {["user" := Doc user_1]} fresh_world [] None [].

Definition signed_out : Env := mkEnv ∅ fresh_world [] None [].

(** The main backend is down, for [axios] and for [httpx]. *)
Definition axios_down : option string → AxiosRequest → Result JsVal JsVal :=
  λ _ _, Raised (VError "Network Error").

Definition backend_down : string → Result string HttpResponse :=
  λ _, Raised "ConnectError".

(** The main backend answers 200 with a body whose [data] is [null]. *)
Definition backend_null_data : string → Result string HttpResponse :=
  λ _, Returned (mkHttpResponse 200 "data: null"
                   (Returned (JObj [("data", JNull)]))).

(** The main backend answers every request with one video. *)
Definition video_7 : JsVal := VObj [("id", VNum 7); ("title", VStr "Game 7")].

Definition axios_one_video
  : option string → AxiosRequest → Result JsVal JsVal :=
  λ _ _, Returned (VObj [("status", VNum 200); ("data", VArr [video_7])]).

(** The edit of video 7 in the tag editor. *)
Definition edited_7 : JsVal :=
  VObj [("id", VNum 7); ("tags", VArr [VStr "zone"]); ("color", VStr "red")].

Definition editor_1 : TagsEditor := mkTagsEditor ["zone"] " press ".

(** The card of job 1. *)
Definition card_1 : JsVal := VObj [("id", VNum 1)].

(** The body FastAPI writes for an [HTTPException] when no handler is
    installed. *)
Definition detail_body : Z → string → ResponseBody :=
  λ _ detail, JsonBody (JObj [("detail", JStr detail)]).

(** The scouting service with job 1 queued, as it answers the deletion of
    job 1; and with the four jobs of scenario D, as it answers the
    listing. *)
Definition deleted_1 : Response unit :=
  Success () "Report deleted successfully" 200.

Definition deleting_1 : Request → Fetch :=
  λ _, Responses.http_response (λ _ : unit, JNull) detail_body deleted_1.

Definition listed_D : Response (list ReportDict) :=
  Success (report_dict <$>
             take 100 (drop 0 (merge_sort newest_first
                                 (select_reports None (table session_D)))))
    "Reports retrieved successfully" 200.

Definition listing_D : Request → Fetch :=
  λ _, Responses.http_response
         (λ dicts, JArr (Wire.encode_summary <$> dicts)) detail_body listed_D.

(** A registration form as a visitor fills it in. *)
Definition form_1 : FormData :=
  mkFormData (Some "coach@team.org") (Some "coach") (Some "secret1")
    (Some "secret1").

(** A bus with two callbacks for [video.created]; the second one raises
    an [Exception], and none touches the bus. *)
Definition bus_1 : Events.EventBus :=
  Events.subscribe Events.VIDEO_CREATED 2%nat
    (Events.subscribe Events.VIDEO_CREATED 1%nat Events.new_bus).

Definition second_raises
  : Events.Callback → Events.EventType → Json
    → Events.Outcome * list Events.Action :=
  λ callback _ _,
    if decide (callback = 2%nat)
    then (Events.RaisesException "no such video", [])
    else (Events.Returns, []).

End BrowserScenarios.

(* ===================================================================== *)
(* The tactics of stdpp clear hypotheses by name when they tidy up.      *)
Local Set Warnings "-clear-no-such-hyp".
(* ===================================================================== *)
(** * Facts about the service *)

(** Unfolding of the monadic code down to functions on sessions. *)
Ltac run :=
  repeat (unfold Service.generate_report, Service.generate_report_start,
            Service.generate_report_finish, Service.pipeline,
            Service.on_failure, Service.render, Service.await,
            Service.create_report_route, Service.create_report,
            Service.delete_report_route, Service.delete_report,
            Service.get_report_route, Service.get_report,
            Service.get_report_file_path, Service.download_report,
            Service.list_reports, Service.get_reports, of_result,
            Service.commit, Service.assign, Service.reload,
            Service.query_first, get_state, modify, raise, try_except,
            mbind, mret, ES_bind, ES_ret, es_bind, es_ret; simpl).

Section ServiceFacts.
Import Service.

Lemma flush_app d1 d2 t :
  flush (d1 ++ d2) t = flush d1 t ≫= flush d2.
Proof.
  revert t. induction d1 as [|[i a] d1 IH]; intros t; simpl; [done|].
  destruct (t !! i); simpl; auto.
Qed.

Lemma flush_row i a t r :
  t !! i = Some r → flush [(i, a)] t = Some (<[i := set_attr a r]> t).
Proof. intros H. simpl. by rewrite H. Qed.

(** A flush of writes to one row that is still in the table. *)
Lemma flush_one_row i attrs t r :
  t !! i = Some r →
  flush ((λ a, (i, a)) <$> attrs) t
  = Some (<[i := foldl (flip set_attr) r attrs]> t).
Proof.
  revert t r. induction attrs as [|a attrs IH]; intros t r H; simpl.
  - by rewrite insert_id.
  - rewrite H. erewrite IH by apply lookup_insert_eq.
    by rewrite insert_insert_eq.
Qed.

(** A flush with a write to a missing row fails. *)
Lemma flush_missing i a d t :
  t !! i = None → flush ((i, a) :: d) t = None.
Proof. intros H. simpl. by rewrite H. Qed.

Lemma start_found s report_id r :
  dirty s = [] → table s !! report_id = Some r →
  generate_report_start report_id s
  = (Returned true,
     let t := <[report_id := processing_row r]> (table s) in
     mkSession t (next_id s) [] (commits s ++ [t]) (files s)).
Proof. intros Hd Hr. run. rewrite Hr. run. rewrite Hd. simpl. by rewrite Hr. Qed.

Lemma start_missing s report_id :
  table s !! report_id = None →
  generate_report_start report_id s = (Returned false, s).
Proof. intros Hr. run. by rewrite Hr. Qed.

Lemma finish_found c now s report_id r :
  dirty s = [] → table s !! report_id = Some r →
  generate_report_finish c now report_id s
  = match run_steps c r with
    | Returned (analysis, pdf_path) =>
        let t := <[report_id := completed_row now pdf_path analysis r]> (table s) in
        (Returned (),
         mkSession t (next_id s) [] (commits s ++ [t]) ({[pdf_path]} ∪ files s))
    | Raised e =>
        let t := <[report_id := failed_row r]> (table s) in
        (Returned (), mkSession t (next_id s) [] (commits s ++ [t]) (files s))
    end.
Proof.
  intros Hd Hr. unfold run_steps. run. rewrite Hr. simpl.
  destruct (get_video_data c (video_id r)) as [vd|e]; simpl.
  2:{ rewrite Hd. simpl. by rewrite Hr. }
  destruct (analyze_video c vd) as [a|e]; simpl.
  2:{ rewrite Hd. simpl. by rewrite Hr. }
  rewrite Hr. simpl.
  destruct (generate_pdf c a r) as [p|e]; simpl.
  2:{ rewrite Hd. simpl. by rewrite Hr. }
  rewrite Hd. simpl. rewrite Hr. simpl.
  rewrite !lookup_insert_eq. simpl. by rewrite !insert_insert_eq.
Qed.

(** A run whose row was deleted meanwhile writes nothing. *)
Lemma finish_missing c now s report_id :
  dirty s = [] → table s !! report_id = None →
  ∃ e d, generate_report_finish c now report_id s
       = (Raised e, mkSession (table s) (next_id s) d (commits s) (files s)).
Proof.
  intros Hd Hr. run. rewrite Hr. simpl. rewrite Hd. simpl. rewrite Hr.
  by eexists _, _.
Qed.

(** The run is its two halves, one after the other. *)
Lemma generate_report_halves c now report_id s :
  generate_report c now report_id s
  = (started ← generate_report_start report_id;
     if started : bool then generate_report_finish c now report_id
     else mret ()) s.
Proof.
  run. destruct (table s !! report_id) as [r|] eqn:Hr; simpl; [|done].
  destruct (flush (dirty s ++ [(report_id, AStatus "processing")]) (table s))
    as [t|] eqn:Hf; simpl; [done|].
  by rewrite flush_app, Hf.
Qed.


Lemma generate_report_missing c now s report_id :
  table s !! report_id = None →
  generate_report c now report_id s = (Returned (), s).
Proof. intros Hr. run. by rewrite Hr. Qed.

(** The whole run on a row that exists: two commits, [processing] first. *)
Lemma generate_report_found c now s report_id r :
  dirty s = [] → table s !! report_id = Some r →
  generate_report c now report_id s
  = let t1 := <[report_id := processing_row r]> (table s) in
    match run_steps c (processing_row r) with
    | Returned (analysis, pdf_path) =>
        let t2 := <[report_id := completed_row now pdf_path analysis r]> (table s) in
        (Returned (),
         mkSession t2 (next_id s) [] (commits s ++ [t1; t2])
           ({[pdf_path]} ∪ files s))
    | Raised e =>
        let t2 := <[report_id := failed_row r]> (table s) in
        (Returned (), mkSession t2 (next_id s) [] (commits s ++ [t1; t2]) (files s))
    end.
Proof.
  intros Hd Hr. rewrite generate_report_halves.
  unfold mbind, ES_bind, es_bind. rewrite (start_found _ _ r) by done.
  cbv zeta. rewrite (finish_found _ _ _ _ (processing_row r))
    by (simpl; first [done | apply lookup_insert_eq]).
  simpl. destruct (run_steps c (processing_row r)) as [[a p]|e]; simpl;
    by rewrite insert_insert_eq, <- app_assoc.
Qed.

(** C3 (amended) -- a failing step ends the run in [failed] and persists
    nothing else.  The metadata fetch of the sources cannot fail a run:
    [get_video_data] catches every exception and answers with a record
    (the sample record when its request failed).  If an awaited step
    raises -- the analysis or the rendering, then -- the exception is
    caught inside [generate_report] (the call returns), the job ends with
    status [failed], and [file_path], [analysis_results] and
    [completed_at] are what they were before the run in every table the
    run commits: no partly computed result is persisted and no artifact is
    stored.  [completed_at] is not set by the handler.  In particular,
    when rendering raises after a successful analysis, a null
    [analysis_results] stays null.                                         *)
Theorem failed_run_persists_status_only c now s report_id r e :
  dirty s = [] →
  table s !! report_id = Some r →
  run_steps c (processing_row r) = Raised e →
  ∃ s' r',
    generate_report c now report_id s = (Returned (), s')
    ∧ table s' !! report_id = Some r'
    ∧ status r' = "failed"
    ∧ files s' = files s
    ∧ (∀ t, t ∈ committed_by (generate_report c now report_id) s →
         ∃ r'', t !! report_id = Some r''
                ∧ file_path r'' = file_path r
                ∧ analysis_results r'' = analysis_results r
                ∧ completed_at r'' = completed_at r)
    ∧ (∀ video_data analysis e',
         get_video_data c (video_id r) = Returned video_data →
         analyze_video c video_data = Returned analysis →
         generate_pdf c analysis (processing_row r) = Raised e' →
         analysis_results r = None → analysis_results r' = None)
    ∧ (∀ backend client_get video_id,
         ∃ video_data,
           VideoAnalysis.get_video_data backend client_get video_id
           = Returned video_data).
Proof.
  intros Hd Hr He.
  pose proof (generate_report_found c now s report_id r Hd Hr) as Hrun.
  rewrite He in Hrun. cbv zeta in Hrun.
  eexists _, (failed_row r). split; [exact Hrun|].
  split; [apply lookup_insert_eq|]. split; [done|]. split; [done|].
  split; [|split; [by intros|]].
  - intros t Ht. unfold committed_by in Ht. rewrite Hrun in Ht. simpl in Ht.
    rewrite drop_app_length in Ht.
    apply elem_of_cons in Ht as [->|Ht].
    { eexists. split; [apply lookup_insert_eq|done]. }
    apply list_elem_of_singleton in Ht as ->.
    eexists. split; [apply lookup_insert_eq|done].
  - intros backend client_get video_id.
    unfold VideoAnalysis.get_video_data.
    destruct (VideoAnalysis.fetch_video _ _ _); by eexists.
Qed.

(** C4 (amended) -- [generate_report] has no guard on the status.  Called
    for an id that has no row it does nothing.  Called for an existing
    job -- whatever its status, [completed] and [failed] included -- it
    commits [processing] and then ends the job in [completed] or
    [failed]; the run is a no-op for no existing job.                      *)
Theorem generate_report_runs_whatever_the_status c now s report_id :
  dirty s = [] →
  match table s !! report_id with
  | None => generate_report c now report_id s = (Returned (), s)
  | Some r =>
      ∃ t1 t2 fs r2,
        generate_report c now report_id s
        = (Returned (),
           mkSession t2 (next_id s) [] (commits s ++ [t1; t2]) fs)
        ∧ t1 !! report_id = Some (processing_row r)
        ∧ t2 !! report_id = Some r2
        ∧ (status r2 = "completed" ∨ status r2 = "failed")
  end.
Proof.
  intros Hd. destruct (table s !! report_id) as [r|] eqn:Hr.
  - rewrite (generate_report_found c now s report_id r Hd Hr). cbv zeta.
    destruct (run_steps c (processing_row r)) as [[a p]|e].
    + eexists _, _, _, _. split; [done|].
      split; [apply lookup_insert_eq|]. split; [apply lookup_insert_eq|].
      by left.
    + eexists _, _, _, _. split; [done|].
      split; [apply lookup_insert_eq|]. split; [apply lookup_insert_eq|].
      by right.
  - by apply generate_report_missing.
Qed.

End ServiceFacts.

Section ScenarioFacts.
Import Service Scenarios.

Lemma failed_run_persists_status_only_witness :
  ∃ s' r',
    generate_report render_fails 20 1 session_queued = (Returned (), s')
    ∧ table s' !! 1 = Some r'
    ∧ status r' = "failed"
    ∧ files s' = files session_queued
    ∧ (∀ t, t ∈ committed_by (generate_report render_fails 20 1) session_queued →
         ∃ r'', t !! 1 = Some r''
                ∧ file_path r'' = file_path queued_1
                ∧ analysis_results r'' = analysis_results queued_1
                ∧ completed_at r'' = completed_at queued_1)
    ∧ (∀ video_data analysis e',
         get_video_data render_fails (video_id queued_1) = Returned video_data →
         analyze_video render_fails video_data = Returned analysis →
         generate_pdf render_fails analysis (processing_row queued_1) = Raised e' →
         analysis_results queued_1 = None → analysis_results r' = None)
    ∧ (∀ backend client_get video_id,
         ∃ video_data,
           VideoAnalysis.get_video_data backend client_get video_id
           = Returned video_data).
Proof.
  apply (failed_run_persists_status_only render_fails 20 session_queued 1
           queued_1 "RenderFailed"); reflexivity.
Defined.

(** C3 as written does not hold: the run of scenario C, whose rendering
    raises, ends in [failed] and leaves [completed_at] null. *)
Lemma failed_without_completion_time :
  ¬ failed_with_completion_time render_fails 20 session_queued 1.
Proof.
  intros H. destruct (H queued_1 "RenderFailed") as (r' & Hr' & _ & Hc & _);
    [reflexivity..|].
  rewrite (generate_report_found _ _ _ _ queued_1) in Hr' by reflexivity.
  simpl in Hr'. rewrite lookup_insert_eq in Hr'. injection Hr' as <-.
  by destruct Hc.
Qed.

Lemma generate_report_runs_whatever_the_status_witness :
  ∃ t1 t2 fs r2,
    generate_report all_succeed 30 1 session_completed
    = (Returned (), mkSession t2 2 [] ([] ++ [t1; t2]) fs)
    ∧ t1 !! 1 = Some (processing_row completed_1)
    ∧ t2 !! 1 = Some r2
    ∧ (status r2 = "completed" ∨ status r2 = "failed").
Proof.
  apply (generate_report_runs_whatever_the_status all_succeed 30
           session_completed 1). reflexivity.
Defined.

(** Run again with a collaborator that fails, a completed job ends in
    [failed] and keeps the results of its first run. *)
Example rerun_can_fail_a_completed_job :
  table (generate_report render_fails 30 1 session_completed).2 !! 1
  = Some (mkReport 1 "Scouting Report - Team X"
            (Some "Scouting report for Team X") 123 (Some "Game 1")
            (Some "Team X") (Some "Team Y") None 456 "failed"
            (Some "/app/reports/scouting_report_1.pdf") (Some analysis_123)
            10 10 (Some 20)).
Proof. reflexivity. Qed.

(** C4 as written does not hold: running a completed job again is not a
    no-op, it commits twice. *)
Lemma reentry_runs_again :
  ¬ reentry_is_noop all_succeed 30 session_completed 1.
Proof.
  intros H. specialize (H completed_1 eq_refl).
  rewrite (generate_report_found _ _ _ _ completed_1) in H by reflexivity.
  simpl in H. specialize (H ltac:(done)).
  apply (f_equal (λ s, length (commits s))) in H. done.
Qed.

End ScenarioFacts.

(* ===================================================================== *)
(** * Facts about the running service *)

Section SystemFacts.
Import Service System.


(** ** The four transitions, in closed form *)

Lemma create_spec now report_in σ :
  create now report_in σ
  = mkState (<[seq σ := new_row now (seq σ) report_in]> (db σ))
      (seq σ + 1) (store σ) ({[seq σ]} ∪ scheduled σ) (running σ).
Proof.
  unfold create, session_of. run. rewrite lookup_insert_eq. simpl.
  f_equal. by rewrite (right_id_L ∅ (∪)).
Qed.

Lemma start_spec report_id σ :
  start report_id σ
  = match db σ !! report_id with
    | Some r =>
        mkState (<[report_id := processing_row r]> (db σ)) (seq σ) (store σ)
          (scheduled σ ∖ {[report_id]}) ({[report_id]} ∪ running σ)
    | None =>
        mkState (db σ) (seq σ) (store σ)
          (scheduled σ ∖ {[report_id]}) (running σ)
    end.
Proof.
  unfold start. destruct (db σ !! report_id) as [r|] eqn:Hr.
  - by rewrite (start_found _ _ r).
  - by rewrite start_missing.
Qed.

Lemma finish_spec c now report_id σ :
  finish c now report_id σ
  = match db σ !! report_id with
    | Some r =>
        match run_steps c r with
        | Returned (analysis, pdf_path) =>
            mkState (<[report_id := completed_row now pdf_path analysis r]> (db σ))
              (seq σ) ({[pdf_path]} ∪ store σ)
              (scheduled σ) (running σ ∖ {[report_id]})
        | Raised _ =>
            mkState (<[report_id := failed_row r]> (db σ)) (seq σ) (store σ)
              (scheduled σ) (running σ ∖ {[report_id]})
        end
    | None =>
        mkState (db σ) (seq σ) (store σ)
          (scheduled σ) (running σ ∖ {[report_id]})
    end.
Proof.
  unfold finish. destruct (db σ !! report_id) as [r|] eqn:Hr.
  - rewrite (finish_found _ _ _ _ r) by done.
    by destruct (run_steps c r) as [[a p]|e].
  - destruct (finish_missing c now (session_of σ) report_id) as (e & d & ->);
      done.
Qed.

Lemma delete_spec report_id σ :
  delete report_id σ
  = mkState (base.delete report_id (db σ)) (seq σ) (store σ)
      (scheduled σ) (running σ).
Proof.
  unfold delete, session_of. run.
  destruct (db σ !! report_id) as [r|] eqn:Hr; simpl; [done|].
  by rewrite delete_id.
Qed.

(** ** The invariant *)

Lemma row_ok_transfer σ σ' j r :
  row_ok σ j r → seq σ ≤ seq σ' →
  (j ∈ scheduled σ ↔ j ∈ scheduled σ') →
  (j ∈ running σ ↔ j ∈ running σ') →
  row_ok σ' j r.
Proof. unfold row_ok. intros (? & ? & H) ? Hs Hr. rewrite <- Hs, <- Hr.
  split; [done|]. split; [lia|done]. Qed.

Lemma invariant_initial : invariant initial.
Proof.
  split; simpl; [intros i r; by rewrite lookup_empty|].
  intros i [H|H]; by apply not_elem_of_empty in H.
Qed.

Lemma invariant_step σ σ' : invariant σ → step σ σ' → invariant σ'.
Proof.
  intros [Hrows Hids] Hstep. destruct Hstep as
    [now report_in σ | i σ Hin | c now i σ Hin | i σ].
  - (* create *)
    rewrite create_spec. split; simpl.
    + intros j r. destruct (decide (j = seq σ)) as [->|Hne].
      * rewrite lookup_insert_eq. intros [= <-]. unfold row_ok; simpl.
        split; [done|].
        split; [lia|]. left. split; [done|]. split; [set_solver|].
        split; [|done]. intros Hr. specialize (Hids (seq σ) (or_intror Hr)). lia.
      * rewrite lookup_insert_ne by done. intros Hr.
        eapply row_ok_transfer; [by apply Hrows|simpl; lia|simpl..];
          set_solver.
    + intros j [Hj|Hj]; [|specialize (Hids j (or_intror Hj)); lia].
      apply elem_of_union in Hj as [->%elem_of_singleton|Hj]; [lia|].
      specialize (Hids j (or_introl Hj)). lia.
  - (* start *)
    rewrite start_spec. destruct (db σ !! i) as [r|] eqn:Hr.
    + destruct (Hrows i r Hr) as (Hid & Hlt & Hcase).
      assert (status r = "queued" ∧ (i ∉ running σ) ∧ no_result r)
        as (Hst & Hnr & Hres) by (unfold no_result in *; naive_solver).
      split; simpl.
      * intros j rj. destruct (decide (j = i)) as [->|Hne].
        -- rewrite lookup_insert_eq. intros [= <-]. unfold row_ok; simpl.
        split; [done|].
           split; [done|]. right; left. split; [done|].
           split; [set_solver|]. split; [set_solver|done].
        -- rewrite lookup_insert_ne by done. intros Hj.
           eapply row_ok_transfer; [by apply Hrows|done|simpl..]; set_solver.
      * intros j [Hj|Hj]; apply Hids; set_solver.
    + split; simpl.
      * intros j rj Hj. assert (j ≠ i) by congruence.
        eapply row_ok_transfer; [by apply Hrows|done|simpl..]; set_solver.
      * intros j [Hj|Hj]; apply Hids; set_solver.
  - (* finish *)
    rewrite finish_spec. destruct (db σ !! i) as [r|] eqn:Hr.
    + destruct (Hrows i r Hr) as (Hid & Hlt & Hcase).
      assert (status r = "processing" ∧ (i ∉ scheduled σ) ∧ no_result r)
        as (Hst & Hns & Hres) by (unfold no_result in *; naive_solver).
      destruct (run_steps c r) as [[a p]|e]; split; simpl.
      * intros j rj. destruct (decide (j = i)) as [->|Hne].
        -- rewrite lookup_insert_eq. intros [= <-]. unfold row_ok; simpl.
        split; [done|].
           split; [done|]. right; right; left. split; [done|].
           split; [done|]. split; [set_solver|]. by repeat split.
        -- rewrite lookup_insert_ne by done. intros Hj.
           eapply row_ok_transfer; [by apply Hrows|done|simpl..]; set_solver.
      * intros j [Hj|Hj]; apply Hids; set_solver.
      * intros j rj. destruct (decide (j = i)) as [->|Hne].
        -- rewrite lookup_insert_eq. intros [= <-]. unfold row_ok; simpl.
        split; [done|].
           split; [done|]. right; right; right. split; [done|].
           split; [done|]. split; [set_solver|done].
        -- rewrite lookup_insert_ne by done. intros Hj.
           eapply row_ok_transfer; [by apply Hrows|done|simpl..]; set_solver.
      * intros j [Hj|Hj]; apply Hids; set_solver.
    + split; simpl.
      * intros j rj Hj. assert (j ≠ i) by congruence.
        eapply row_ok_transfer; [by apply Hrows|done|simpl..]; set_solver.
      * intros j [Hj|Hj]; apply Hids; set_solver.
  - (* delete *)
    rewrite delete_spec. split; simpl; [|done].
    intros j rj [Hne Hj]%lookup_delete_Some.
    eapply row_ok_transfer; [by apply Hrows|done..].
Qed.

Lemma invariant_steps σ σ' : invariant σ → rtc step σ σ' → invariant σ'.
Proof. induction 2; eauto using invariant_step. Qed.

Lemma invariant_reachable σ : reachable σ → invariant σ.
Proof. apply invariant_steps, invariant_initial. Qed.


(** ** One transition, seen from one row *)

Lemma step_seq σ σ' : step σ σ' → seq σ ≤ seq σ'.
Proof.
  destruct 1 as [now report_in σ | i σ Hin | c now i σ Hin | i σ].
  - rewrite create_spec. simpl. lia.
  - rewrite start_spec. by destruct (db σ !! i).
  - rewrite finish_spec. destruct (db σ !! i) as [r|]; [|done].
    by destruct (run_steps c r) as [[a p]|e].
  - by rewrite delete_spec.
Qed.

Local Ltac unchanged :=
  right; eexists; (split; [eassumption|]); split; [by left|done].

Lemma step_row σ σ' i r :
  invariant σ → step σ σ' → db σ !! i = Some r →
  db σ' !! i = None
  ∨ ∃ r', db σ' !! i = Some r'
          ∧ (r' = r ∨ arrow (status r) (status r'))
          ∧ (terminal (status r) → r' = r).
Proof.
  intros [Hrows Hids] Hstep Hr.
  destruct (Hrows i r Hr) as (Hid & Hlt & Hcase).
  destruct Hstep as [now report_in σ | j σ Hin | c now j σ Hin | j σ].
  - rewrite create_spec. simpl. rewrite lookup_insert_ne by lia. unchanged.
  - rewrite start_spec. destruct (decide (j = i)) as [->|Hne].
    + rewrite Hr. simpl. rewrite lookup_insert_eq. right.
      assert (status r = "queued") as Hst by naive_solver.
      eexists. split; [done|]. split.
      * right. left. by rewrite Hst.
      * unfold terminal. rewrite Hst. naive_solver.
    + destruct (db σ !! j); simpl; [rewrite lookup_insert_ne by done|];
        unchanged.
  - rewrite finish_spec. destruct (decide (j = i)) as [->|Hne].
    + rewrite Hr. right.
      assert (status r = "processing") as Hst by naive_solver.
      destruct (run_steps c r) as [[a p]|e]; simpl;
        rewrite lookup_insert_eq; (eexists; split; [done|]); (split;
        [right; right; rewrite Hst; unfold terminal; simpl; auto
        |unfold terminal; rewrite Hst; naive_solver]).
    + destruct (db σ !! j) as [rj|]; [|simpl; unchanged].
      destruct (run_steps c rj) as [[a p]|e]; simpl;
        rewrite lookup_insert_ne by done; unchanged.
  - rewrite delete_spec. simpl. destruct (decide (j = i)) as [->|Hne].
    + left. apply lookup_delete_eq.
    + rewrite lookup_delete_ne by done. unchanged.
Qed.

(** Keys are never reused: a row that is gone stays gone. *)
Lemma step_absent σ σ' i :
  step σ σ' → i < seq σ → db σ !! i = None → db σ' !! i = None.
Proof.
  intros Hstep Hlt Hi.
  destruct Hstep as [now report_in σ | j σ Hin | c now j σ Hin | j σ].
  - rewrite create_spec. simpl. by rewrite lookup_insert_ne by lia.
  - rewrite start_spec. destruct (db σ !! j) eqn:Hj; simpl; [|done].
    rewrite lookup_insert_ne; [done|congruence].
  - rewrite finish_spec. destruct (db σ !! j) as [rj|] eqn:Hj; [|done].
    destruct (run_steps c rj) as [[a p]|e]; simpl;
      (rewrite lookup_insert_ne; [done|congruence]).
  - rewrite delete_spec. simpl. apply lookup_delete_None. auto.
Qed.

Lemma steps_absent σ σ' i :
  rtc step σ σ' → i < seq σ → db σ !! i = None → db σ' !! i = None.
Proof.
  induction 1 as [|σ σ1 σ' Hstep _ IH]; [done|]. intros Hlt Hi.
  apply IH; [pose proof (step_seq _ _ Hstep); lia|].
  by eapply step_absent.
Qed.

Lemma arrow_not_queued a b : arrow a b → b ≠ "queued".
Proof. unfold arrow, terminal. naive_solver. Qed.

Lemma path_not_queued a b : rtc arrow a b → a ≠ "queued" → b ≠ "queued".
Proof.
  induction 1 as [|a a1 b Harrow _ IH]; [done|]. intros _.
  apply IH. by eapply arrow_not_queued.
Qed.

Lemma steps_row σ σ' i r r' :
  invariant σ → rtc step σ σ' →
  db σ !! i = Some r → db σ' !! i = Some r' →
  rtc arrow (status r) (status r') ∧ (terminal (status r) → r' = r).
Proof.
  intros Hinv Hsteps. revert r Hinv.
  induction Hsteps as [σ|σ σ1 σ' Hstep Hsteps IH]; intros r Hinv Hr Hr'.
  { assert (r' = r) as -> by congruence. done. }
  destruct (step_row _ _ _ _ Hinv Hstep Hr) as [Hgone|(r1 & Hr1 & Hmove & Hterm)].
  - exfalso. destruct Hinv as [Hrows _].
    destruct (Hrows i r Hr) as (_ & Hlt & _).
    pose proof (step_seq _ _ Hstep).
    rewrite (steps_absent σ1 σ' i) in Hr'; [done..|lia|done].
  - destruct (IH r1 (invariant_step _ _ Hinv Hstep) Hr1 Hr') as [Hpath Hfix].
    destruct Hmove as [->|Harrow]; [done|]. split.
    + by eapply rtc_l.
    + intros Ht. specialize (Hterm Ht) as ->. auto.
Qed.

Lemma row_status σ i r : invariant σ → db σ !! i = Some r → status r ∈ statuses.
Proof.
  intros [Hrows _] Hr. destruct (Hrows i r Hr) as (_ & _ & Hcase).
  unfold statuses.
  destruct Hcase as [(-> & _)|[(-> & _)|[(-> & _)|(-> & _)]]]; set_solver.
Qed.

(** C1 -- the life cycle of a job.  In every state the running service
    can reach, the status of a job is one of [queued], [processing],
    [completed], [failed].  Each transition of the service leaves a job as
    it is or moves its status along one arrow of
    queued -> processing -> (completed | failed); over any number of
    transitions the status follows a path of these arrows, a job that is
    [completed] or [failed] is never changed again, and a job that has
    left [queued] never returns to it.                                     *)
Theorem status_follows_the_diagram σ σ' i r r' :
  reachable σ → rtc step σ σ' →
  db σ !! i = Some r → db σ' !! i = Some r' →
  status r ∈ statuses
  ∧ status r' ∈ statuses
  ∧ (step σ σ' → r' = r ∨ arrow (status r) (status r'))
  ∧ rtc arrow (status r) (status r')
  ∧ (terminal (status r) → r' = r)
  ∧ (status r ≠ "queued" → status r' ≠ "queued").
Proof.
  intros Hreach Hsteps Hr Hr'.
  pose proof (invariant_reachable _ Hreach) as Hinv.
  pose proof (invariant_steps _ _ Hinv Hsteps) as Hinv'.
  destruct (steps_row _ _ _ _ _ Hinv Hsteps Hr Hr') as [Hpath Hfix].
  split; [exact (row_status _ _ _ Hinv Hr)|].
  split; [exact (row_status _ _ _ Hinv' Hr')|].
  split; [|split; [done|split; [done|by apply path_not_queued]]].
  intros Hstep.
  destruct (step_row _ _ _ _ Hinv Hstep Hr) as [?|(r1 & Hr1 & Hmove & _)];
    [congruence|].
  by assert (r1 = r') as <- by congruence.
Qed.

(** C2 -- results exactly when completed.  In every reachable state a job
    is [completed] if and only if [file_path], [analysis_results] and
    [completed_at] are all set, and in any other status [file_path] and
    [analysis_results] are null.                                           *)
Theorem completed_iff_results σ i r :
  reachable σ → db σ !! i = Some r →
  (status r = "completed"
   ↔ is_Some (file_path r) ∧ is_Some (analysis_results r)
     ∧ is_Some (completed_at r))
  ∧ (status r ≠ "completed"
     → file_path r = None ∧ analysis_results r = None).
Proof.
  intros Hreach Hr. destruct (invariant_reachable _ Hreach) as [Hrows _].
  destruct (Hrows i r Hr) as (_ & _ & Hcase).
  unfold no_result, has_result in Hcase.
  destruct Hcase as [(Hst & _ & _ & Hf & Ha & Hc)
                    |[(Hst & _ & _ & Hf & Ha & Hc)
                    |[(Hst & _ & _ & Hf & Ha & Hc)
                    |(Hst & _ & _ & Hf & Ha & Hc)]]];
    rewrite Hst; (split; [split|]).
  all: try (intros [=]).
  all: try (intros (Hf' & _); rewrite Hf in Hf'; by destruct Hf').
  all: try done.
Qed.

(** C5 -- creation answers at once with a queued job.  [POST /reports]
    inserts the job with status [queued] and no result and commits it --
    the one commit of the request is the table with the new row --,
    answers with its identity and that status, and only records the run as
    a background task: when the response is produced no pipeline step has
    run and no artifact exists.  Whatever the collaborators do when the
    run takes place, the run returns without raising: run at once, and
    also run in its two halves from any later state in which the job
    still has its row.                                                     *)
Theorem creation_returns_a_queued_job now report_in σ :
  let i := seq σ in
  let σ' := create now report_in σ in
  (create_report_route now report_in (session_of σ)).1
  = Returned (Success (mkCreated i "queued") "Report creation initiated" 202,
              [GenerateReport i])
  ∧ db σ' = <[i := new_row now i report_in]> (db σ)
  ∧ status (new_row now i report_in) = "queued"
  ∧ no_result (new_row now i report_in)
  ∧ i ∈ scheduled σ'
  ∧ running σ' = running σ
  ∧ store σ' = store σ
  ∧ (∀ c now', (generate_report c now' i (session_of σ')).1 = Returned ())
  ∧ committed_by (create_report_route now report_in) (session_of σ)
    = [<[i := new_row now i report_in]> (db σ)]
  ∧ dirty (create_report_route now report_in (session_of σ)).2 = []
  ∧ (∀ σ2 r c now',
       db σ2 !! i = Some r →
       (generate_report_start i (session_of σ2)).1 = Returned true
       ∧ (generate_report_finish c now' i (session_of σ2)).1 = Returned ()).
Proof.
  intros i σ'. subst σ'. rewrite create_spec. simpl.
  split. { unfold session_of. run. by rewrite lookup_insert_eq. }
  split; [done|]. split; [done|]. split; [done|].
  split; [set_solver|]. split; [done|]. split; [done|].
  split.
  { intros c now'.
    rewrite (generate_report_found c now' _ i (new_row now i report_in));
      [|done|apply lookup_insert_eq].
    cbv zeta. by destruct (run_steps c _) as [[a p]|e]. }
  split. { unfold committed_by, session_of. run. by rewrite lookup_insert_eq. }
  split. { unfold session_of. run. by rewrite lookup_insert_eq. }
  intros σ2 r c now' Hr. split.
  - by rewrite (start_found _ _ r).
  - rewrite (finish_found c now' _ i r); [|done..].
    by destruct (run_steps c r) as [[a p]|e].
Qed.

(** C8 (amended) -- a deleted job is gone; its artifact is not.  After a
    successful [DELETE /reports/{id}] the row is removed and
    [GET /reports/{id}] answers 404 "Report not found".  The deletion
    touches the table only: the artifact store is left as it was.          *)
Theorem deleted_job_is_not_found s s' report_id :
  dirty s = [] →
  delete_report_route report_id s
  = (Returned (Success () "Report deleted successfully" 200), s') →
  (get_report_route report_id s').1
  = Returned (HTTPException 404 "Report not found")
  ∧ table s' = base.delete report_id (table s)
  ∧ files s' = files s.
Proof.
  intros Hd. run. destruct (table s !! report_id) as [r|] eqn:Hr; simpl;
    [|done].
  rewrite Hd. simpl. intros [= <-]. simpl. by rewrite lookup_delete_eq.
Qed.

End SystemFacts.

Section MoreScenarioFacts.
Import Service System Scenarios.

Lemma deleted_job_is_not_found_witness :
  (get_report_route 1
     (delete_report_route 1 session_completed).2).1
  = Returned (HTTPException 404 "Report not found")
  ∧ table (delete_report_route 1 session_completed).2
    = base.delete 1 (table session_completed)
  ∧ files (delete_report_route 1 session_completed).2
    = files session_completed.
Proof.
  apply (deleted_job_is_not_found session_completed _ 1); reflexivity.
Defined.

(** C8 as written does not hold: the artifact of a deleted job is still
    in the store. *)
Lemma delete_leaves_the_artifact :
  ¬ delete_removes_artifact session_completed 1.
Proof.
  intros H.
  destruct (H completed_1 (delete_report_route 1 session_completed).2)
    as [_ Hgone]; [reflexivity..|].
  apply (Hgone (pdf_of queued_1)); [reflexivity|].
  simpl. set_solver.
Qed.

End MoreScenarioFacts.

(* ===================================================================== *)
(** * Listing *)

Section ListingFacts.
Import Service.

Lemma elem_of_select_reports owner (t : gmap Z Report) r :
  r ∈ select_reports owner t
  ↔ (∃ i, t !! i = Some r) ∧ (∀ u, owner = Some u → user_id r = u).
Proof.
  assert (r ∈ (map_to_list t).*2 ↔ ∃ i, t !! i = Some r) as Hall.
  { rewrite list_elem_of_fmap. split.
    - intros ([i r'] & -> & Hin%elem_of_map_to_list). eauto.
    - intros [i Hi]. exists (i, r). by rewrite elem_of_map_to_list. }
  unfold select_reports. destruct owner as [u|].
  - rewrite list_elem_of_filter, Hall. naive_solver.
  - rewrite Hall. naive_solver.
Qed.

(** C7 -- listing.  [get_reports] returns the dictionaries of a page of
    the list [all] of the owner's jobs (of all jobs when no owner is
    given): [all] holds exactly these jobs, ordered by creation time,
    newest first; the page skips [skip] of them and holds the next [limit]
    (fewer when the list ends), so that every job after the page is no
    newer than any job on it.  With three jobs, [skip = 0] and
    [limit = 2], the page holds exactly the two newest, newest first.      *)
Theorem get_reports_newest_first_paged s owner (skip limit : nat) :
  ∃ all : list Report,
    all ≡ₚ select_reports owner (table s)
    ∧ (∀ r, r ∈ all
          ↔ (∃ i, table s !! i = Some r)
            ∧ (∀ u, owner = Some u → user_id r = u))
    ∧ StronglySorted newest_first all
    ∧ get_reports owner skip limit s
      = (Returned (report_dict <$> take limit (drop skip all)), s)
    ∧ length (take limit (drop skip all))
      = (limit `min` (length all - skip))%nat
    ∧ (∀ r r', r ∈ take limit (drop skip all) →
               r' ∈ drop (skip + limit) all →
               created_at r' ≤ created_at r)
    ∧ (length all = 3%nat → skip = 0%nat → limit = 2%nat →
       ∃ r1 r2 r3,
         all = [r1; r2; r3]
         ∧ take limit (drop skip all) = [r1; r2]
         ∧ created_at r3 ≤ created_at r2 ≤ created_at r1).
Proof.
  set (all := merge_sort newest_first (select_reports owner (table s))).
  assert (StronglySorted newest_first all) as Hsorted
    by apply (StronglySorted_merge_sort _).
  exists all. split; [apply merge_sort_Permutation|].
  split. { intros r. unfold all. rewrite merge_sort_Permutation.
           apply elem_of_select_reports. }
  split; [done|]. split; [done|].
  split; [by rewrite length_take, length_drop|].
  split.
  - intros r r' Hr Hr'.
    assert (all = take skip all ++ take limit (drop skip all)
                    ++ drop (skip + limit) all) as Hsplit
      by (by rewrite <- drop_drop, !take_drop).
    rewrite Hsplit in Hsorted. apply StronglySorted_app_1_r in Hsorted.
    by apply (StronglySorted_app_1_elem_of _ _ _ r r') in Hsorted.
  - intros Hlen -> ->.
    destruct all as [|r1 [|r2 [|r3 [|? ?]]]]; try done.
    exists r1, r2, r3. split; [done|]. split; [done|].
    apply StronglySorted_cons in Hsorted as [H1 Hsorted].
    apply StronglySorted_cons in Hsorted as [H2 _].
    apply Forall_cons in H1 as [H12 _]. apply Forall_cons in H2 as [H23 _].
    unfold newest_first in *. lia.
Qed.

End ListingFacts.

Section ListingScenario.
Import Service Scenarios.

Lemma get_reports_newest_first_paged_witness :
  ∃ all : list Report,
    all ≡ₚ select_reports (Some 456) (table session_D)
    ∧ (∀ r, r ∈ all
          ↔ (∃ i, table session_D !! i = Some r)
            ∧ (∀ u, Some 456 = Some u → user_id r = u))
    ∧ StronglySorted newest_first all
    ∧ get_reports (Some 456) 0 2 session_D
      = (Returned (report_dict <$> take 2 (drop 0 all)), session_D)
    ∧ length (take 2 (drop 0 all)) = (2 `min` (length all - 0))%nat
    ∧ (∀ r r', r ∈ take 2 (drop 0 all) → r' ∈ drop (0 + 2) all →
               created_at r' ≤ created_at r)
    ∧ (length all = 3%nat → 0%nat = 0%nat → 2%nat = 2%nat →
       ∃ r1 r2 r3,
         all = [r1; r2; r3]
         ∧ take 2 (drop 0 all) = [r1; r2]
         ∧ created_at r3 ≤ created_at r2 ≤ created_at r1).
Proof. apply (get_reports_newest_first_paged session_D (Some 456) 0 2). Defined.

(** Scenario D: three jobs of owner 456, [limit=2]. *)
Example list_two_of_three :
  get_reports (Some 456) 0 2 session_D
  = (Returned [report_dict (job 4 456 30); report_dict (job 2 456 20)],
     session_D).
Proof. vm_compute. reflexivity. Qed.

End ListingScenario.

(* ===================================================================== *)
(** * [parseInt] on the id of a menu item *)

Section ParseIntFacts.
Import Client.

Lemma dec_prefix_string (d : Decimal.uint) :
  dec_prefix (DecimalString.NilEmpty.string_of_uint d) = d.
Proof. induction d; simpl; congruence. Qed.

Lemma parse_magnitude_digits (d : Decimal.uint) :
  parse_magnitude (DecimalString.NilZero.string_of_uint d) = Some (Z.of_uint d).
Proof.
  unfold parse_magnitude.
  destruct d as [|d|d|d|d|d|d|d|d|d|d]; simpl; try done;
    try (by rewrite dec_prefix_string).
  destruct d; simpl; try done; by rewrite dec_prefix_string.
Qed.

Lemma parseInt_digit_first c s f :
  dec_digit c = Some f →
  parseInt (VStr (String c s)) = number (parse_magnitude (String c s)).
Proof.
  intros H. unfold parseInt. simpl.
  destruct c as [[] [] [] [] [] [] [] []]; simpl in *; done.
Qed.

Lemma string_of_uint_digit_first (d : Decimal.uint) :
  ∃ c s f, DecimalString.NilZero.string_of_uint d = String c s
           ∧ dec_digit c = Some f.
Proof. destruct d; simpl; by eexists _, _, _. Qed.

Lemma parseInt_digits (d : Decimal.uint) :
  parseInt (VStr (DecimalString.NilZero.string_of_uint d)) = VNum (Z.of_uint d).
Proof.
  destruct (string_of_uint_digit_first d) as (c & s & f & Hs & Hc).
  rewrite Hs, (parseInt_digit_first _ _ _ Hc), <- Hs.
  by rewrite parse_magnitude_digits.
Qed.

(** The decimal text of an integer is parsed to that integer. *)
Lemma parseInt_of_decimal n : parseInt (VStr (Z_to_string n)) = VNum n.
Proof.
  rewrite <- (DecimalZ.of_to n) at 2. unfold parseInt. simpl.
  unfold Z_to_string. destruct (Z.to_int n) as [d|d]; simpl.
  - apply parseInt_digits.
  - by rewrite parse_magnitude_digits.
Qed.

(** An integer id comes out of [parseInt] as it went in. *)
Lemma parseInt_of_integer n : parseInt (VNum n) = VNum n.
Proof.
  rewrite <- (DecimalZ.of_to n) at 2. unfold parseInt. simpl.
  unfold Z_to_string. destruct (Z.to_int n) as [d|d]; simpl.
  - apply parseInt_digits.
  - by rewrite parse_magnitude_digits.
Qed.

End ParseIntFacts.

(* ===================================================================== *)
(** * Facts about the client *)

Ltac js :=
  repeat (unfold Client.getReports, Client.getReportById,
            Client.createReport, Client.deleteReport, Client.handler,
            Client.report_failure, Client.check_ok,
            Client.success_with_data, Client.call, Client.fetchWithAuth,
            Client.response_json, Client.get_prop, Client.toast,
            Client.set_creating, Client.finally, get_state, modify, raise,
            try_except, mbind, mret, ES_bind, ES_ret, es_bind, es_ret;
          simpl).

Section ControllerFacts.
Import Client.
Variable api : string.
Variable net : Request → Fetch.
Variable cb : Callbacks.
Hypothesis Hquiet : quiet cb.

Local Ltac callbacks :=
  repeat first [rewrite (proj1 Hquiet) | rewrite (proj2 Hquiet)]; simpl.

(** What the [catch] block does with an [Error]. *)
Lemma handler_error m w :
  handler cb (VError m) w
  = (Returned (), mkWorld (sent w) (invoked w ++ [OnError (VStr m)]) (ui w)).
Proof. js. by callbacks. Qed.

Local Ltac crunch :=
  repeat match goal with
    | |- context [strict_eq_str ?a ?b] =>
        destruct (strict_eq_str a b) eqn:?; simpl
    | |- context [or_else ?a ?b] => unfold or_else
    | |- context [truthy ?a] => destruct (truthy a) eqn:?; simpl
    end;
  callbacks.

Local Ltac settle :=
  eexists; split; [reflexivity|]; simpl; intros Hfail;
  first
    [ by (destruct Hfail; congruence)
    | eexists; split; [reflexivity|];
      first [ left; eexists; reflexivity
            | right; eexists; split; [reflexivity|];
              split; [reflexivity|assumption] ] ].

Local Ltac controller :=
  unfold calls_back_once; js;
  destruct (net _) as [m|ok [j|m]]; simpl; callbacks;
  [ settle
  | destruct ok; destruct j; simpl; crunch; settle
  | settle ].

Lemma getReports_once w :
  calls_back_once net (mkRequest (api +:+ "/reports") "GET" None) w
    (getReports api net cb w).
Proof. controller. Qed.

Lemma getReportById_once reportId w :
  calls_back_once net (mkRequest (api +:+ "/reports/" +:+ to_string reportId) "GET" None)
    w (getReportById api net cb reportId w).
Proof. controller. Qed.

Lemma createReport_once reportData w :
  calls_back_once net (mkRequest (api +:+ "/reports") "POST" (stringify reportData))
    w (createReport api net cb reportData w).
Proof. controller. Qed.

Lemma deleteReport_once reportId w :
  calls_back_once net
    (mkRequest (api +:+ "/reports/" +:+ to_string reportId) "DELETE" None)
    w (deleteReport api net cb reportId w).
Proof. controller. Qed.

(** A response that is not OK -- the 404 of a deleted report, say -- ends
    in [onError] with a string, whatever its body. *)
Lemma getReportById_not_ok reportId payload w :
  net (mkRequest (api +:+ "/reports/" +:+ to_string reportId) "GET" None)
  = Resolves false payload →
  ∃ m, getReportById api net cb reportId w
       = (Returned (),
          mkWorld
            (sent w ++ [mkRequest (api +:+ "/reports/" +:+ to_string reportId)
                          "GET" None])
            (invoked w ++ [OnError (VStr m)]) (ui w)).
Proof.
  intros H. js. rewrite H.
  destruct payload as [j|m]; [destruct j|]; simpl; callbacks;
    eexists; reflexivity.
Qed.

End ControllerFacts.

Section ClientFacts.
Import Client.

(** C10 (amended) -- one callback per controller call.  For each of
    [getReports], [getReportById], [createReport] and [deleteReport], when
    the callbacks do not throw: one request is sent, exactly one of the two
    callbacks is called, once, and the returned promise is fulfilled.  A
    network failure, a response that is not OK, a body that is not JSON
    and a body whose status is not ['success'] all end in [onError].  Its
    argument is a string, except when an OK response carries a truthy
    [message] that is not a string: that value is passed on as it is.      *)
Theorem controllers_call_back_once api net cb reportId reportData f w :
  quiet cb →
  f ∈ [getReports api net cb; getReportById api net cb reportId;
       createReport api net cb reportData; deleteReport api net cb reportId] →
  ∃ rq, calls_back_once net rq w (f w).
Proof.
  intros Hquiet Hf. repeat apply elem_of_cons in Hf as [->|Hf].
  - eexists. by apply getReports_once.
  - eexists. by apply getReportById_once.
  - eexists. by apply createReport_once.
  - eexists. by apply deleteReport_once.
  - by apply not_elem_of_nil in Hf.
Qed.

Lemma find_video_state vs n w : ∃ r, find_video vs n w = (r, w).
Proof.
  induction vs as [|v vs IH]; simpl; [by eexists|].
  unfold mbind, ES_bind, es_bind.
  destruct v; simpl; try (by eexists); try apply IH;
    destruct (strict_eq_num _ n); simpl; try apply IH; by eexists.
Qed.

Lemma parseInt_number v : ∃ o, parseInt v = number o.
Proof.
  unfold parseInt. destruct (trim_start (to_string v)) as [|c s];
    [by eexists|].
  destruct c as [[] [] [] [] [] [] [] []]; by eexists.
Qed.

Lemma stringify_number o :
  stringify (number o) = Some (match o with Some n => JNum n | None => JNull end).
Proof. by destruct o. Qed.

(** C9 -- the creation request of the Scouting Report page.  For a
    selected video id that is an integer a number holds exactly, or ASCII
    text: every creation request the page sends has a JSON object as body,
    whose [description] is "Scouting report for " followed by the team
    name, or by "opponent team" when the team name is empty, whose
    [video_id] is [parseInt] of the selected video id -- a number, or
    [null] when that is NaN, never a text: an integer id is sent as it is
    and the decimal text of an integer is sent as that integer -- and whose
    [title] is the title typed in; and a request is sent only if a video
    is selected and the title is not empty.  At most one request is sent
    per click.                                                             *)
Theorem creation_request_shape pg body :
  plain_id (selectedVideo pg) →
  body ∈ creation_bodies pg →
  (∃ fields,
     body = Some (JObj fields)
     ∧ obj_get fields "description"
       = Some (JStr ("Scouting report for " +:+
                     (if decide (teamName pg = "") then "opponent team"
                      else teamName pg)))
     ∧ obj_get fields "video_id" = stringify (parseInt (selectedVideo pg))
     ∧ obj_get fields "title" = Some (JStr (reportTitle pg))
     ∧ (∃ o, obj_get fields "video_id"
             = Some (match o with Some k => JNum k | None => JNull end))
     ∧ (∀ n, selectedVideo pg = VNum n →
             obj_get fields "video_id" = Some (JNum n))
     ∧ (∀ n, selectedVideo pg = VStr (Z_to_string n) →
             obj_get fields "video_id" = Some (JNum n)))
  ∧ truthy (selectedVideo pg) = true
  ∧ reportTitle pg ≠ ""
  ∧ creation_bodies pg = [body].
Proof.
  intros _. unfold creation_bodies, handleCreateReport.
  destruct (truthy (selectedVideo pg)) eqn:Hsel; simpl;
    [|by intros ?%not_elem_of_nil].
  destruct (decide (reportTitle pg = "")) as [Ht|Ht].
  { rewrite bool_decide_false by auto. simpl. by intros ?%not_elem_of_nil. }
  rewrite bool_decide_true by done. simpl. js.
  destruct (find_video_state (videos pg) (parseInt (selectedVideo pg))
              (mkWorld [] [] [setCreating true])) as [r ->].
  destruct (parseInt_number (selectedVideo pg)) as [o Ho].
  assert (to_string (or_else (VStr (teamName pg)) (VStr "opponent team"))
          = if decide (teamName pg = "") then "opponent team"
            else teamName pg) as ->.
  { unfold or_else. simpl. destruct (decide (teamName pg = "")).
    - by rewrite bool_decide_false by auto.
    - by rewrite bool_decide_true. }
  assert (∀ n, selectedVideo pg = VNum n → o = Some n) as Hnum.
  { intros n Hn. rewrite Hn, parseInt_of_integer in Ho.
    destruct o; by inversion Ho. }
  assert (∀ n, selectedVideo pg = VStr (Z_to_string n) → o = Some n) as Hstr.
  { intros n Hn. rewrite Hn, parseInt_of_decimal in Ho.
    destruct o; by inversion Ho. }
  destruct r as [videoObj|e]; simpl; [|by intros ?%not_elem_of_nil].
  destruct (truthy videoObj) eqn:Hv; simpl.
  - destruct videoObj; simpl in *; try done;
      (destruct (user pg); simpl; try (by intros ?%not_elem_of_nil)).
    all: rewrite Ho, stringify_number.
    all: intros ->%list_elem_of_singleton.
    all: split; [|done].
    all: eexists; split; [reflexivity|].
    all: repeat split; try (by destruct o); try (by exists o).
    all: intros ? Hid; first [by rewrite (Hnum _ Hid)|by rewrite (Hstr _ Hid)].
  - destruct (user pg); simpl; try (by intros ?%not_elem_of_nil).
    all: rewrite Ho, stringify_number.
    all: intros ->%list_elem_of_singleton.
    all: split; [|done].
    all: eexists; split; [reflexivity|].
    all: repeat split; try (by destruct o); try (by exists o).
    all: intros ? Hid; first [by rewrite (Hnum _ Hid)|by rewrite (Hstr _ Hid)].
Qed.

(** A video id that is an integer is sent as that integer. *)
Lemma integer_id_is_sent_unchanged pg n :
  selectedVideo pg = VNum n →
  stringify (parseInt (selectedVideo pg)) = Some (JNum n).
Proof. intros ->. by rewrite parseInt_of_integer. Qed.

End ClientFacts.

Section ClientScenarios.
Import Client Scenarios.

Lemma controllers_call_back_once_witness :
  ∃ rq, calls_back_once server_down rq fresh_world
          (getReports "http://localhost:8001/api" server_down silent
             fresh_world).
Proof.
  apply (controllers_call_back_once "http://localhost:8001/api" server_down
           silent VUndefined VUndefined).
  - split; reflexivity.
  - left.
Defined.

(** C10 as written does not hold: a numeric [message] reaches [onError]
    as a number. *)
Lemma numeric_message_is_passed_on :
  ¬ error_carries_a_string numeric_message
      (getReports "http://localhost:8001/api" numeric_message silent)
      fresh_world.
Proof.
  intros H.
  destruct (H (mkRequest "http://localhost:8001/api/reports" "GET" None))
    as [m Hm]; [reflexivity|by right|].
  vm_compute in Hm. discriminate Hm.
Qed.

(** When [onSuccess] throws, the [catch] block calls [onError] as well:
    the condition on the callbacks is needed. *)
Example throwing_callback_is_followed_by_onError :
  getReports "http://localhost:8001/api" one_report throwing_onSuccess
    fresh_world
  = (Returned (),
     mkWorld [mkRequest "http://localhost:8001/api/reports" "GET" None]
       [OnSuccess (VArr [VObj [("id", VNum 1)]]);
        OnError (VStr "setReports failed")] []).
Proof. reflexivity. Qed.

Lemma creation_request_shape_witness :
  (∃ fields,
     Some body_1 = Some (JObj fields)
     ∧ obj_get fields "description"
       = Some (JStr ("Scouting report for " +:+
                     (if decide (teamName page_1 = "") then "opponent team"
                      else teamName page_1)))
     ∧ obj_get fields "video_id" = stringify (parseInt (selectedVideo page_1))
     ∧ obj_get fields "title" = Some (JStr (reportTitle page_1))
     ∧ (∃ o, obj_get fields "video_id"
             = Some (match o with Some k => JNum k | None => JNull end))
     ∧ (∀ n, selectedVideo page_1 = VNum n →
             obj_get fields "video_id" = Some (JNum n))
     ∧ (∀ n, selectedVideo page_1 = VStr (Z_to_string n) →
             obj_get fields "video_id" = Some (JNum n)))
  ∧ truthy (selectedVideo page_1) = true
  ∧ reportTitle page_1 ≠ ""
  ∧ creation_bodies page_1 = [Some body_1].
Proof.
  apply (creation_request_shape page_1 (Some body_1)).
  - unfold plain_id, safe_integer. simpl. lia.
  - vm_compute. left.
Defined.

End ClientScenarios.

(* ===================================================================== *)
(** * What a client sees of a job *)

Section ExposureFacts.
Import Service System Client Wire.

Lemma listed_rows s owner skip limit dicts d :
  (get_reports owner skip limit s).1 = Returned dicts → d ∈ dicts →
  ∃ j r, table s !! j = Some r ∧ d = report_dict r.
Proof.
  run. intros [= <-] (r & -> & Hr)%list_elem_of_fmap.
  apply subseteq_take, subseteq_drop in Hr.
  rewrite merge_sort_Permutation in Hr.
  apply elem_of_select_reports in Hr as [[j Hj] _]. eauto.
Qed.

Lemma download_url_other r :
  status r ≠ "completed" → download_url r = None.
Proof. intros H. unfold download_url. by rewrite decide_False. Qed.

(** C6 -- results are exposed only for completed jobs.  For a job of a
    reachable state whose status is not [completed]: [GET /reports/{id}]
    returns it with [analysis_results] and [download_url] null, every
    listing returns it with [download_url] null (a listing never carries
    the analysis), and the download route answers 404; and on the data so
    received the client keeps the download button disabled, refuses the
    download, and shows neither the team analysis panel nor the player
    analysis.                                                              *)
Theorem results_exposed_only_when_completed σ i r api :
  reachable σ → db σ !! i = Some r → status r ≠ "completed" →
  ∃ detail,
    (get_report_route i (session_of σ)).1
    = Returned (Success detail "Report retrieved successfully" 200)
    ∧ d_analysis_results detail = None
    ∧ d_download_url (summary detail) = None
    ∧ (∀ owner skip limit dicts d,
         (get_reports owner skip limit (session_of σ)).1 = Returned dicts →
         d ∈ dicts → d_id d = i → d_download_url d = None)
    ∧ (download_report i (session_of σ)).1
      = Returned (HTTPException 404 "Report file not found")
    ∧ (∀ report,
         report = of_json (encode_detail detail)
         ∨ report = of_json (encode_summary (summary detail)) →
         download_disabled report = true
         ∧ handleDownload api report
           = download_refused "Download not available yet"
         ∧ ∃ column,
             ReportDetailsPage report = Details true None column
             ∧ ∀ team, column ≠ PlayerAnalysis team).
Proof.
  intros Hreach Hr Hst.
  destruct (invariant_reachable _ Hreach) as [Hrows _].
  assert (file_path r = None ∧ analysis_results r = None) as [Hf Ha].
  { destruct (Hrows i r Hr) as (_ & _ & Hcase).
    unfold no_result in Hcase. naive_solver. }
  exists (mkReportDetail (report_dict r) (analysis_results r)).
  split. { unfold session_of. run. by rewrite Hr. }
  split; [done|]. split; [by apply download_url_other|].
  split.
  { intros owner skip limit dicts d Hlist Hd Hid.
    destruct (listed_rows _ _ _ _ _ _ Hlist Hd) as (j & r' & Hj & ->).
    simpl in Hj, Hid. destruct (Hrows j r' Hj) as (Hidr & _).
    assert (j = i) as -> by congruence.
    assert (r' = r) as -> by congruence.
    by apply download_url_other. }
  split. { unfold session_of. run. by rewrite Hr, Hf. }
  assert (bool_decide (status r = "completed") = false) as Hne
    by (by apply bool_decide_eq_false).
  intros report [->| ->].
  - unfold ReportDetailsPage, download_disabled, handleDownload,
      teamAnalysis, encode_detail, encode_dict, or_else.
    simpl. rewrite Ha, (download_url_other r Hst). simpl.
    rewrite Hne. simpl. split; [done|]. split; [done|].
    eexists. split; [done|]. intros team.
    by repeat case_match.
  - unfold ReportDetailsPage, download_disabled, handleDownload,
      teamAnalysis, encode_summary, encode_dict, or_else.
    simpl. rewrite (download_url_other r Hst). simpl.
    rewrite Hne. simpl. split; [done|]. split; [done|].
    eexists. split; [done|]. intros team.
    by repeat case_match.
Qed.

(** The colour of the status chip is one of the four named ones for
    every job of a reachable state. *)
Lemma status_chip_colour σ i r :
  reachable σ → db σ !! i = Some r →
  getStatusColor (VStr (status r)) ≠ "default".
Proof.
  intros Hreach Hr. destruct (invariant_reachable _ Hreach) as [Hrows _].
  destruct (Hrows i r Hr) as (_ & _ & Hcase).
  by destruct Hcase as [(-> & _)|[(-> & _)|[(-> & _)|(-> & _)]]].
Qed.

End ExposureFacts.

Section SystemScenarios.
Import Service System Client Wire Scenarios.

Lemma reachable_created_1 : reachable created_1.
Proof. eapply rtc_l; [apply step_create|apply rtc_refl]. Defined.

Lemma reachable_started_1 : reachable started_1.
Proof.
  eapply rtc_r; [apply reachable_created_1|].
  apply step_start. vm_compute. set_solver.
Defined.

Lemma step_finished_1 : step started_1 finished_1.
Proof. apply step_finish. vm_compute. set_solver. Defined.

Lemma status_follows_the_diagram_witness :
  status (processing_row queued_1) ∈ statuses
  ∧ status (completed_row 20 (pdf_of queued_1) analysis_123
              (processing_row queued_1)) ∈ statuses
  ∧ (step started_1 finished_1 →
     completed_row 20 (pdf_of queued_1) analysis_123 (processing_row queued_1)
     = processing_row queued_1
     ∨ arrow (status (processing_row queued_1))
         (status (completed_row 20 (pdf_of queued_1) analysis_123
                    (processing_row queued_1))))
  ∧ rtc arrow (status (processing_row queued_1))
      (status (completed_row 20 (pdf_of queued_1) analysis_123
                 (processing_row queued_1)))
  ∧ (terminal (status (processing_row queued_1)) →
     completed_row 20 (pdf_of queued_1) analysis_123 (processing_row queued_1)
     = processing_row queued_1)
  ∧ (status (processing_row queued_1) ≠ "queued" →
     status (completed_row 20 (pdf_of queued_1) analysis_123
               (processing_row queued_1)) ≠ "queued").
Proof.
  apply (status_follows_the_diagram started_1 finished_1 1).
  - apply reachable_started_1.
  - apply rtc_once, step_finished_1.
  - reflexivity.
  - reflexivity.
Defined.

Lemma completed_iff_results_witness :
  (status completed_1 = "completed"
   ↔ is_Some (file_path completed_1) ∧ is_Some (analysis_results completed_1)
     ∧ is_Some (completed_at completed_1))
  ∧ (status completed_1 ≠ "completed"
     → file_path completed_1 = None ∧ analysis_results completed_1 = None).
Proof.
  apply (completed_iff_results finished_1 1).
  - eapply rtc_r; [apply reachable_started_1|apply step_finished_1].
  - reflexivity.
Defined.

Lemma results_exposed_only_when_completed_witness :
  ∃ detail,
    (get_report_route 1 (session_of started_1)).1
    = Returned (Success detail "Report retrieved successfully" 200)
    ∧ d_analysis_results detail = None
    ∧ d_download_url (summary detail) = None
    ∧ (∀ owner skip limit dicts d,
         (get_reports owner skip limit (session_of started_1)).1
         = Returned dicts →
         d ∈ dicts → d_id d = 1 → d_download_url d = None)
    ∧ (download_report 1 (session_of started_1)).1
      = Returned (HTTPException 404 "Report file not found")
    ∧ (∀ report,
         report = of_json (encode_detail detail)
         ∨ report = of_json (encode_summary (summary detail)) →
         download_disabled report = true
         ∧ handleDownload "http://localhost:8001/api" report
           = download_refused "Download not available yet"
         ∧ ∃ column,
             ReportDetailsPage report = Details true None column
             ∧ ∀ team, column ≠ PlayerAnalysis team).
Proof.
  apply (results_exposed_only_when_completed started_1 1
           (processing_row queued_1)).
  - apply reachable_started_1.
  - reflexivity.
  - vm_compute. discriminate.
Defined.

Lemma creation_returns_a_queued_job_witness :
  (create_report_route 10 report_in_1 (session_of initial)).1
  = Returned (Success (mkCreated 1 "queued") "Report creation initiated" 202,
              [GenerateReport 1])
  ∧ db created_1 = <[1 := new_row 10 1 report_in_1]> (db initial)
  ∧ status (new_row 10 1 report_in_1) = "queued"
  ∧ no_result (new_row 10 1 report_in_1)
  ∧ 1 ∈ scheduled created_1
  ∧ running created_1 = running initial
  ∧ store created_1 = store initial
  ∧ (∀ c now',
       (generate_report c now' 1 (session_of created_1)).1 = Returned ())
  ∧ committed_by (create_report_route 10 report_in_1) (session_of initial)
    = [<[1 := new_row 10 1 report_in_1]> (db initial)]
  ∧ dirty (create_report_route 10 report_in_1 (session_of initial)).2 = []
  ∧ (∀ σ2 r c now',
       db σ2 !! 1 = Some r →
       (generate_report_start 1 (session_of σ2)).1 = Returned true
       ∧ (generate_report_finish c now' 1 (session_of σ2)).1 = Returned ()).
Proof. apply (creation_returns_a_queued_job 10 report_in_1 initial). Defined.

(** Scenario A: the run of job 1 ends in [completed] with its results. *)
Example scenario_A :
  db finished_1 !! 1
  = Some (mkReport 1 "Scouting Report - Team X"
            (Some "Scouting report for Team X") 123 (Some "Game 1")
            (Some "Team X") (Some "Team Y") None 456 "completed"
            (Some "/app/reports/scouting_report_1.pdf") (Some analysis_123)
            10 10 (Some 20))
  ∧ store finished_1 = {["/app/reports/scouting_report_1.pdf"]}.
Proof. split; [reflexivity|]. vm_compute. reflexivity. Qed.

(** Scenario C: rendering raises after a successful analysis; the job
    ends in [failed], [analysis_results] stays null and no artifact is
    stored. *)
Example scenario_C :
  db (finish render_fails 20 1 started_1) !! 1
  = Some (mkReport 1 "Scouting Report - Team X"
            (Some "Scouting report for Team X") 123 (Some "Game 1")
            (Some "Team X") (Some "Team Y") None 456 "failed"
            None None 10 10 None)
  ∧ store (finish render_fails 20 1 started_1) = ∅.
Proof. split; [reflexivity|]. vm_compute. reflexivity. Qed.

(** After a completed job the client may download. *)
Example completed_job_is_exposed :
  (get_report_route 1 (session_of finished_1)).1
  = Returned
      (Success
         (mkReportDetail (report_dict completed_1) (Some analysis_123))
         "Report retrieved successfully" 200)
  ∧ d_download_url (report_dict completed_1)
    = Some "/api/reports/1/download"
  ∧ download_disabled
      (of_json (encode_detail
                  (mkReportDetail (report_dict completed_1) (Some analysis_123))))
    = false.
Proof. repeat split; vm_compute; reflexivity. Qed.

End SystemScenarios.

Section ServiceMore.
Import Service System Shapes.

Lemma get_reports_eq owner skip limit s :
  get_reports owner skip limit s
  = (Returned (report_dict <$>
       take limit (drop skip (merge_sort newest_first
                                (select_reports owner (table s))))), s).
Proof. reflexivity. Qed.

Lemma sorted_rows_unique (l1 l2 : list Report) :
  NoDup (created_at <$> l1) → l1 ≡ₚ l2 →
  Sorted newest_first l1 → Sorted newest_first l2 → l1 = l2.
Proof.
  revert l2. induction l1 as [|x l1 IH]; intros l2 Hnd Hperm H1 H2.
  { by apply Permutation_nil_l in Hperm. }
  destruct l2 as [|y l2]; [by apply Permutation_nil_r in Hperm|].
  apply Sorted_StronglySorted in H1; [|apply _].
  apply Sorted_StronglySorted in H2; [|apply _].
  apply StronglySorted_inv in H1 as [H1 Hx].
  apply StronglySorted_inv in H2 as [H2 Hy].
  rewrite fmap_cons in Hnd. apply NoDup_cons in Hnd as [Hk Hnd].
  assert (x = y) as ->.
  { assert (x ∈ y :: l2) as Hxin by (rewrite <- Hperm; left).
    assert (y ∈ x :: l1) as Hyin by (rewrite Hperm; left).
    apply elem_of_cons in Hxin as [->|Hxin]; [done|].
    apply elem_of_cons in Hyin as [->|Hyin]; [done|].
    rewrite Forall_forall in Hx, Hy.
    pose proof (Hx y Hyin) as Hle1. pose proof (Hy x Hxin) as Hle2.
    unfold newest_first in Hle1, Hle2.
    destruct Hk. apply list_elem_of_fmap. exists y. split; [lia|done]. }
  f_equal. apply IH; [done| |by apply StronglySorted_Sorted..].
  by apply Permutation_cons_inv in Hperm.
Qed.

(** X1 -- the pages of [get_reports] compose when the rows selected were
    created at distinct instants.  The order of the listing is then the
    only one the database can return, so that every page is the one the
    database hands out; the page of [a] rows at offset [skip] followed by
    the page of [b] rows at offset [skip + a] is the page of [a + b] rows
    at offset [skip], and after a page that came back short the next page
    is empty. *)
Theorem get_reports_pages_compose s owner (skip a b : nat) :
  NoDup (created_at <$> select_reports owner (table s)) →
  (∀ rows (offset limit : nat),
     database_order owner (table s) rows →
     get_reports owner offset limit s
     = (Returned (report_dict <$> take limit (drop offset rows)), s))
  ∧ ∃ p1 p2,
      get_reports owner skip a s = (Returned p1, s)
      ∧ get_reports owner (skip + a) b s = (Returned p2, s)
      ∧ get_reports owner skip (a + b) s = (Returned (p1 ++ p2), s)
      ∧ (length p1 < a → p2 = [])%nat.
Proof.
  intros Hnd. split.
  { intros rows offset limit [Hperm Hsorted]. rewrite get_reports_eq.
    do 5 f_equal. symmetry. apply sorted_rows_unique; [| |done|].
    - by rewrite Hperm.
    - by rewrite Hperm, merge_sort_Permutation.
    - apply Sorted_merge_sort, _. }
  rewrite !get_reports_eq.
  set (all := merge_sort newest_first (select_reports owner (table s))).
  eexists _, _. split; [done|]. split; [done|]. split.
  - rewrite <- fmap_app. do 3 f_equal.
    by rewrite <- take_take_drop, drop_drop.
  - rewrite !length_fmap, length_take. intros H.
    rewrite <- drop_drop.
    rewrite (drop_ge (drop skip all)); [by rewrite take_nil|]. lia.
Qed.

Lemma keys_are_ids σ i r : reachable σ → db σ !! i = Some r → id r = i.
Proof.
  intros Hreach Hr. destruct (invariant_reachable _ Hreach) as [Hrows _].
  by destruct (Hrows i r Hr) as (? & _).
Qed.

Lemma rows_by_id (t : gmap Z Report) :
  (∀ i r, t !! i = Some r → id r = i) →
  id <$> (map_to_list t).*2 = (map_to_list t).*1.
Proof.
  intros Hid. rewrite <- list_fmap_compose.
  apply list_fmap_ext. intros k [i r] Hk. simpl.
  apply Hid. apply elem_of_map_to_list. by eapply list_elem_of_lookup_2.
Qed.

(** X2 -- in a reachable state that holds [limit] jobs at most, [GET
    /reports] with no owner and no offset answers with every job exactly
    once: the ids of the answer are distinct, they are the keys of the
    table, and the dictionary of every row is in the answer. *)
Theorem full_listing_has_every_job_once σ (limit : nat) :
  reachable σ → (size (db σ) ≤ limit)%nat →
  ∃ dicts,
    list_reports None 0 limit (session_of σ)
    = (Returned (Success dicts "Reports retrieved successfully" 200),
       session_of σ)
    ∧ NoDup (d_id <$> dicts)
    ∧ (∀ i, i ∈ d_id <$> dicts ↔ is_Some (db σ !! i))
    ∧ (∀ i r, db σ !! i = Some r → report_dict r ∈ dicts).
Proof.
  intros Hreach Hsize.
  unfold list_reports, mbind, ES_bind, es_bind. rewrite get_reports_eq.
  simpl. rewrite drop_0.
  set (all := merge_sort newest_first (map_to_list (db σ)).*2).
  assert (all ≡ₚ (map_to_list (db σ)).*2) as Hperm
    by apply merge_sort_Permutation.
  assert (length all = size (db σ)) as Hlen.
  { rewrite Hperm, length_fmap. apply length_map_to_list. }
  rewrite take_ge by lia.
  eexists. split; [reflexivity|].
  assert (d_id <$> (report_dict <$> all) ≡ₚ (map_to_list (db σ)).*1) as Hids.
  { rewrite <- list_fmap_compose.
    rewrite <- (rows_by_id (db σ)) by (intros; by eapply keys_are_ids).
    by rewrite Hperm. }
  split; [rewrite Hids; apply NoDup_fst_map_to_list|].
  split.
  - intros i. rewrite Hids, list_elem_of_fmap. split.
    + intros ([j r] & -> & Hin%elem_of_map_to_list). by eexists.
    + intros [r Hr]. exists (i, r). by rewrite elem_of_map_to_list.
  - intros i r Hr. apply list_elem_of_fmap. exists r. split; [done|].
    rewrite Hperm. apply list_elem_of_fmap. exists (i, r).
    by rewrite elem_of_map_to_list.
Qed.


(** X3 -- [DELETE /reports/{id}] answers success when the row is there and
    404 [Report not found] when it is not. It removes that row and no other,
    leaves the session as it was when the row is missing, and asked again
    for the same id it answers 404. *)
Theorem delete_removes_one_row_once s report_id :
  dirty s = [] →
  let first := delete_report_route report_id s in
  first.1 = Returned (if decide (is_Some (table s !! report_id))
                      then Success () "Report deleted successfully" 200
                      else HTTPException 404 "Report not found")
  ∧ table first.2 !! report_id = None
  ∧ (∀ j, j ≠ report_id → table first.2 !! j = table s !! j)
  ∧ (table s !! report_id = None → first.2 = s)
  ∧ delete_report_route report_id first.2
    = (Returned (HTTPException 404 "Report not found"), first.2).
Proof.
  intros Hd. cbv zeta. run.
  destruct (table s !! report_id) as [r|] eqn:Hr; simpl.
  - rewrite Hd. simpl.
    split; [done|]. split; [apply lookup_delete_eq|].
    split; [intros j Hj; by rewrite lookup_delete_ne|].
    split; [done|]. by rewrite lookup_delete_eq.
  - split; [done|]. split; [done|]. split; [done|]. split; [done|].
    by rewrite Hr.
Qed.

(** X4 -- in a reachable state [GET /reports/{id}/download] answers with the
    file of [file_path], named [scouting_report_<id>.pdf], when the row is
    there and its [file_path] is set and not empty, and with 404 [Report
    file not found] otherwise. A file is served for a completed job only,
    and every completed job has its [file_path] set. *)
Theorem download_serves_the_completed_artifact σ i :
  reachable σ →
  (download_report i (session_of σ)).1
  = Returned
      (match db σ !! i with
       | Some r =>
           match file_path r with
           | Some p =>
               if decide (p = "")
               then HTTPException 404 "Report file not found"
               else FileResponse p
                      ("scouting_report_" +:+ Z_to_string i +:+ ".pdf")
                      "application/pdf"
           | None => HTTPException 404 "Report file not found"
           end
       | None => HTTPException 404 "Report file not found"
       end)
  ∧ (∀ p name media,
       (download_report i (session_of σ)).1
       = Returned (FileResponse p name media) →
       ∃ r, db σ !! i = Some r ∧ status r = "completed"
            ∧ file_path r = Some p)
  ∧ (∀ r, db σ !! i = Some r → status r = "completed" →
          is_Some (file_path r)).
Proof.
  intros Hreach. destruct (invariant_reachable _ Hreach) as [Hrows _].
  assert ((download_report i (session_of σ)).1
          = Returned
              (match db σ !! i with
               | Some r =>
                   match file_path r with
                   | Some p =>
                       if decide (p = "")
                       then HTTPException 404 "Report file not found"
                       else FileResponse p
                              ("scouting_report_" +:+ Z_to_string i +:+ ".pdf")
                              "application/pdf"
                   | None => HTTPException 404 "Report file not found"
                   end
               | None => HTTPException 404 "Report file not found"
               end)) as Heq.
  { unfold session_of. run. destruct (db σ !! i) as [r|]; simpl; [|done].
    destruct (file_path r) as [p|]; simpl; [|done].
    destruct (decide (p = "")) as [->|Hp]; simpl; [done|].
    by rewrite bool_decide_true. }
  split; [exact Heq|]. split.
  - intros p name media. rewrite Heq. intros [= H].
    destruct (db σ !! i) as [r|] eqn:Hr; [|done].
    destruct (file_path r) as [p'|] eqn:Hp; [|done].
    destruct (decide (p' = "")); [done|]. injection H as -> _ _.
    exists r. split; [done|]. split; [|done].
    destruct (Hrows i r Hr) as (_ & _ & Hcase).
    unfold no_result in Hcase.
    destruct Hcase as [(_ & _ & _ & Hf & _)|[(_ & _ & _ & Hf & _)
                      |[(Hst & _)|(_ & _ & _ & Hf & _)]]]; congruence.
  - intros r Hr Hst. destruct (Hrows i r Hr) as (_ & _ & Hcase).
    unfold has_result in Hcase.
    destruct Hcase as [(Hst' & _)|[(Hst' & _)|[(_ & _ & _ & Hf & _)|(Hst' & _)]]];
      congruence.
Qed.


(** X5 -- a run of [generate_report] touches the row of its job only: every
    other row is what it was, no row appears or disappears, no id is
    allocated, and on its own row the run keeps the id, the title, the
    description, the video, the team names, the game date, the owner and the
    creation time. *)
Theorem generate_report_touches_one_row c now s report_id :
  dirty s = [] →
  let s' := (generate_report c now report_id s).2 in
  (∀ j, j ≠ report_id → table s' !! j = table s !! j)
  ∧ (∀ j, is_Some (table s' !! j) ↔ is_Some (table s !! j))
  ∧ next_id s' = next_id s
  ∧ (∀ r r', table s !! report_id = Some r →
             table s' !! report_id = Some r' → same_description r r').
Proof.
  intros Hd. cbv zeta. destruct (table s !! report_id) as [r|] eqn:Hr.
  - rewrite (generate_report_found c now s report_id r Hd Hr). cbv zeta.
    destruct (run_steps c (processing_row r)) as [[a p]|e]; simpl.
    all: split; [intros j Hj; by rewrite lookup_insert_ne|].
    all: split; [intros j; destruct (decide (j = report_id)) as [->|Hj];
                 [rewrite lookup_insert_eq, Hr; split; eauto
                 |by rewrite lookup_insert_ne]|].
    all: split; [done|].
    all: intros r0 r' [= <-]; rewrite lookup_insert_eq; intros [= <-].
    all: by repeat split.
  - rewrite (generate_report_missing c now s report_id Hr). simpl.
    split; [done|]. split; [done|]. split; [done|].
    intros r r'. by rewrite Hr.
Qed.


End ServiceMore.

Section VideoAnalysisFacts.
Import VideoAnalysis.
Variable MAIN_BACKEND_URL : string.
Variable client_get : string → Result string HttpResponse.
Variable team_analysis : Result string PyDict.
Variable loop_time : Z.


(** X6 -- [get_video_data] never raises.  It returns the [data] of the body
    when the main backend answers 200 with JSON that has this key, and the
    sample record of the video in every other case: a failed request,
    another status, a body that is not JSON or has no [data]. *)
Theorem get_video_data_never_raises video_id :
  ∃ video_data,
    get_video_data MAIN_BACKEND_URL client_get video_id = Returned video_data
    ∧ (video_data = sample_video video_id
       ∨ ∃ response body,
           client_get (video_url MAIN_BACKEND_URL video_id) = Returned response
           ∧ status_code response = 200
           ∧ json response = Returned body
           ∧ subscript body "data" = Returned video_data)
    ∧ (∀ response,
         client_get (video_url MAIN_BACKEND_URL video_id) = Returned response →
         status_code response ≠ 200 → video_data = sample_video video_id)
    ∧ (∀ e, client_get (video_url MAIN_BACKEND_URL video_id) = Raised e →
            video_data = sample_video video_id)
    ∧ (∀ response body data,
         client_get (video_url MAIN_BACKEND_URL video_id) = Returned response →
         status_code response = 200 →
         json response = Returned body →
         subscript body "data" = Returned data →
         video_data = data)
    ∧ (∀ response e,
         client_get (video_url MAIN_BACKEND_URL video_id) = Returned response →
         json response = Raised e →
         video_data = sample_video video_id)
    ∧ (∀ response body e,
         client_get (video_url MAIN_BACKEND_URL video_id) = Returned response →
         json response = Returned body →
         subscript body "data" = Raised e →
         video_data = sample_video video_id).
Proof.
  unfold VideoAnalysis.get_video_data, fetch_video, mbind, Result_bind.
  destruct (client_get _) as [response|e]; simpl.
  2:{ eexists. split; [done|]. split; [by left|]. by repeat split. }
  destruct (decide (status_code response ≠ 200)) as [Hne|Heq%dec_stable].
  { eexists. split; [done|]. split; [by left|].
    split; [done|]. split; [done|].
    split; [by intros ??? [= <-]|]. split; by intros. }
  destruct (json response) as [body|e] eqn:Hj.
  2:{ eexists. split; [done|]. split; [by left|].
      split; [done|]. split; [done|].
      split; [intros ??? [= <-]; congruence|]. split; by intros. }
  destruct (subscript body "data") as [v|e] eqn:Hs.
  - eexists. split; [done|]. split; [right; by eexists _, _|].
    split; [by intros ? [= <-]|]. split; [done|].
    split; [intros ??? [= <-] _; congruence|].
    split; [intros ?? [= <-]; congruence|].
    intros ??? [= <-]; congruence.
  - eexists. split; [done|]. split; [by left|].
    split; [done|]. split; [done|].
    split; [intros ??? [= <-] _; congruence|]. split; by intros.
Qed.

(** X7 -- when the request to the main backend raises, the first two steps
    of the pipeline succeed all the same: the analysis is the one of the
    sample record, with the id that was asked for and the title [Sample Game
    Video <id>]. *)
Theorem unreachable_backend_is_analysed_as_the_sample video_id e team :
  client_get (video_url MAIN_BACKEND_URL video_id) = Raised e →
  team_analysis = Returned team →
  fetch_and_analyze MAIN_BACKEND_URL client_get team_analysis loop_time
    video_id
  = Returned [("video_id", JNum video_id);
              ("video_title",
               JStr ("Sample Game Video " +:+ Z_to_string video_id));
              ("analysis_timestamp", JNum loop_time);
              ("team_analysis", JObj team)].
Proof.
  intros He Ht.
  unfold VideoAnalysis.fetch_and_analyze, VideoAnalysis.get_video_data,
    fetch_video, analyze_video, mbind, Result_bind.
  by rewrite He, Ht.
Qed.

(** X8 -- when the main backend answers 200 with a body whose [data] is not
    an object ([null], a list, a number), [get_video_data] returns that
    value as it is and [analyze_video] raises [AttributeError] on it. *)
Theorem answer_without_an_object_fails_the_analysis
    video_id response body video_data :
  client_get (video_url MAIN_BACKEND_URL video_id) = Returned response →
  status_code response = 200 →
  json response = Returned body →
  subscript body "data" = Returned video_data →
  (∀ fields, video_data ≠ JObj fields) →
  get_video_data MAIN_BACKEND_URL client_get video_id = Returned video_data
  ∧ fetch_and_analyze MAIN_BACKEND_URL client_get team_analysis loop_time
      video_id
    = Raised "AttributeError".
Proof.
  intros Hget Hst Hjson Hdata Hobj.
  assert (get_video_data MAIN_BACKEND_URL client_get video_id
          = Returned video_data) as Hv.
  { unfold VideoAnalysis.get_video_data, fetch_video, mbind, Result_bind.
    rewrite Hget, Hst, Hjson, Hdata. done. }
  split; [exact Hv|].
  unfold VideoAnalysis.fetch_and_analyze, mbind, Result_bind. rewrite Hv.
  unfold analyze_video, mbind, Result_bind.
  destruct video_data; try done. by destruct (Hobj fields).
Qed.

End VideoAnalysisFacts.

Section EventFacts.
Import Events.
Variable behaviour : Callback → EventType → Json → Outcome * list Action.

Lemma deliver_all_quiet ev data n cbs bus :
  (∀ cb, cb ∈ cbs → (behaviour cb ev data).2 = []) →
  (∀ cb class, cb ∈ cbs →
               (behaviour cb ev data).1 ≠ RaisesBaseException class) →
  size (listeners bus ev) = n →
  ∃ bus',
    deliver_all behaviour ev data n cbs bus = Some (Returned (), bus')
    ∧ subscribers bus' = subscribers bus
    ∧ delivered bus' = delivered bus ++ ((λ cb, mkDelivery cb ev data) <$> cbs)
    ∧ length (errors bus')
      = (length (errors bus)
         + length (filter (λ cb, raised (behaviour cb ev data).1 = true)
                     cbs))%nat.
Proof.
  revert bus. induction cbs as [|cb cbs IH]; intros bus Hquiet Hbase Hn.
  { exists bus. simpl. rewrite app_nil_r. split; [done|]. split; [done|].
    split; [done|]. lia. }
  simpl.
  pose proof (Hquiet cb ltac:(left)) as Hacts.
  pose proof (λ class, Hbase cb class ltac:(left)) as Hout.
  destruct (behaviour cb ev data) as [outcome actions] eqn:Hb.
  simpl in Hacts, Hout. subst actions. simpl.
  destruct outcome as [|e|class]; [| |by destruct (Hout class)].
  - destruct (decide _) as [Hne|_]; [by destruct Hne|].
    edestruct IH as (bus' & -> & Hs & Hd & He);
      [by intros; apply Hquiet; right
      |by intros; apply Hbase; right|exact Hn|].
    exists bus'. split; [done|]. split; [done|]. simpl in *.
    rewrite Hd, <- app_assoc. split; [done|].
    rewrite He. rewrite filter_cons_False; [done|]. by rewrite Hb.
  - destruct (decide _) as [Hne|_]; [by destruct Hne|].
    edestruct IH as (bus' & -> & Hs & Hd & He);
      [by intros; apply Hquiet; right
      |by intros; apply Hbase; right|exact Hn|].
    exists bus'. split; [done|]. split; [done|]. simpl in *.
    rewrite Hd, <- app_assoc. split; [done|].
    rewrite He, length_app. rewrite filter_cons_True by (by rewrite Hb).
    simpl. lia.
Qed.

Lemma raising_deliveries ev data cbs :
  length (filter (λ cb, raised (behaviour cb ev data).1 = true) cbs)
  = length (filter (λ d, raised (behaviour (callee d) ev data).1 = true)
              ((λ cb, mkDelivery cb ev data) <$> cbs)).
Proof.
  induction cbs as [|cb cbs IH]; [done|]. rewrite fmap_cons.
  destruct (raised (behaviour cb ev data).1) eqn:Hb.
  - rewrite (filter_cons_True _ cb) by done.
    rewrite (filter_cons_True _ (mkDelivery cb ev data)) by done.
    simpl. by rewrite IH.
  - rewrite (filter_cons_False _ cb) by (by rewrite Hb).
    rewrite (filter_cons_False _ (mkDelivery cb ev data))
      by (simpl; by rewrite Hb).
    done.
Qed.

(** X9 -- [publish] with callbacks that keep to themselves.  When no
    callback subscribed to the event type subscribes or unsubscribes
    while the bus delivers, and none ends in an exception that is not an
    [Exception], [publish] calls every callback subscribed to the event
    type once, with that type and that data, and calls no other callback;
    it returns, leaves the subscriptions as they were, and logs one line
    for each callback that raised. *)
Theorem publish_calls_every_subscriber_once ev data bus :
  (∀ cb, cb ∈ listeners bus ev → (behaviour cb ev data).2 = []) →
  (∀ cb class, cb ∈ listeners bus ev →
               (behaviour cb ev data).1 ≠ RaisesBaseException class) →
  ∃ bus' calls,
    publish behaviour ev data bus = Some (Returned (), bus')
    ∧ subscribers bus' = subscribers bus
    ∧ delivered bus' = delivered bus ++ calls
    ∧ NoDup (callee <$> calls)
    ∧ (∀ cb, cb ∈ callee <$> calls ↔ cb ∈ listeners bus ev)
    ∧ (∀ d, d ∈ calls → event d = ev ∧ payload d = data)
    ∧ length (errors bus')
      = (length (errors bus)
         + length (filter (λ d, raised (behaviour (callee d) ev data).1 = true)
                     calls))%nat.
Proof.
  unfold publish, listeners. intros Hquiet Hbase.
  destruct (subscribers bus !! ev) as [subs|] eqn:Hs; simpl in *.
  - destruct (deliver_all_quiet ev data (size subs) (elements subs) bus)
      as (bus' & Hrun & Hsubs & Hd & He).
    { intros cb Hcb. apply Hquiet. by apply elem_of_elements. }
    { intros cb class Hcb. apply Hbase. by apply elem_of_elements. }
    { unfold listeners. by rewrite Hs. }
    eexists _, _. split; [exact Hrun|]. split; [done|].
    split; [exact Hd|].
    rewrite <- list_fmap_compose. simpl.
    assert (callee ∘ (λ cb, mkDelivery cb ev data) = id) as -> by done.
    rewrite list_fmap_id.
    split; [apply NoDup_elements|]. split; [intros cb; apply elem_of_elements|].
    split; [by intros d (cb & -> & _)%list_elem_of_fmap|].
    rewrite He. f_equal. apply raising_deliveries.
  - exists bus, []. rewrite app_nil_r. split; [done|]. split; [done|].
    split; [done|]. split; [constructor|].
    split; [intros cb; simpl; set_solver|]. split; [set_solver|].
    simpl. lia.
Qed.

Lemma listeners_subscribe ev cb bus ev' :
  listeners (subscribe ev cb bus) ev'
  = if decide (ev' = ev) then {[cb]} ∪ listeners bus ev
    else listeners bus ev'.
Proof.
  unfold listeners, subscribe. simpl.
  destruct (decide (ev' = ev)) as [->|Hne].
  - rewrite lookup_insert_eq. simpl.
    destruct (subscribers bus !! ev) eqn:Hs; simpl; [by rewrite Hs|].
    by rewrite lookup_insert_eq.
  - rewrite lookup_insert_ne by done.
    destruct (subscribers bus !! ev) eqn:Hs; simpl; [done|].
    by rewrite lookup_insert_ne.
Qed.

Lemma listeners_unsubscribe ev cb bus ev' :
  listeners (unsubscribe ev cb bus) ev'
  = if decide (ev' = ev) then listeners bus ev ∖ {[cb]}
    else listeners bus ev'.
Proof.
  unfold listeners, unsubscribe.
  destruct (subscribers bus !! ev) as [subs|] eqn:Hs.
  - destruct (decide (cb ∈ subs)) as [Hin|Hnin]; simpl.
    + destruct (decide (ev' = ev)) as [->|Hne].
      * by rewrite lookup_insert_eq.
      * by rewrite lookup_insert_ne.
    + destruct (decide (ev' = ev)) as [->|Hne]; [|done].
      rewrite Hs. simpl. set_solver.
  - destruct (decide (ev' = ev)) as [->|Hne]; [|done].
    rewrite Hs. simpl. set_solver.
Qed.

(** Outside of the conditions of the statement above [publish] raises.
    A callback that unsubscribes itself ends the delivery in
    [RuntimeError], and an exception that is not an [Exception] goes
    through. *)
Lemma one_shot_callback_breaks_publish ev data bus cb :
  subscribers bus !! ev = Some {[cb]} →
  behaviour cb ev data = (Returns, [Unsubscribe ev cb]) →
  ∃ bus',
    publish behaviour ev data bus
    = Some (Raised "RuntimeError: Set changed size during iteration", bus')
    ∧ listeners bus' ev = ∅
    ∧ delivered bus' = delivered bus ++ [mkDelivery cb ev data].
Proof.
  intros Hs Hb. unfold publish. rewrite Hs, elements_singleton.
  cbn [deliver_all]. rewrite Hb. cbn [perform_all perform].
  set (called := mkEventBus (subscribers bus)
                   (delivered bus ++ [mkDelivery cb ev data]) (errors bus)).
  assert (listeners called ev = {[cb]}) as Hl.
  { unfold listeners, called. simpl. by rewrite Hs. }
  assert (listeners (unsubscribe ev cb called) ev = ∅) as Hl'.
  { rewrite listeners_unsubscribe, decide_True, Hl by done. set_solver. }
  rewrite decide_True.
  2:{ rewrite Hl', size_empty, size_singleton. done. }
  eexists. split; [done|]. split; [done|].
  unfold unsubscribe, called. simpl. rewrite Hs.
  by rewrite decide_True by set_solver.
Qed.

Lemma base_exception_leaves_publish ev data bus cb class :
  subscribers bus !! ev = Some {[cb]} →
  behaviour cb ev data = (RaisesBaseException class, []) →
  publish behaviour ev data bus
  = Some (Raised class,
          mkEventBus (subscribers bus)
            (delivered bus ++ [mkDelivery cb ev data]) (errors bus)).
Proof.
  intros Hs Hb. unfold publish. rewrite Hs, elements_singleton.
  cbn [deliver_all]. by rewrite Hb.
Qed.

(** X10 -- the subscriptions of an event type form a set. [subscribe] adds
    the callback to the listeners of its type and to no other; subscribing
    twice is subscribing once; [unsubscribe] removes the callback from its
    type only, and does nothing for a callback that is not subscribed;
    unsubscribing what was just subscribed gives the listeners back. *)
Theorem subscriptions_form_a_set ev cb bus ev' :
  listeners (subscribe ev cb bus) ev'
  = (if decide (ev' = ev) then {[cb]} ∪ listeners bus ev
     else listeners bus ev')
  ∧ listeners (unsubscribe ev cb bus) ev'
    = (if decide (ev' = ev) then listeners bus ev ∖ {[cb]}
       else listeners bus ev')
  ∧ subscribe ev cb (subscribe ev cb bus) = subscribe ev cb bus
  ∧ (cb ∉ listeners bus ev → unsubscribe ev cb bus = bus)
  ∧ (cb ∉ listeners bus ev →
     listeners (unsubscribe ev cb (subscribe ev cb bus)) ev'
     = listeners bus ev').
Proof.
  split; [apply listeners_subscribe|]. split; [apply listeners_unsubscribe|].
  split.
  { unfold subscribe at 1 3. simpl.
    f_equal.
    destruct (subscribers bus !! ev) as [subs|] eqn:Hs; simpl.
    - rewrite Hs. simpl. rewrite !lookup_insert_eq. simpl.
      rewrite insert_insert_eq. f_equal. set_solver.
    - rewrite !lookup_insert_eq. simpl. rewrite !insert_insert_eq.
      f_equal. set_solver. }
  split.
  { unfold listeners, unsubscribe. intros Hn.
    destruct (subscribers bus !! ev) as [subs|]; [|done].
    simpl in Hn. destruct (decide (cb ∈ subs)); [contradiction|done]. }
  intros Hn. rewrite listeners_unsubscribe, !listeners_subscribe.
  destruct (decide (ev' = ev)) as [->|Hne]; [|done].
  rewrite decide_True by done. set_solver.
Qed.

End EventFacts.

Ltac br :=
  repeat (unfold Browser.getUserFromStorage, Browser.saveUserToStorage,
            Browser.removeUserFromStorage, Browser.getAuthToken,
            Browser.getItem, Browser.setItem, Browser.removeItem,
            Browser.set_authorization, Browser.tell, Browser.showError,
            Browser.showSuccess, Browser.call_if_given, Browser.get,
            Browser.try_finally, Browser.stored_metadata,
            Controllers.request, Controllers.error_message,
            Controllers.require_token, Controllers.report_and_rethrow,
            Pages.setLoading, of_result,
            get_state, modify, raise, try_except, mbind, mret, ES_bind,
            ES_ret, es_bind, es_ret; simpl).

Section JsonFacts.
Import Client.

Lemma stringify_of_json : ∀ j, stringify (of_json j) = Some j.
Proof.
  fix IH 1. intros [|b|n|s|items|fields]; simpl; try done.
  - do 2 f_equal. revert items. fix IHl 1. intros [|x xs]; simpl; [done|].
    by rewrite IH, IHl.
  - do 2 f_equal. revert fields. fix IHl 1. intros [|[k x] xs]; simpl; [done|].
    by rewrite IH, IHl.
Qed.

End JsonFacts.

Section StorageFacts.
Import Client Browser.

Lemma getUserFromStorage_state e : (getUserFromStorage e).2 = e.
Proof.
  br. destruct (localStorage e !! USER_STORAGE_KEY) as [[j|s]|]; simpl;
    try done. by destruct (bool_decide _).
Qed.

Lemma getUserFromStorage_returns e :
  (getUserFromStorage e).1
  = Returned (match localStorage e !! USER_STORAGE_KEY with
              | Some (Doc j) => of_json j
              | _ => VNull
              end).
Proof.
  br. destruct (localStorage e !! USER_STORAGE_KEY) as [[j|s]|]; simpl;
    try done. by destruct (bool_decide _).
Qed.

(** X11 -- the stored user. After [saveUserToStorage] of a JSON value
    [getUserFromStorage] returns that value; after [removeUserFromStorage]
    it returns [null]; [getUserFromStorage] returns on every storage and
    changes nothing; saving and removing touch the key [user] only. *)
Theorem stored_user_round_trip e j :
  let saved := (saveUserToStorage (of_json j) e).2 in
  let removed := (removeUserFromStorage saved).2 in
  getUserFromStorage saved = (Returned (of_json j), saved)
  ∧ getUserFromStorage removed = (Returned VNull, removed)
  ∧ (∀ e', ∃ v, getUserFromStorage e' = (Returned v, e'))
  ∧ (∀ key, key ≠ "user" →
            localStorage removed !! key = localStorage e !! key).
Proof.
  cbv zeta. split; [|split; [|split]].
  - br. unfold JSON_text. rewrite stringify_of_json. simpl.
    by rewrite lookup_insert_eq.
  - br. by rewrite lookup_delete_eq.
  - intros e'. eexists. rewrite (surjective_pairing (getUserFromStorage e')).
    by rewrite getUserFromStorage_state, getUserFromStorage_returns.
  - intros key Hk. br.
    rewrite lookup_delete_ne by done. by rewrite lookup_insert_ne.
Qed.

(** X12 -- [getAuthToken] of the [axios] configuration reads the key
    [userData], while the auth model stores the user under [user]: saving or
    removing the user does not change the token the interceptor finds, and
    on a storage without [userData] that token is [null] also after a user
    was saved. *)
Theorem interceptor_token_ignores_the_saved_user e userData :
  let saved := (saveUserToStorage userData e).2 in
  (getAuthToken saved).1 = (getAuthToken e).1
  ∧ (getAuthToken (removeUserFromStorage e).2).1 = (getAuthToken e).1
  ∧ (localStorage e !! "userData" = None →
     (getAuthToken saved).1 = Returned VNull).
Proof.
  cbv zeta. br.
  rewrite lookup_insert_ne by done. rewrite lookup_delete_ne by done.
  split; [|split]; try done.
  - destruct (localStorage e !! "userData") as [[j|s]|]; simpl; try done.
    + by destruct (of_json j).
    + by destruct (bool_decide _).
  - destruct (localStorage e !! "userData") as [[j|s]|]; simpl; try done.
    + by destruct (of_json j).
    + by destruct (bool_decide _).
  - by intros ->.
Qed.

End StorageFacts.

Section MonadFacts.
Context {S E : Type}.

Lemma bind_returned {A B} (m : ES S E A) (k : A → ES S E B) s a s' :
  m s = (Returned a, s') → (m ≫= k) s = k a s'.
Proof. intros H. unfold mbind, ES_bind, es_bind. by rewrite H. Qed.

Lemma bind_raised {A B} (m : ES S E A) (k : A → ES S E B) s x s' :
  m s = (Raised x, s') → (m ≫= k) s = (Raised x, s').
Proof. intros H. unfold mbind, ES_bind, es_bind. by rewrite H. Qed.

Lemma try_except_returned {A} (m : ES S E A) h s a s' :
  m s = (Returned a, s') → try_except m h s = (Returned a, s').
Proof. intros H. unfold try_except. by rewrite H. Qed.

Lemma try_except_raised {A} (m : ES S E A) h s x s' :
  m s = (Raised x, s') → try_except m h s = h x s'.
Proof. intros H. unfold try_except. by rewrite H. Qed.

End MonadFacts.

Section VideoControllerFacts.
Import Client Browser Controllers.
Variable API_URL : string.
Variable axios : option string → AxiosRequest → Result JsVal JsVal.


Lemma returns_eq f v e : returns f → f v e = (Returned (), (f v e).2).
Proof. intros H. rewrite (surjective_pairing (f v e)). by rewrite H. Qed.

Lemma getUserFromStorage_eq e userData :
  (getUserFromStorage e).1 = Returned userData →
  getUserFromStorage e = (Returned userData, e).
Proof.
  intros H. rewrite (surjective_pairing (getUserFromStorage e)).
  by rewrite H, getUserFromStorage_state.
Qed.

Lemma require_token_missing e f userData :
  (getUserFromStorage e).1 = Returned userData →
  isAuthenticated userData = false →
  returns f →
  require_token (Some f) e
  = (Raised (VError "Authentication required"),
     (f (VStr "Authentication required") e).2)
  ∧ require_token None e = (Raised (VError "Authentication required"), e).
Proof.
  intros Hu Ha Hf. unfold require_token.
  rewrite !(bind_returned _ _ _ _ _ (getUserFromStorage_eq _ _ Hu)).
  unfold isAuthenticated in Ha.
  assert (negb (truthy userData) || negb (truthy (prop_of userData "token"))
          = true) as ->.
  { destruct (truthy userData); simpl in *; [by rewrite Ha|done]. }
  split; [|done]. simpl.
  by rewrite (bind_returned _ _ _ _ _ (returns_eq f _ e Hf)).
Qed.

Lemma require_token_found e onError userData :
  (getUserFromStorage e).1 = Returned userData →
  isAuthenticated userData = true →
  require_token onError e = (Returned userData, e).
Proof.
  intros Hu Ha. unfold require_token.
  rewrite (bind_returned _ _ _ _ _ (getUserFromStorage_eq _ _ Hu)).
  unfold isAuthenticated in Ha. apply andb_true_iff in Ha as [-> ->]. done.
Qed.

Lemma get_eq v k e :
  v ≠ VUndefined → v ≠ VNull → get v k e = (Returned (prop_of v k), e).
Proof. intros H1 H2. by destruct v. Qed.


Lemma error_message_eq error fallback e :
  error ≠ VUndefined → error ≠ VNull →
  error_message error fallback e = (Returned (reported error fallback), e).
Proof.
  intros H1 H2. unfold error_message.
  by rewrite (bind_returned _ _ _ _ _ (get_eq _ _ _ H1 H2)).
Qed.

Lemma report_and_rethrow_given f fallback error e :
  error ≠ VUndefined → error ≠ VNull → returns f →
  report_and_rethrow (Some f) fallback error e
  = (Raised error, (f (reported error fallback) e).2).
Proof.
  intros H1 H2 Hf. unfold report_and_rethrow.
  rewrite (bind_returned _ _ _ _ _ (error_message_eq _ _ _ H1 H2)).
  simpl. by rewrite (bind_returned _ _ _ _ _ (returns_eq f _ e Hf)).
Qed.

Lemma report_and_rethrow_missing fallback error e :
  error ≠ VUndefined → error ≠ VNull →
  report_and_rethrow None fallback error e = (Raised error, e).
Proof.
  intros H1 H2. unfold report_and_rethrow.
  by rewrite (bind_returned _ _ _ _ _ (error_message_eq _ _ _ H1 H2)).
Qed.

Lemma getVideos_unauthenticated e userData onSuccess f :
  (getUserFromStorage e).1 = Returned userData →
  isAuthenticated userData = false →
  returns f →
  let m := VStr "Authentication required" in
  getVideos API_URL axios onSuccess (Some f) e
  = (Raised (VError "Authentication required"), (f m (f m e).2).2)
  ∧ getVideos API_URL axios onSuccess None e
    = (Raised (VError "Authentication required"), e).
Proof.
  intros Hu Ha Hf m.
  destruct (require_token_missing e f userData Hu Ha Hf) as [H1 H2].
  unfold getVideos. split.
  - erewrite try_except_raised by (by apply bind_raised).
    by rewrite report_and_rethrow_given.
  - erewrite try_except_raised by (by apply bind_raised).
    by rewrite report_and_rethrow_missing.
Qed.

(** X13 -- without a token in the storage [getVideos] asks the network
    nothing and is rejected with the error [Authentication required]; an
    [onError] that returns is called twice with that message, once before
    the [throw] and once by the [catch] block of the same function. *)
Theorem getVideos_without_token_calls_onError_twice e userData onSuccess f :
  (getUserFromStorage e).1 = Returned userData →
  isAuthenticated userData = false →
  returns f →
  let m := VStr "Authentication required" in
  getVideos API_URL axios onSuccess (Some f) e
  = (Raised (VError "Authentication required"), (f m (f m e).2).2)
  ∧ getVideos API_URL axios onSuccess None e
    = (Raised (VError "Authentication required"), e).
Proof. exact (getVideos_unauthenticated e userData onSuccess f). Qed.


Lemma stored_metadata_total videoData e :
  ∃ m, stored_metadata videoData e = (Returned m, e).
Proof.
  unfold stored_metadata, try_except, getItem.
  unfold mbind at 1, ES_bind, es_bind. simpl.
  destruct (localStorage e !! _) as [[j|s]|]; simpl; try by eexists.
  - unfold of_result, mbind, ES_bind, es_bind. simpl.
    destruct (of_json j); simpl; by eexists.
  - destruct (bool_decide _); simpl; by eexists.
Qed.

Lemma formatVideoData_total videoData e :
  ∃ v, formatVideoData API_URL videoData e = (Returned v, e).
Proof.
  unfold formatVideoData. destruct (truthy videoData); simpl; [|by eexists].
  destruct (stored_metadata_total videoData e) as ([[tags color] folder] & H).
  rewrite (bind_returned _ _ _ _ _ H). by eexists.
Qed.

Lemma map_formatVideoData_total videos e :
  ∃ l, map_formatVideoData API_URL videos e = (Returned l, e)
       ∧ length l = length videos.
Proof.
  induction videos as [|v videos (l & IH & Hl)]; simpl; [by eexists|].
  destruct (formatVideoData_total v e) as (v' & Hv).
  rewrite (bind_returned _ _ _ _ _ Hv), (bind_returned _ _ _ _ _ IH).
  eexists. split; [done|]. simpl. by rewrite Hl.
Qed.

Lemma formatVideoList_total videosData e :
  ∃ l, formatVideoList API_URL videosData e = (Returned (VArr l), e)
       ∧ ∀ videos, videosData = VArr videos → length l = length videos.
Proof.
  destruct videosData as [| | | | | |videos| |]; simpl;
    try (exists []; split; [done|]; by intros).
  destruct (map_formatVideoData_total videos e) as (l & H & Hl).
  rewrite (bind_returned _ _ _ _ _ H). eexists. split; [done|].
  by intros ? [= <-].
Qed.


Lemma request_eq rq e :
  request axios rq e = (axios (authorization e) rq, after_request e rq).
Proof. unfold request. br. by destruct (axios _ _). Qed.

Lemma getVideos_authenticated e userData f g :
  (getUserFromStorage e).1 = Returned userData →
  isAuthenticated userData = true →
  returns f → returns g →
  let rq :=
    mkAxiosRequest "GET" (VIDEOS_LIST API_URL +:+ "?self=true")
      (bearer userData) VUndefined in
  match axios (authorization e) rq with
  | Raised error =>
      error ≠ VUndefined → error ≠ VNull →
      getVideos API_URL axios (Some f) (Some g) e
      = (Raised error,
         (g (reported error "Failed to fetch videos") (after_request e rq)).2)
  | Returned response =>
      response ≠ VUndefined → response ≠ VNull →
      ∃ videos,
        formatVideoList API_URL (prop_of response "data") (after_request e rq)
        = (Returned (VArr videos), after_request e rq)
        ∧ getVideos API_URL axios (Some f) (Some g) e
          = (Returned (VArr videos), (f (VArr videos) (after_request e rq)).2)
  end.
Proof.
  intros Hu Ha Hf Hg rq.
  pose proof (require_token_found e (Some g) userData Hu Ha) as Ht.
  pose proof (request_eq rq e) as Hrq.
  destruct (axios (authorization e) rq) as [response|error].
  - intros H1 H2.
    destruct (formatVideoList_total (prop_of response "data")
                (after_request e rq)) as (videos & Hv & _).
    exists videos. split; [done|]. unfold getVideos.
    apply try_except_returned.
    rewrite (bind_returned _ _ _ _ _ Ht).
    rewrite (bind_returned _ _ _ _ _ Hrq).
    rewrite (bind_returned _ _ _ _ _ (get_eq _ _ _ H1 H2)).
    rewrite (bind_returned _ _ _ _ _ Hv). simpl.
    by rewrite (bind_returned _ _ _ _ _ (returns_eq f _ _ Hf)).
  - intros H1 H2. unfold getVideos.
    erewrite try_except_raised.
    2:{ rewrite (bind_returned _ _ _ _ _ Ht). by apply bind_raised. }
    by rewrite report_and_rethrow_given.
Qed.

(** X14 -- with a token in the storage [getVideos] asks [axios] once, for
    the GET of [/videos?self=true] under [Bearer token]. When the request is
    rejected, [onError] is called once with the message of the error
    ([detail], [message] of the response, or the error's own, or [Failed to
    fetch videos]) and the error is thrown again; when it is answered,
    [onSuccess] is called once with the formatted list, which is also the
    result. *)
Theorem getVideos_with_token_calls_one_callback e userData f g :
  (getUserFromStorage e).1 = Returned userData →
  isAuthenticated userData = true →
  returns f → returns g →
  let rq :=
    mkAxiosRequest "GET" (VIDEOS_LIST API_URL +:+ "?self=true")
      (bearer userData) VUndefined in
  match axios (authorization e) rq with
  | Raised error =>
      error ≠ VUndefined → error ≠ VNull →
      getVideos API_URL axios (Some f) (Some g) e
      = (Raised error,
         (g (reported error "Failed to fetch videos") (after_request e rq)).2)
  | Returned response =>
      response ≠ VUndefined → response ≠ VNull →
      ∃ videos,
        formatVideoList API_URL (prop_of response "data") (after_request e rq)
        = (Returned (VArr videos), after_request e rq)
        ∧ getVideos API_URL axios (Some f) (Some g) e
          = (Returned (VArr videos), (f (VArr videos) (after_request e rq)).2)
  end.
Proof. exact (getVideos_authenticated e userData f g). Qed.

End VideoControllerFacts.

Ltac tidy :=
  unfold Pages.setLoading, Browser.showError, Browser.showSuccess,
    Browser.tell, modify; simpl;
  rewrite <- ?app_assoc; simpl; try done.

Section PageFacts.
Import Client Browser Controllers Pages.
Variable API_URL : string.
Variable axios : option string → AxiosRequest → Result JsVal JsVal.
Variable api : string.
Variable net : Request → Fetch.

Lemma returning_quiet : quiet returning.
Proof. by split. Qed.



Lemma tell_eq x e : tell x e = (Returned (), told e [x]).
Proof. done. Qed.

Lemma told_told e xs ys : told (told e xs) ys = told e (xs ++ ys).
Proof. unfold told. simpl. by rewrite <- app_assoc. Qed.

Lemma run_controller_once controller rq onSuccess onError e :
  calls_back_once net rq (world e) (controller returning (world e)) →
  ∃ call,
    (failed (net rq) → ∃ arg, call = OnError arg)
    ∧ run_controller controller onSuccess onError e
      = (match call with
         | OnSuccess arg => onSuccess arg
         | OnError arg => onError arg
         end;; mret ()) (fetched e rq call).
Proof.
  intros (call & Hrun & Hfail). exists call. split.
  { intros Hf. destruct (Hfail Hf) as (arg & -> & _). by eexists. }
  unfold run_controller, lift. br. rewrite Hrun. simpl.
  rewrite drop_app_length. by destruct call.
Qed.

Lemma run_controller_eq controller rq call onSuccess onError e :
  controller returning (world e)
  = (Returned (),
     mkWorld (sent (world e) ++ [rq]) (invoked (world e) ++ [call])
       (ui (world e))) →
  run_controller controller onSuccess onError e
  = (match call with
     | OnSuccess arg => onSuccess arg
     | OnError arg => onError arg
     end;; mret ()) (fetched e rq call).
Proof.
  intros Hrun. unfold run_controller, lift. br. rewrite Hrun. simpl.
  rewrite drop_app_length. by destruct call.
Qed.

Lemma showError_returns : returns showError.
Proof. done. Qed.

Lemma setState_returns name : returns (λ v, tell (setState name v)).
Proof. done. Qed.

(** X15 -- [fetchData] of the Scouting Report page returns whatever the
    storage holds and the network does, and the last thing it tells the page
    is [setLoading(false)]. *)
Theorem fetchData_always_ends_loading e :
  ∃ e', fetchData API_URL axios api net e = (Returned (), e')
        ∧ last (effects e') = Some (setState "setLoading" (VBool false)).
Proof.
  unfold fetchData, try_except.
  match goal with |- context [(?m ≫= ?k) e] =>
    destruct ((m ≫= k) e) as [[[]|x] e'] eqn:Hbody end.
  - exists e'. split; [done|].
    unfold setLoading in Hbody.
    rewrite (bind_returned _ _ _ _ _ (tell_eq _ e)) in Hbody.
    unfold mbind at 1, ES_bind, es_bind in Hbody.
    destruct (getVideos _ _ _ _ _) as [[v|x] e1]; [|done].
    unfold mbind at 1, ES_bind, es_bind in Hbody.
    destruct (run_controller _ _ _ _) as [[[]|x] e2]; [|done].
    injection Hbody as <-. simpl. by rewrite last_snoc.
  - eexists. split; [done|]. simpl. by rewrite last_snoc.
Qed.

(** X16 -- without a token in the storage [fetchData] sends nothing, neither
    for the videos nor for the reports: the page is told [setLoading(true)],
    the toast [Authentication required] twice, and [setLoading(false)]. *)
Theorem fetchData_without_token_asks_for_nothing e userData :
  (getUserFromStorage e).1 = Returned userData →
  isAuthenticated userData = false →
  let toast := setToast (mkToast true (VStr "Authentication required")
                           "error" 6000) in
  fetchData API_URL axios api net e
  = (Returned (),
     told e [setState "setLoading" (VBool true); toast; toast;
             setState "setLoading" (VBool false)]).
Proof.
  intros Hu Ha toast. unfold fetchData.
  assert ((getUserFromStorage (told e [setState "setLoading" (VBool true)])).1
          = Returned userData) as Hu'.
  { by rewrite getUserFromStorage_returns in *. }
  destruct (getVideos_unauthenticated API_URL axios _ _
              (Some (λ videosData, tell (setState "setVideos" videosData)))
              showError Hu' Ha showError_returns) as [Hv _].
  erewrite try_except_raised.
  2:{ unfold setLoading. rewrite (bind_returned _ _ _ _ _ (tell_eq _ e)).
      apply bind_raised. exact Hv. }
  unfold told. tidy.
Qed.

(** X17 -- with a token in the storage [fetchData] asks for the videos
    first. When that request is rejected the page gets one error toast and
    the reports are not asked for; when it is answered the page gets the
    videos, then [GET /reports] is sent and the page gets the reports or one
    error toast. In both cases loading is switched off at the end. *)
Theorem fetchData_asks_for_reports_after_the_videos e userData :
  (getUserFromStorage e).1 = Returned userData →
  isAuthenticated userData = true →
  let rq :=
    mkAxiosRequest "GET" (VIDEOS_LIST API_URL +:+ "?self=true")
      (bearer userData) VUndefined in
  let e1 := after_request (told e [setState "setLoading" (VBool true)]) rq in
  match axios (authorization e) rq with
  | Raised error =>
      error ≠ VUndefined → error ≠ VNull →
      fetchData API_URL axios api net e
      = (Returned (),
         told e1 [setToast (mkToast true
                              (reported error "Failed to fetch videos")
                              "error" 6000);
                  setState "setLoading" (VBool false)])
  | Returned response =>
      response ≠ VUndefined → response ≠ VNull →
      ∃ videos call,
        fetchData API_URL axios api net e
        = (Returned (),
           told (fetched e1 (mkRequest (api +:+ "/reports") "GET" None) call)
             [setState "setVideos" (VArr videos);
              match call with
              | OnSuccess reportsData => setState "setReports" reportsData
              | OnError error => setToast (mkToast true error "error" 6000)
              end;
              setState "setLoading" (VBool false)])
  end.
Proof.
  intros Hu Ha rq e1.
  set (e0 := told e [setState "setLoading" (VBool true)]).
  assert ((getUserFromStorage e0).1 = Returned userData) as Hu'.
  { by rewrite getUserFromStorage_returns in *. }
  pose proof (getVideos_authenticated API_URL axios e0
                userData (λ videosData, tell (setState "setVideos" videosData))
                showError Hu' Ha (setState_returns _) showError_returns)
    as Hv.
  cbv zeta in Hv. change (authorization e0) with (authorization e) in Hv.
  fold rq in Hv. fold e1 in Hv.
  destruct (axios (authorization e) rq) as [response|error].
  - intros H1 H2. destruct (Hv H1 H2) as (videos & _ & Hget). clear Hv.
    set (e2 := (tell (setState "setVideos" (VArr videos)) e1).2) in *.
    destruct (run_controller_once (getReports api net)
                (mkRequest (api +:+ "/reports") "GET" None)
                (λ reportsData, tell (setState "setReports" reportsData))
                (λ error, showError error) e2) as (call & _ & Hrun).
    { apply getReports_once, returning_quiet. }
    exists videos, call. unfold fetchData. apply try_except_returned.
    unfold setLoading. rewrite (bind_returned _ _ _ _ _ (tell_eq _ e)).
    fold e0. rewrite (bind_returned _ _ _ _ _ Hget).
    destruct call as [arg|arg].
    + assert (run_controller (getReports api net)
                (λ reportsData, tell (setState "setReports" reportsData))
                (λ error, showError error) e2
              = (Returned (),
                 told (fetched e2 (mkRequest (api +:+ "/reports") "GET" None)
                         (OnSuccess arg)) [setState "setReports" arg]))
        as Hrun' by (by rewrite Hrun).
      rewrite (bind_returned _ _ _ _ _ Hrun'). subst e2.
      unfold told, fetched. tidy.
    + assert (run_controller (getReports api net)
                (λ reportsData, tell (setState "setReports" reportsData))
                (λ error, showError error) e2
              = (Returned (),
                 told (fetched e2 (mkRequest (api +:+ "/reports") "GET" None)
                         (OnError arg))
                   [setToast (mkToast true arg "error" 6000)]))
        as Hrun' by (by rewrite Hrun).
      rewrite (bind_returned _ _ _ _ _ Hrun'). subst e2.
      unfold told, fetched. tidy.
  - intros H1 H2. specialize (Hv H1 H2). unfold fetchData.
    erewrite try_except_raised.
    2:{ unfold setLoading. rewrite (bind_returned _ _ _ _ _ (tell_eq _ e)).
        apply bind_raised. exact Hv. }
    unfold told. tidy.
Qed.


Lemma deleteReport_outcome reportId w :
  let rq := mkRequest (api +:+ "/reports/" +:+ to_string reportId)
              "DELETE" None in
  ∃ call,
    deleteReport api net returning reportId w
    = (Returned (),
       mkWorld (sent w ++ [rq]) (invoked w ++ [call]) (ui w))
    ∧ (failed (net rq) → ∃ arg, call = OnError arg)
    ∧ (¬ failed (net rq) → call = OnSuccess VUndefined).
Proof.
  intros rq.
  destruct (deleteReport_once api net returning returning_quiet reportId w)
    as (call & Hrun & Hfail).
  exists call. split; [exact Hrun|]. split.
  { intros Hf. destruct (Hfail Hf) as (arg & -> & _). by eexists. }
  intros Hok. fold rq in Hrun. revert Hrun. js. fold rq.
  destruct (net rq) as [m|ok [j|m]]; simpl in *; try (by destruct Hok).
  destruct ok; [|by destruct Hok; left].
  destruct (strict_eq_str (prop_of (of_json j) "status") "success") eqn:Hs;
    [|by destruct Hok; right].
  destruct (of_json j) eqn:Hj; simpl in *; try done.
  rewrite Hs. simpl. intros [= H]. by apply app_inv_head in H as [= <-].
Qed.

Lemma handleDelete_outcome e report (onRefresh : bool) :
  report ≠ VUndefined → report ≠ VNull →
  let rq := mkRequest (api +:+ "/reports/" +:+ to_string (prop_of report "id"))
              "DELETE" None in
  ∃ call,
    handleDelete api net report onRefresh e
    = (Returned (),
       told (fetched e rq call)
         (setState "setAnchorEl" VNull ::
          match call with
          | OnSuccess _ =>
              setToast (mkToast true (VStr "Report deleted successfully")
                          "success" 6000)
              :: (if onRefresh then [onRefresh_called] else [])
          | OnError error => [setToast (mkToast true error "error" 6000)]
          end))
    ∧ (failed (net rq) → ∃ arg, call = OnError arg)
    ∧ (¬ failed (net rq) → call = OnSuccess VUndefined).
Proof.
  intros H1 H2 rq.
  set (e0 := told e [setState "setAnchorEl" VNull]).
  destruct (deleteReport_outcome (prop_of report "id") (world e0))
    as (call & Hrun & Hfail & Hok).
  exists call. split; [|by split].
  unfold handleDelete. rewrite (bind_returned _ _ _ _ _ (tell_eq _ e)).
  fold e0. apply try_except_returned.
  rewrite (bind_returned _ _ _ _ _ (get_eq _ _ _ H1 H2)).
  rewrite (run_controller_eq
             (λ cb, deleteReport api net cb (prop_of report "id")) rq call
             _ _ e0 Hrun).
  unfold told, fetched.
  destruct call; [destruct onRefresh|]; tidy; br; simpl;
    rewrite <- ?app_assoc; done.
Qed.

(** X18 -- [handleDelete] of a report card closes the menu, sends one
    [DELETE /reports/{id}] and shows one toast: [Report deleted
    successfully], followed by [onRefresh] when the card has one, when the
    service answered with status [success]; the error message otherwise,
    without a refresh. The toast [Failed to delete report] of its [catch]
    block is never shown. *)
Theorem handleDelete_shows_one_toast e report (onRefresh : bool) :
  report ≠ VUndefined → report ≠ VNull →
  let rq := mkRequest (api +:+ "/reports/" +:+ to_string (prop_of report "id"))
              "DELETE" None in
  ∃ call,
    handleDelete api net report onRefresh e
    = (Returned (),
       told (fetched e rq call)
         (setState "setAnchorEl" VNull ::
          match call with
          | OnSuccess _ =>
              setToast (mkToast true (VStr "Report deleted successfully")
                          "success" 6000)
              :: (if onRefresh then [onRefresh_called] else [])
          | OnError error => [setToast (mkToast true error "error" 6000)]
          end))
    ∧ (failed (net rq) → ∃ arg, call = OnError arg)
    ∧ (¬ failed (net rq) → call = OnSuccess VUndefined).
Proof. exact (handleDelete_outcome e report onRefresh). Qed.

(** X19 -- [fetchReport] of the Report Details page sends one [GET
    /reports/{id}] and tells the page [setLoading(true)], then [setReport]
    with the data or one error toast, then [setLoading(false)]; a request
    that failed always gives the toast. *)
Theorem fetchReport_always_ends_loading reportId e :
  let rq := mkRequest (api +:+ "/reports/" +:+ to_string reportId) "GET" None in
  ∃ call,
    fetchReport api net reportId e
    = (Returned (),
       told (fetched e rq call)
         [setState "setLoading" (VBool true);
          match call with
          | OnSuccess reportData => setState "setReport" reportData
          | OnError error => setToast (mkToast true error "error" 6000)
          end;
          setState "setLoading" (VBool false)])
    ∧ (failed (net rq) → ∃ arg, call = OnError arg).
Proof.
  intros rq.
  set (e0 := told e [setState "setLoading" (VBool true)]).
  destruct (getReportById_once api net returning returning_quiet reportId
              (world e0)) as (call & Hrun & Hfail).
  exists call. split.
  2:{ intros Hf. destruct (Hfail Hf) as (arg & -> & _). by eexists. }
  unfold fetchReport, try_finally.
  destruct call as [arg|arg].
  all: erewrite try_except_returned;
    [|unfold setLoading; rewrite (bind_returned _ _ _ _ _ (tell_eq _ e));
      fold e0;
      rewrite (run_controller_eq
                 (λ cb, getReportById api net cb reportId) rq _
                 _ _ e0 Hrun); reflexivity].
  all: unfold told, fetched; tidy; br; simpl; rewrite <- ?app_assoc; done.
Qed.

End PageFacts.

Section RegexFacts.
Import Regex.

Lemma test_Never s : test Never s = false.
Proof. by induction s. Qed.

Lemma test_Empty s : test Empty s = true ↔ s = "".
Proof. destruct s; simpl; [done|]. by rewrite test_Never. Qed.

Lemma test_Alt a b s : test (Alt a b) s = test a s || test b s.
Proof. revert a b. induction s as [|c s IH]; intros a b; simpl; [done|]. apply IH. Qed.

Lemma test_Seq a b s :
  test (Seq a b) s = true
  ↔ ∃ s1 s2, s = s1 +:+ s2 ∧ test a s1 = true ∧ test b s2 = true.
Proof.
  revert a b. induction s as [|c s IH]; intros a b; simpl.
  - rewrite andb_true_iff. split.
    + intros [??]. by exists "", "".
    + intros (s1 & s2 & Hs & H1 & H2).
      destruct s1; [|done]. destruct s2; [|done]. done.
  - destruct (nullable a) eqn:Hn.
    + rewrite test_Alt, orb_true_iff, IH. split.
      * intros [(s1 & s2 & -> & H1 & H2)|H].
        -- by exists (String c s1), s2.
        -- by exists "", (String c s).
      * intros (s1 & s2 & Hs & H1 & H2). destruct s1 as [|c' s1].
        -- right. change (String c s = s2) in Hs. by subst s2.
        -- left. change (String c s = String c' (s1 +:+ s2)) in Hs.
           injection Hs as <- ->. by exists s1, s2.
    + rewrite IH. split.
      * intros (s1 & s2 & -> & H1 & H2). by exists (String c s1), s2.
      * intros (s1 & s2 & Hs & H1 & H2). destruct s1 as [|c' s1].
        -- simpl in H1. congruence.
        -- change (String c s = String c' (s1 +:+ s2)) in Hs.
           injection Hs as <- ->. by exists s1, s2.
Qed.

Lemma test_Class p s :
  test (Class p) s = true ↔ ∃ c, s = String c "" ∧ p c = true.
Proof.
  destruct s as [|c s]; simpl.
  - split; [done|]. by intros (? & ? & ?).
  - destruct (p c) eqn:Hp.
    + rewrite test_Empty. split.
      * intros ->. by exists c.
      * by intros (? & [= <- ->] & ?).
    + rewrite test_Never. split; [done|].
      intros (? & [= <- ->] & ?). congruence.
Qed.

Lemma test_Star_Class p s :
  test (Star (Class p)) s = true
  ↔ Forall (λ c, p c = true) (String.list_ascii_of_string s).
Proof.
  induction s as [|c s IH]; simpl.
  - split; [constructor|done].
  - rewrite Forall_cons, <- IH. destruct (p c) eqn:Hp.
    + rewrite test_Seq. split.
      * intros (s1 & s2 & -> & H1%test_Empty & H2). by subst s1.
      * intros [_ H]. exists "", s. by rewrite test_Empty.
    + rewrite test_Seq. split.
      * intros (s1 & s2 & _ & H1 & _). by rewrite test_Never in H1.
      * by intros [? _].
Qed.

Lemma test_Plus_Class p s :
  test (Plus (Class p)) s = true
  ↔ s ≠ "" ∧ Forall (λ c, p c = true) (String.list_ascii_of_string s).
Proof.
  unfold Plus. rewrite test_Seq. split.
  - intros (s1 & s2 & -> & (c & -> & Hc)%test_Class & H2%test_Star_Class).
    split; [done|]. simpl. by constructor.
  - intros [Hne H]. destruct s as [|c s]; [done|].
    simpl in H. apply Forall_cons in H as [Hc H].
    exists (String c ""), s. split; [done|]. split.
    + apply test_Class. by exists c.
    + by apply test_Star_Class.
Qed.

End RegexFacts.

Section UserFacts.
Import Client Browser Regex User Shapes.

Lemma word_test w :
  test (Plus (Class not_space_nor_at)) w = true ↔ word w.
Proof.
  rewrite test_Plus_Class. unfold word. f_equiv.
  apply Forall_iff. intros c. unfold not_space_nor_at.
  rewrite andb_true_iff, !negb_true_iff.
  f_equiv. by rewrite Ascii.eqb_neq.
Qed.

(** X20 -- [isValidEmail] on ASCII text accepts exactly the texts
    [local@domain.tld] whose three parts are not empty and hold neither
    white space nor [@] (the domain and the last part may hold further
    dots). *)
Theorem isValidEmail_shape s :
  ascii_text s →
  isValidEmail (VStr s) = true
  ↔ ∃ local domain tld,
      s = local +:+ "@" +:+ domain +:+ "." +:+ tld
      ∧ word local ∧ word domain ∧ word tld.
Proof.
  intros _. unfold isValidEmail. simpl.
  destruct (bool_decide_reflect (s ≠ "")) as [Hne|He]; simpl.
  - unfold emailRegex. rewrite test_Seq. split.
    + intros (l & r1 & -> & Hl%word_test & H).
      apply test_Seq in H as (a & r2 & -> & (c & -> & Hc)%test_Class & H).
      apply Ascii.eqb_eq in Hc as <-.
      apply test_Seq in H as (d & r3 & -> & Hd%word_test & H).
      apply test_Seq in H as (b & t & -> & (c & -> & Hc)%test_Class
                                & Ht%word_test).
      apply Ascii.eqb_eq in Hc as <-. by exists l, d, t.
    + intros (l & d & t & -> & Hl & Hd & Ht).
      exists l, ("@" +:+ d +:+ "." +:+ t). split; [done|].
      split; [by apply word_test|].
      apply test_Seq. exists "@", (d +:+ "." +:+ t). split; [done|].
      split; [apply test_Class; by exists "@"%char|].
      apply test_Seq. exists d, ("." +:+ t). split; [done|].
      split; [by apply word_test|].
      apply test_Seq. exists ".", t. split; [done|].
      split; [apply test_Class; by exists "."%char|by apply word_test].
  - split; [done|]. intros (l & d & t & -> & [Hl _] & _).
    destruct He. by destruct l.
Qed.


Lemma validatePassword_valid password :
  isValid (validatePassword password) = true
  ↔ ∃ p, password = Some p ∧ (6 ≤ String.length p)%nat.
Proof.
  destruct password as [[|c p]|]; simpl.
  - split; [done|]. intros (p & [= <-] & H). simpl in H. lia.
  - destruct (decide _) as [Hl|Hl]; simpl.
    + split; [done|]. intros (p' & [= <-] & H). simpl in *. lia.
    + split; [|done]. intros _. eexists. split; [done|]. simpl. lia.
  - split; [done|]. by intros (? & ? & ?).
Qed.

(** X21 -- a registration form typed in ASCII is valid exactly when the
    e-mail is well formed, the user name has three characters at least,
    the password has six at least and the confirmation repeats the
    password. *)
Theorem validateRegistration_valid_iff formData :
  ascii_form formData →
  registration_is_valid formData = true
  ↔ (∃ e, email formData = Some e ∧ isValidEmail (VStr e) = true)
    ∧ (∃ u, username formData = Some u ∧ (3 ≤ String.length u)%nat)
    ∧ (∃ p, password formData = Some p ∧ (6 ≤ String.length p)%nat
            ∧ confirmPassword formData = Some p).
Proof.
  intros _. unfold registration_is_valid, validateRegistration.
  rewrite bool_decide_eq_true.
  destruct formData as [e u p c]. simpl.
  split.
  - intros H.
    apply app_eq_nil in H as [He H]. apply app_eq_nil in H as [Hu H].
    apply app_eq_nil in H as [Hpw Hc].
    split; [|split].
    + destruct e as [e|]; simpl in He; [|done].
      destruct (bool_decide (e ≠ "")) eqn:Hne; simpl in He; [|done].
      destruct (isValidEmail (VStr e)) eqn:Hv; simpl in He; [|done].
      by exists e.
    + destruct u as [[|a u]|]; try done.
      destruct (decide _) as [Hl|Hl]; [done|].
      eexists. split; [done|]. lia.
    + destruct (isValid (validatePassword p)) eqn:Hv; simpl in Hpw; [|done].
      apply validatePassword_valid in Hv as (p' & -> & Hl). exists p'. split; [done|].
      split; [done|].
      destruct (decide (Some p' = c)) as [<-|Hn]; [done|].
      by rewrite bool_decide_eq_false_2 in Hc.
  - intros ((e' & -> & He) & (u' & -> & Hu) & (p' & -> & Hl & ->)).
    assert (isValid (validatePassword (Some p')) = true) as ->.
    { apply validatePassword_valid. by exists p'. }
    simpl.
    assert (bool_decide (e' ≠ "") = true) as ->.
    { apply bool_decide_eq_true. intros ->. done. }
    rewrite He. simpl.
    destruct u' as [|a u']; [simpl in Hu; lia|].
    destruct (decide _) as [Hl'|Hl']; [simpl in *; lia|].
    simpl. by rewrite bool_decide_eq_true_2.
Qed.

Lemma validateRegistration_needs_confirmation e u p :
  validateRegistration (mkFormData e u p None) ≠ [].
Proof.
  unfold validateRegistration. simpl. intros H.
  apply app_eq_nil in H as [_ H]. apply app_eq_nil in H as [_ H].
  apply app_eq_nil in H as [Hpw Hc].
  destruct p as [p|]; [|done].
  by rewrite bool_decide_eq_false_2 in Hc.
Qed.

End UserFacts.

Section AuthFacts.
Import Client Browser User Controllers Pages Shapes.
Variable API_URL : string.
Variable axios : option string → AxiosRequest → Result JsVal JsVal.

(** X22 -- the [register] of the auth context passes no confirmation of the
    password, so the validation fails whatever was typed: the promise is
    fulfilled with [undefined], nothing is sent and nothing is shown. *)
Theorem AuthContext_register_sends_nothing email username password e :
  AuthContext_register API_URL axios email username password e
  = (Returned VUndefined, e).
Proof.
  unfold AuthContext_register, register.
  destruct (validateRegistration _) as [|[field errorMessage] rest] eqn:Hv.
  { by apply validateRegistration_needs_confirmation in Hv. }
  done.
Qed.

Lemma nullish_or_not v :
  (v = VUndefined ∨ v = VNull) ∨ (v ≠ VUndefined ∧ v ≠ VNull).
Proof. destruct v; auto. Qed.

Lemma strict_eq_num_eq v n : strict_eq v (VNum n) = true ↔ v = VNum n.
Proof.
  destruct v; simpl; try (split; [done|by intros [=]]).
  rewrite bool_decide_eq_true. split; [by intros ->|by intros [= ->]].
Qed.


(** X23 -- [checkAuth]: without a stored token nothing is asked and the
    answer is [null]; with one, the default header is set to [Bearer token]
    and [axios] is asked once, for [/auth/me]. An answer gives the stored
    user, with the answered data as its [user] when there is some; a
    rejected request removes the stored user and the header and gives
    [null]. *)
Theorem checkAuth_verifies_the_stored_token e userData :
  (getUserFromStorage e).1 = Returned userData →
  let header := "Bearer " +:+ to_string (prop_of userData "token") in
  let rq := mkAxiosRequest "GET" (AUTH_ME API_URL) [] VUndefined in
  if isAuthenticated userData
  then
    match axios (Some header) rq with
    | Returned response =>
        response ≠ VUndefined → response ≠ VNull →
        checkAuth API_URL axios e
        = (Returned
             (if truthy (prop_of response "data")
              then match userData with
                   | VObj props =>
                       VObj (set_prop props "user" (prop_of response "data"))
                   | _ => VObj [("user", prop_of response "data")]
                   end
              else userData),
           mkEnv (localStorage e) (world e) (requests e ++ [rq])
             (Some header) (effects e))
    | Raised error =>
        checkAuth API_URL axios e
        = (Returned VNull,
           mkEnv (delete "user" (localStorage e)) (world e)
             (requests e ++ [rq]) None (effects e))
    end
  else checkAuth API_URL axios e = (Returned VNull, e).
Proof.
  intros Hu header rq. unfold checkAuth.
  rewrite (bind_returned _ _ _ _ _ (getUserFromStorage_eq _ _ Hu)).
  unfold isAuthenticated.
  destruct (truthy userData); simpl; [|done].
  destruct (truthy (prop_of userData "token")); simpl; [|done].
  subst header rq. br.
  destruct (axios _ _) as [response|error]; simpl; [|done].
  intros H1 H2. destruct response; try done; simpl.
  all: by destruct (truthy _).
Qed.


(** X24 -- the registration page, for a form typed in ASCII, sends the
    form only when it is valid, once and without the confirmation; it goes
    to the login page exactly when the answer has status 200 or 201, and
    loading is switched off at the end.  An invalid form only sets the
    errors. *)
Theorem handleSubmit_sends_valid_forms_once formData e :
  ascii_form formData →
  let rq :=
    mkAxiosRequest "POST" (AUTH_REGISTER API_URL) []
      (VObj [("email", field_value (email formData));
             ("username", field_value (username formData));
             ("password", field_value (password formData))]) in
  if registration_is_valid formData
  then
    ∃ shown,
      RegisterPage_handleSubmit API_URL axios formData e
      = (Returned (),
         told (after_request e rq)
           ([setState "setErrors" (VObj []);
             setState "setLoading" (VBool true)]
            ++ shown ++ [setState "setLoading" (VBool false)]))
      ∧ (navigate "/login" ∈ shown
         ↔ ∃ response,
             axios (authorization e) rq = Returned response
             ∧ (prop_of response "status" = VNum 200
                ∨ prop_of response "status" = VNum 201))
  else
    validateRegistration formData ≠ []
    ∧ RegisterPage_handleSubmit API_URL axios formData e
      = (Returned (),
         told e [setState "setErrors"
                   (VObj (map (λ kv, (kv.1, VStr kv.2))
                            (validateRegistration formData)))]).
Proof.
  intros _ rq.
  unfold registration_is_valid, RegisterPage_handleSubmit, register.
  destruct (validateRegistration formData) as [|[field errorMessage] rest].
  2:{ rewrite bool_decide_eq_false_2 by done. by split. }
  rewrite bool_decide_eq_true_2 by done.
  fold rq. unfold try_finally.
  destruct (axios (authorization e) rq) as [response|error] eqn:Hax.
  - destruct (nullish_or_not response) as [Hn|Hn].
    + exists [setToast (mkToast true
                (VStr ("Cannot read properties of " +:+ to_string response
                       +:+ " (reading 'status')")) "error" 6000)].
      split.
      * br. rewrite Hax. unfold told, after_request.
        destruct Hn as [-> | ->]; simpl; by rewrite <- !app_assoc.
      * rewrite list_elem_of_singleton. split; [done|].
        intros (r & [= <-] & Hs). by destruct Hn as [-> | ->], Hs.
    + destruct (strict_eq (prop_of response "status") (VNum 200)
                || strict_eq (prop_of response "status") (VNum 201)) eqn:Hst.
      * exists [setToast (mkToast true
                  (VStr "Registration successful! You can now log in.")
                  "success" 6000); navigate "/login"].
        split.
        -- br. rewrite Hax. unfold told, after_request.
           destruct response; try (by destruct Hn); simpl in *;
             try done.
           rewrite Hst. simpl. by rewrite <- !app_assoc.
        -- split; [|set_solver]. intros _. exists response.
           split; [done|].
           apply orb_true_iff in Hst as [H%strict_eq_num_eq|H%strict_eq_num_eq];
             auto.
      * exists [setToast (mkToast true (VStr "Registration failed")
                  "error" 6000)].
        split.
        -- br. rewrite Hax. unfold told, after_request.
           destruct response; try (by destruct Hn); simpl in *;
             try (by rewrite <- !app_assoc).
           rewrite Hst. simpl. by rewrite <- !app_assoc.
        -- rewrite list_elem_of_singleton. split; [done|].
           intros (r & [= <-] & Hs).
           apply orb_false_iff in Hst as [H1 H2].
           destruct Hs as [Hs|Hs]; rewrite Hs in *;
             [by vm_compute in H1|by vm_compute in H2].
  - destruct (nullish_or_not error) as [Hn|Hn].
    + exists []. split.
      * br. rewrite Hax. unfold told, after_request.
        destruct Hn as [-> | ->]; simpl; by rewrite <- !app_assoc.
      * split; [by intros ?%elem_of_nil|]. by intros (r & [=] & _).
    + exists [setToast (mkToast true
                (reported error "Registration failed. Please try again.")
                "error" 6000)].
      split.
      * br. rewrite Hax. unfold told, after_request, reported.
        destruct error; try (by destruct Hn); simpl;
          by rewrite <- !app_assoc.
      * rewrite list_elem_of_singleton. split; [done|].
        by intros (r & [=] & _).
Qed.

End AuthFacts.

Section VideoModelFacts.
Import Client Browser User Controllers Pages.
Variable API_URL : string.
Variable axios : option string → AxiosRequest → Result JsVal JsVal.

Lemma append_not_empty s t : t ≠ "" → s +:+ t ≠ "".
Proof. intros Ht. destruct s; [exact Ht|done]. Qed.

Lemma strict_eq_str_eq v s : strict_eq v (VStr s) = true ↔ v = VStr s.
Proof.
  destruct v; simpl; try (split; [done|by intros [=]]).
  rewrite bool_decide_eq_true. split; [by intros ->|by intros [= ->]].
Qed.

(** X25 -- a video as [formatVideoData] returns it is ready exactly when the
    record has an id and its [processing_status] is missing, [completed] or
    [unknown]; [isVideoReady] leaves such a video as it is, its [url] being
    set already. *)
Theorem formatted_video_readiness videoData e :
  let id := prop_of videoData "id" in
  let st := prop_of videoData "processing_status" in
  ∃ v,
    formatVideoData API_URL videoData e = (Returned v, e)
    ∧ isVideoReady API_URL v
      = (truthy videoData && truthy id
         && (negb (truthy st) || strict_eq st (VStr "completed")
             || strict_eq st (VStr "unknown")),
         v).
Proof.
  intros id st. unfold formatVideoData.
  destruct (truthy videoData) eqn:Hv; simpl; [|by eexists].
  destruct (stored_metadata_total videoData e) as ([[tags color] folder] & H).
  rewrite (bind_returned _ _ _ _ _ H). eexists. split; [done|].
  unfold isVideoReady. simpl. fold id st.
  destruct (truthy id) eqn:Hid; simpl; [|done].
  assert (bool_decide
            (VIDEOS_STREAM API_URL id +:+ "?self=true" ≠ "") = true) as ->.
  { apply bool_decide_eq_true. by apply append_not_empty. }
  unfold or_else. destruct (truthy st) eqn:Hst; simpl.
  - rewrite Hst. simpl.
    by destruct (strict_eq st (VStr "completed")),
                (strict_eq st (VStr "unknown")).
  - done.
Qed.


Lemma or_else_again a b : or_else (or_else a b) b = or_else a b.
Proof. unfold or_else. destruct (truthy a) eqn:Ha; [by rewrite Ha|]. by destruct (truthy b). Qed.

(** X26 -- [updateVideo] sends nothing: it writes the tags, the colour and
    the folder of the video into the storage, and [formatVideoData] of a
    record with the same id reads them back where the record has none of its
    own. *)
Theorem updateVideo_is_read_back videoData record e userData jt jc jf :
  (getUserFromStorage e).1 = Returned userData →
  isAuthenticated userData = true →
  videoData ≠ VUndefined → videoData ≠ VNull →
  or_else (prop_of videoData "tags") (VArr []) = of_json jt →
  or_else (prop_of videoData "color") (VStr "") = of_json jc →
  or_else (prop_of videoData "folder") (VStr "Uncategorized") = of_json jf →
  truthy record = true →
  to_string (prop_of record "id") = to_string (prop_of videoData "id") →
  ∃ e' v,
    updateVideo videoData None None e = (Returned videoData, e')
    ∧ requests e' = requests e ∧ world e' = world e
    ∧ formatVideoData API_URL record e' = (Returned v, e')
    ∧ prop_of v "tags"
      = or_else (prop_of record "tags")
          (or_else (prop_of videoData "tags") (VArr []))
    ∧ prop_of v "color"
      = or_else (prop_of record "color")
          (or_else (prop_of videoData "color") (VStr ""))
    ∧ prop_of v "folder"
      = or_else (prop_of record "folder")
          (or_else (prop_of videoData "folder") (VStr "Uncategorized")).
Proof.
  intros Hu Ha H1 H2 Ht Hc Hf Hr Hid.
  set (doc := JObj [("tags", jt); ("color", jc); ("folder", jf)]).
  set (e' := mkEnv (<[metadata_key (prop_of videoData "id") := Doc doc]>
                      (localStorage e))
               (world e) (requests e) (authorization e) (effects e)).
  assert (updateVideo videoData None None e = (Returned videoData, e'))
    as Hup.
  { unfold updateVideo. apply try_except_returned.
    rewrite (bind_returned _ _ _ _ _ (require_token_found _ _ _ Hu Ha)).
    rewrite (bind_returned _ _ _ _ _ (get_eq _ _ _ H1 H2)).
    rewrite Ht, Hc, Hf.
    unfold JSON_text. simpl. rewrite !stringify_of_json. done. }
  assert (stored_metadata record e'
          = (Returned (of_json jt, of_json jc, of_json jf), e')) as Hm.
  { unfold stored_metadata, metadata_key. rewrite Hid.
    apply try_except_returned. br.
    rewrite lookup_insert, decide_True by done. simpl.
    rewrite <- Ht, <- Hc, <- Hf. by rewrite !or_else_again. }
  exists e'. eexists. split; [exact Hup|]. split; [done|]. split; [done|].
  unfold formatVideoData. rewrite Hr. simpl.
  rewrite (bind_returned _ _ _ _ _ Hm). split; [done|]. simpl.
  by rewrite <- Ht, <- Hc, <- Hf.
Qed.

End VideoModelFacts.

Section InterceptorFacts.
Import Client Browser FetchInterceptor.

Lemma prop_get_set_prop props k v k' :
  prop_get (set_prop props k v) k'
  = if decide (k = k') then v else prop_get props k'.
Proof.
  induction props as [|[k0 v0] props IH]; simpl.
  - done.
  - destruct (decide (k0 = k)) as [->|Hk]; simpl.
    + by destruct (decide (k = k')).
    + rewrite IH. destruct (decide (k0 = k')) as [->|]; [|done].
      by rewrite decide_False.
Qed.

Lemma set_prop_again props k v :
  set_prop (set_prop props k v) k v = set_prop props k v.
Proof.
  induction props as [|[k0 v0] props IH]; simpl.
  - by rewrite decide_True.
  - destruct (decide (k0 = k)) as [->|Hk]; simpl.
    + by rewrite decide_True.
    + by rewrite decide_False, IH.
Qed.

Lemma add_authorization_again userData options :
  add_authorization userData (add_authorization userData options)
  = add_authorization userData options.
Proof.
  unfold add_authorization. cbv zeta.
  destruct (truthy (opt_chain userData "token")) eqn:Ht; [|done].
  simpl. by rewrite set_prop_again.
Qed.

(** X27 -- what [fetchWithAuth] hands to the network: with a token in the
    stored user the request carries [Authorization: Bearer token] and
    [credentials: 'include'] and keeps its other headers, whether or not the
    replaced [window.fetch] adds them a second time; without a token the
    options leave as they came. *)
Theorem fetchWithAuth_adds_the_token_once url options e userData :
  (getUserFromStorage e).1 = Returned userData →
  let token := opt_chain userData "token" in
  ∃ sent,
    outgoing url options e = (Returned (url, sent), e)
    ∧ if truthy token
      then credentials sent = Some "include"
           ∧ ∃ hs, headers sent = Some hs
               ∧ ∀ k, prop_get hs k
                      = if decide (k = "Authorization")
                        then VStr ("Bearer " +:+ to_string token)
                        else prop_get (default [] (headers options)) k
      else sent = options.
Proof.
  intros Hu token. exists (add_authorization userData options). split.
  - unfold outgoing, window_fetch.
    rewrite (bind_returned _ _ _ _ _ (getUserFromStorage_eq _ _ Hu)).
    destruct (includes _ _); [|done].
    rewrite (bind_returned _ _ _ _ _ (getUserFromStorage_eq _ _ Hu)).
    by rewrite add_authorization_again.
  - unfold add_authorization. cbv zeta. fold token.
    destruct (truthy token); [|done]. simpl. split; [done|].
    eexists. split; [done|]. intros k. rewrite prop_get_set_prop.
    by destruct (decide (k = _)), (decide (_ = k)).
Qed.

End InterceptorFacts.

Section TagsFacts.
Import Client Pages.

(** X28 -- the tag editor never holds a tag twice: on distinct tags and an
    input typed in ASCII, [handleAddTag] adds the trimmed input only when
    it is not blank and not among the tags, and [handleDeleteTag] removes
    the tag and nothing else. *)
Theorem tag_editor_keeps_tags_distinct ed :
  ascii_text (newTag ed) →
  NoDup (tags ed) →
  NoDup (tags (handleAddTag ed))
  ∧ (∀ t, t ∈ tags (handleAddTag ed)
          ↔ t ∈ tags ed ∨ (t = trim (newTag ed) ∧ t ≠ ""))
  ∧ (∀ t, NoDup (tags (handleDeleteTag t ed))
          ∧ ∀ u, u ∈ tags (handleDeleteTag t ed) ↔ u ∈ tags ed ∧ u ≠ t).
Proof.
  intros _ Hnd. unfold handleAddTag, handleDeleteTag.
  destruct (bool_decide_reflect (trim (newTag ed) ≠ "")) as [Hne|He];
    [destruct (bool_decide_reflect (trim (newTag ed) ∈ tags ed))
       as [Hin|Hnin]|]; simpl.
  - split; [done|]. split.
    + intros t. split; [auto|]. by intros [?|[-> _]].
    + intros t. split; [by apply NoDup_filter|].
      intros u. by rewrite list_elem_of_filter, (comm and).
  - split.
    { apply NoDup_app. split; [done|]. split; [|apply NoDup_singleton].
      intros t Ht ->%list_elem_of_singleton. done. }
    split.
    + intros t. rewrite elem_of_app, list_elem_of_singleton.
      split; [intros [?| ->]; auto|]. intros [?|[-> _]]; auto.
    + intros t. split; [by apply NoDup_filter|].
      intros u. by rewrite list_elem_of_filter, (comm and).
  - split; [done|]. split.
    + intros t. split; [auto|]. intros [?|[-> Ht]]; [done|].
      destruct He. done.
    + intros t. split; [by apply NoDup_filter|].
      intros u. by rewrite list_elem_of_filter, (comm and).
Qed.

End TagsFacts.

Section EndToEnd.
Import Service Wire Responses Client Browser Pages.
Variable api : string.
Variable net : Request → Fetch.
Variable error_body : Z → string → ResponseBody.

Lemma failed_not_ok payload : failed (Resolves false payload).
Proof. destruct payload; simpl; auto. Qed.

(** X29 -- deleting from the card of a listed report, against the service.
    When the row is in the table the service removes it and the card shows
    [Report deleted successfully] and refreshes; when it is not, the service
    changes nothing and answers 404, and the card shows one error toast and
    does not refresh. *)
Theorem deleting_from_a_card s d (onRefresh : bool) e resp s' :
  let report := of_json (encode_summary d) in
  let rq := mkRequest (api +:+ "/reports/" +:+ Z_to_string (d_id d))
              "DELETE" None in
  dirty s = [] →
  delete_report_route (d_id d) s = (Returned resp, s') →
  net rq = http_response (λ _ : unit, JNull) error_body resp →
  match table s !! d_id d with
  | Some _ =>
      table s' = base.delete (d_id d) (table s)
      ∧ handleDelete api net report onRefresh e
        = (Returned (),
           told (fetched e rq (OnSuccess VUndefined))
             (setState "setAnchorEl" VNull
              :: setToast (mkToast true (VStr "Report deleted successfully")
                             "success" 6000)
              :: (if onRefresh then [onRefresh_called] else [])))
  | None =>
      s' = s
      ∧ ∃ message,
          handleDelete api net report onRefresh e
          = (Returned (),
             told (fetched e rq (OnError message))
               [setState "setAnchorEl" VNull;
                setToast (mkToast true message "error" 6000)])
  end.
Proof.
  intros report rq Hd Hroute Hnet.
  assert (report ≠ VUndefined ∧ report ≠ VNull) as [H1 H2] by done.
  destruct (handleDelete_outcome api net e report onRefresh H1 H2)
    as (call & Hrun & Hfail & Hok).
  change (prop_of report "id") with (VNum (d_id d)) in *.
  change (to_string (VNum (d_id d))) with (Z_to_string (d_id d)) in *.
  fold rq in Hrun, Hfail, Hok.
  revert Hroute. run.
  destruct (table s !! d_id d) as [r|] eqn:Hr; simpl.
  - rewrite Hd. simpl. intros [= <- <-]. split; [done|].
    rewrite Hrun, Hok; [done|]. rewrite Hnet. simpl.
    intros [H|H]; done.
  - intros [= <- <-]. split; [done|].
    destruct Hfail as (message & ->).
    { rewrite Hnet. simpl. apply failed_not_ok. }
    by exists message.
Qed.


(** X30 -- the listing of the page, against the service. [getReports] asks
    for [/reports] with no query, which the service answers with its
    defaults: no owner, no offset, 100 rows. The page is handed, in one call
    of [onSuccess], the 100 newest reports of all users at most; the others
    are never asked for. *)
Theorem page_lists_the_newest_hundred s resp w :
  let rq := mkRequest (api +:+ "/reports") "GET" None in
  let listed :=
    take 100 (merge_sort newest_first (map_to_list (table s)).*2) in
  (list_reports None 0 100 s).1 = Returned resp →
  net rq = http_response (λ dicts, JArr (encode_summary <$> dicts))
             error_body resp →
  getReports api net returning w
  = (Returned (),
     mkWorld (sent w ++ [rq])
       (invoked w
        ++ [OnSuccess
              (VArr ((λ r, of_json (encode_summary (report_dict r)))
                     <$> listed))])
       (ui w))
  ∧ length listed = (100 `min` size (table s))%nat
  ∧ (∀ r, r ∈ listed → ∃ i, table s !! i = Some r).
Proof.
  intros rq listed Hroute Hnet.
  revert Hroute. run. rewrite drop_0. fold listed. intros [= <-].
  split; [|split].
  - js. fold rq. rewrite Hnet. simpl.
    do 4 f_equal. rewrite <- !list_fmap_compose. done.
  - unfold listed.
    by rewrite length_take, merge_sort_Permutation, length_fmap,
      length_map_to_list.
  - intros r Hr. unfold listed in Hr.
    apply subseteq_take in Hr. rewrite merge_sort_Permutation in Hr.
    apply list_elem_of_fmap in Hr as ([i r'] & -> & Hin).
    exists i. by apply elem_of_map_to_list.
Qed.

End EndToEnd.

(* ===================================================================== *)
(** * The statements above on the scenarios *)

Section BackendExamples.
Import Service System Shapes VideoAnalysis Scenarios BrowserScenarios.

Lemma get_reports_pages_compose_witness :
  (∀ rows (offset limit : nat),
     database_order (Some 456) (table session_D) rows →
     get_reports (Some 456) offset limit session_D
     = (Returned (report_dict <$> take limit (drop offset rows)), session_D))
  ∧ ∃ p1 p2,
      get_reports (Some 456) 0 2 session_D = (Returned p1, session_D)
      ∧ get_reports (Some 456) (0 + 2) 1 session_D = (Returned p2, session_D)
      ∧ get_reports (Some 456) 0 (2 + 1) session_D
        = (Returned (p1 ++ p2), session_D)
      ∧ (length p1 < 2 → p2 = [])%nat.
Proof.
  apply (get_reports_pages_compose session_D (Some 456) 0 2 1).
  apply (bool_decide_unpack _). vm_compute. exact I.
Defined.

Lemma publish_calls_every_subscriber_once_witness :
  ∃ bus' calls,
    Events.publish second_raises Events.VIDEO_CREATED JNull bus_1
    = Some (Returned (), bus')
    ∧ Events.subscribers bus' = Events.subscribers bus_1
    ∧ Events.delivered bus' = Events.delivered bus_1 ++ calls
    ∧ NoDup (Events.callee <$> calls)
    ∧ (∀ cb, cb ∈ Events.callee <$> calls
             ↔ cb ∈ Events.listeners bus_1 Events.VIDEO_CREATED)
    ∧ (∀ d, d ∈ calls → Events.event d = Events.VIDEO_CREATED
                         ∧ Events.payload d = JNull)
    ∧ length (Events.errors bus')
      = (length (Events.errors bus_1)
         + length (filter
                     (λ d, Events.raised
                             (second_raises (Events.callee d)
                                Events.VIDEO_CREATED JNull).1 = true)
                     calls))%nat.
Proof.
  apply (publish_calls_every_subscriber_once second_raises
           Events.VIDEO_CREATED JNull bus_1).
  - intros cb _. unfold second_raises. by destruct (decide (cb = 2%nat)).
  - intros cb class _. unfold second_raises.
    by destruct (decide (cb = 2%nat)).
Defined.

Lemma full_listing_has_every_job_once_witness :
  ∃ dicts,
    list_reports None 0 100 (session_of created_1)
    = (Returned (Success dicts "Reports retrieved successfully" 200),
       session_of created_1)
    ∧ NoDup (d_id <$> dicts)
    ∧ (∀ i, i ∈ d_id <$> dicts ↔ is_Some (db created_1 !! i))
    ∧ (∀ i r, db created_1 !! i = Some r → report_dict r ∈ dicts).
Proof.
  apply (full_listing_has_every_job_once created_1 100).
  - apply reachable_created_1.
  - vm_compute. lia.
Defined.

Lemma delete_removes_one_row_once_witness :
  let first := delete_report_route 1 session_queued in
  first.1 = Returned (if decide (is_Some (table session_queued !! 1))
                      then Success () "Report deleted successfully" 200
                      else HTTPException 404 "Report not found")
  ∧ table first.2 !! 1 = None
  ∧ (∀ j, j ≠ 1 → table first.2 !! j = table session_queued !! j)
  ∧ (table session_queued !! 1 = None → first.2 = session_queued)
  ∧ delete_report_route 1 first.2
    = (Returned (HTTPException 404 "Report not found"), first.2).
Proof.
  apply (delete_removes_one_row_once session_queued 1). reflexivity.
Defined.

Lemma download_serves_the_completed_artifact_witness :
  (download_report 1 (session_of finished_1)).1
  = Returned
      (match db finished_1 !! 1 with
       | Some r =>
           match file_path r with
           | Some p =>
               if decide (p = "")
               then HTTPException 404 "Report file not found"
               else FileResponse p
                      ("scouting_report_" +:+ Z_to_string 1 +:+ ".pdf")
                      "application/pdf"
           | None => HTTPException 404 "Report file not found"
           end
       | None => HTTPException 404 "Report file not found"
       end)
  ∧ (∀ p name media,
       (download_report 1 (session_of finished_1)).1
       = Returned (FileResponse p name media) →
       ∃ r, db finished_1 !! 1 = Some r ∧ status r = "completed"
            ∧ file_path r = Some p)
  ∧ (∀ r, db finished_1 !! 1 = Some r → status r = "completed" →
          is_Some (file_path r)).
Proof.
  apply (download_serves_the_completed_artifact finished_1 1).
  eapply rtc_r; [apply reachable_started_1|apply step_finished_1].
Defined.

Lemma generate_report_touches_one_row_witness :
  let s' := (generate_report render_fails 20 1 session_queued).2 in
  (∀ j, j ≠ 1 → table s' !! j = table session_queued !! j)
  ∧ (∀ j, is_Some (table s' !! j) ↔ is_Some (table session_queued !! j))
  ∧ next_id s' = next_id session_queued
  ∧ (∀ r r', table session_queued !! 1 = Some r →
             table s' !! 1 = Some r' → same_description r r').
Proof.
  apply (generate_report_touches_one_row render_fails 20 session_queued 1).
  reflexivity.
Defined.

Lemma unreachable_backend_is_analysed_as_the_sample_witness :
  fetch_and_analyze main_backend backend_down (Returned []) 5 123
  = Returned [("video_id", JNum 123);
              ("video_title", JStr ("Sample Game Video " +:+ Z_to_string 123));
              ("analysis_timestamp", JNum 5);
              ("team_analysis", JObj [])].
Proof.
  apply (unreachable_backend_is_analysed_as_the_sample main_backend
           backend_down (Returned []) 5 123 "ConnectError" []);
    reflexivity.
Defined.

Lemma answer_without_an_object_fails_the_analysis_witness :
  get_video_data main_backend backend_null_data 123 = Returned JNull
  ∧ fetch_and_analyze main_backend backend_null_data (Returned []) 5 123
    = Raised "AttributeError".
Proof.
  apply (answer_without_an_object_fails_the_analysis main_backend
           backend_null_data (Returned []) 5 123
           (mkHttpResponse 200 "data: null" (Returned (JObj [("data", JNull)])))
           (JObj [("data", JNull)]) JNull);
    try reflexivity.
  intros fields. discriminate.
Defined.

End BackendExamples.

Section BrowserExamples.
Import Service Client Browser User Controllers Pages FetchInterceptor.
Import Wire Responses Scenarios BrowserScenarios.

Lemma signed_in_user :
  (getUserFromStorage signed_in).1 = Returned (of_json user_1).
Proof. vm_compute. reflexivity. Qed.

Lemma signed_out_user : (getUserFromStorage signed_out).1 = Returned VNull.
Proof. vm_compute. reflexivity. Qed.

Lemma getVideos_without_token_calls_onError_twice_witness :
  let m := VStr "Authentication required" in
  getVideos main_backend axios_down None (Some showError) signed_out
  = (Raised (VError "Authentication required"),
     (showError m (showError m signed_out).2).2)
  ∧ getVideos main_backend axios_down None None signed_out
    = (Raised (VError "Authentication required"), signed_out).
Proof.
  apply (getVideos_without_token_calls_onError_twice main_backend axios_down
           signed_out VNull None showError).
  - apply signed_out_user.
  - reflexivity.
  - intros v e. reflexivity.
Defined.

Lemma getVideos_with_token_calls_one_callback_witness :
  let rq :=
    mkAxiosRequest "GET" (VIDEOS_LIST main_backend +:+ "?self=true")
      (bearer (of_json user_1)) VUndefined in
  getVideos main_backend axios_down
    (Some (λ videosData, tell (setState "setVideos" videosData)))
    (Some showError) signed_in
  = (Raised (VError "Network Error"),
     (showError (reported (VError "Network Error") "Failed to fetch videos")
        (after_request signed_in rq)).2).
Proof.
  apply (getVideos_with_token_calls_one_callback main_backend axios_down
           signed_in (of_json user_1)
           (λ videosData, tell (setState "setVideos" videosData)) showError).
  - apply signed_in_user.
  - reflexivity.
  - intros v e. reflexivity.
  - intros v e. reflexivity.
  - discriminate.
  - discriminate.
Defined.

Lemma fetchData_without_token_asks_for_nothing_witness :
  let toast := setToast (mkToast true (VStr "Authentication required")
                           "error" 6000) in
  fetchData main_backend axios_down scouting_api server_down signed_out
  = (Returned (),
     told signed_out [setState "setLoading" (VBool true); toast; toast;
                      setState "setLoading" (VBool false)]).
Proof.
  apply (fetchData_without_token_asks_for_nothing main_backend axios_down
           scouting_api server_down signed_out VNull).
  - apply signed_out_user.
  - reflexivity.
Defined.

Lemma fetchData_asks_for_reports_after_the_videos_witness :
  let rq :=
    mkAxiosRequest "GET" (VIDEOS_LIST main_backend +:+ "?self=true")
      (bearer (of_json user_1)) VUndefined in
  let e1 :=
    after_request (told signed_in [setState "setLoading" (VBool true)]) rq in
  ∃ videos call,
    fetchData main_backend axios_one_video scouting_api server_down signed_in
    = (Returned (),
       told (fetched e1 (mkRequest (scouting_api +:+ "/reports") "GET" None)
               call)
         [setState "setVideos" (VArr videos);
          match call with
          | OnSuccess reportsData => setState "setReports" reportsData
          | OnError error => setToast (mkToast true error "error" 6000)
          end;
          setState "setLoading" (VBool false)]).
Proof.
  apply (fetchData_asks_for_reports_after_the_videos main_backend
           axios_one_video scouting_api server_down signed_in
           (of_json user_1)).
  - apply signed_in_user.
  - reflexivity.
  - discriminate.
  - discriminate.
Defined.

Lemma isValidEmail_shape_witness :
  isValidEmail (VStr "coach@team.org") = true
  ↔ ∃ local domain tld,
      "coach@team.org" = local +:+ "@" +:+ domain +:+ "." +:+ tld
      ∧ Shapes.word local ∧ Shapes.word domain ∧ Shapes.word tld.
Proof.
  apply (isValidEmail_shape "coach@team.org"). repeat constructor.
Defined.

Lemma validateRegistration_valid_iff_witness :
  registration_is_valid form_1 = true
  ↔ (∃ e, email form_1 = Some e ∧ isValidEmail (VStr e) = true)
    ∧ (∃ u, username form_1 = Some u ∧ (3 ≤ String.length u)%nat)
    ∧ (∃ p, password form_1 = Some p ∧ (6 ≤ String.length p)%nat
            ∧ confirmPassword form_1 = Some p).
Proof.
  apply (validateRegistration_valid_iff form_1). repeat constructor.
Defined.

Lemma handleSubmit_sends_valid_forms_once_witness :
  let rq :=
    mkAxiosRequest "POST" (AUTH_REGISTER main_backend) []
      (VObj [("email", field_value (email form_1));
             ("username", field_value (username form_1));
             ("password", field_value (password form_1))]) in
  if registration_is_valid form_1
  then
    ∃ shown,
      RegisterPage_handleSubmit main_backend axios_down form_1 signed_out
      = (Returned (),
         told (after_request signed_out rq)
           ([setState "setErrors" (VObj []);
             setState "setLoading" (VBool true)]
            ++ shown ++ [setState "setLoading" (VBool false)]))
      ∧ (navigate "/login" ∈ shown
         ↔ ∃ response,
             axios_down (authorization signed_out) rq = Returned response
             ∧ (prop_of response "status" = VNum 200
                ∨ prop_of response "status" = VNum 201))
  else
    validateRegistration form_1 ≠ []
    ∧ RegisterPage_handleSubmit main_backend axios_down form_1 signed_out
      = (Returned (),
         told signed_out
           [setState "setErrors"
              (VObj (map (λ kv, (kv.1, VStr kv.2))
                       (validateRegistration form_1)))]).
Proof.
  apply (handleSubmit_sends_valid_forms_once main_backend axios_down form_1
           signed_out). repeat constructor.
Defined.

Lemma handleDelete_shows_one_toast_witness :
  let rq := mkRequest (scouting_api +:+ "/reports/"
                         +:+ to_string (prop_of card_1 "id"))
              "DELETE" None in
  ∃ call,
    handleDelete scouting_api server_down card_1 true signed_in
    = (Returned (),
       told (fetched signed_in rq call)
         (setState "setAnchorEl" VNull ::
          match call with
          | OnSuccess _ =>
              setToast (mkToast true (VStr "Report deleted successfully")
                          "success" 6000)
              :: (if true then [onRefresh_called] else [])
          | OnError error => [setToast (mkToast true error "error" 6000)]
          end))
    ∧ (failed (server_down rq) → ∃ arg, call = OnError arg)
    ∧ (¬ failed (server_down rq) → call = OnSuccess VUndefined).
Proof.
  apply (handleDelete_shows_one_toast scouting_api server_down signed_in
           card_1 true); discriminate.
Defined.

Lemma checkAuth_verifies_the_stored_token_witness :
  let header := "Bearer " +:+ to_string (prop_of (of_json user_1) "token") in
  let rq := mkAxiosRequest "GET" (AUTH_ME main_backend) [] VUndefined in
  checkAuth main_backend axios_down signed_in
  = (Returned VNull,
     mkEnv (delete "user" (localStorage signed_in)) (world signed_in)
       (requests signed_in ++ [rq]) None (effects signed_in)).
Proof.
  apply (checkAuth_verifies_the_stored_token main_backend axios_down
           signed_in (of_json user_1)).
  apply signed_in_user.
Defined.

Lemma updateVideo_is_read_back_witness :
  ∃ e' v,
    updateVideo edited_7 None None signed_in = (Returned edited_7, e')
    ∧ requests e' = requests signed_in ∧ world e' = world signed_in
    ∧ formatVideoData main_backend video_7 e' = (Returned v, e')
    ∧ prop_of v "tags"
      = or_else (prop_of video_7 "tags")
          (or_else (prop_of edited_7 "tags") (VArr []))
    ∧ prop_of v "color"
      = or_else (prop_of video_7 "color")
          (or_else (prop_of edited_7 "color") (VStr ""))
    ∧ prop_of v "folder"
      = or_else (prop_of video_7 "folder")
          (or_else (prop_of edited_7 "folder") (VStr "Uncategorized")).
Proof.
  apply (updateVideo_is_read_back main_backend edited_7 video_7 signed_in
           (of_json user_1) (JArr [JStr "zone"]) (JStr "red")
           (JStr "Uncategorized")).
  - apply signed_in_user.
  - reflexivity.
  - discriminate.
  - discriminate.
  - reflexivity.
  - reflexivity.
  - reflexivity.
  - reflexivity.
  - reflexivity.
Defined.

Lemma fetchWithAuth_adds_the_token_once_witness :
  let token := opt_chain (of_json user_1) "token" in
  ∃ sent,
    outgoing "http://localhost:8000/api/videos" (mkOptions None None)
      signed_in
    = (Returned ("http://localhost:8000/api/videos", sent), signed_in)
    ∧ if truthy token
      then credentials sent = Some "include"
           ∧ ∃ hs, headers sent = Some hs
               ∧ ∀ k, prop_get hs k
                      = if decide (k = "Authorization")
                        then VStr ("Bearer " +:+ to_string token)
                        else prop_get
                               (default [] (headers (mkOptions None None))) k
      else sent = mkOptions None None.
Proof.
  apply (fetchWithAuth_adds_the_token_once
           "http://localhost:8000/api/videos" (mkOptions None None) signed_in
           (of_json user_1)).
  apply signed_in_user.
Defined.

Lemma tag_editor_keeps_tags_distinct_witness :
  NoDup (tags (handleAddTag editor_1))
  ∧ (∀ t, t ∈ tags (handleAddTag editor_1)
          ↔ t ∈ tags editor_1 ∨ (t = trim (newTag editor_1) ∧ t ≠ ""))
  ∧ (∀ t, NoDup (tags (handleDeleteTag t editor_1))
          ∧ ∀ u, u ∈ tags (handleDeleteTag t editor_1)
                 ↔ u ∈ tags editor_1 ∧ u ≠ t).
Proof.
  apply (tag_editor_keeps_tags_distinct editor_1).
  - repeat constructor.
  - apply NoDup_singleton.
Defined.

Lemma deleting_from_a_card_witness :
  let d := report_dict queued_1 in
  let rq := mkRequest (scouting_api +:+ "/reports/" +:+ Z_to_string (d_id d))
              "DELETE" None in
  table (delete_report_route 1 session_queued).2
  = base.delete (d_id d) (table session_queued)
  ∧ handleDelete scouting_api deleting_1 (of_json (encode_summary d)) true
      signed_in
    = (Returned (),
       told (fetched signed_in rq (OnSuccess VUndefined))
         (setState "setAnchorEl" VNull
          :: setToast (mkToast true (VStr "Report deleted successfully")
                         "success" 6000)
          :: (if true then [onRefresh_called] else []))).
Proof.
  apply (deleting_from_a_card scouting_api deleting_1 detail_body
           session_queued (report_dict queued_1) true signed_in deleted_1
           (delete_report_route 1 session_queued).2);
    reflexivity.
Defined.

Lemma page_lists_the_newest_hundred_witness :
  let rq := mkRequest (scouting_api +:+ "/reports") "GET" None in
  let listed :=
    take 100 (merge_sort newest_first (map_to_list (table session_D)).*2) in
  getReports scouting_api listing_D returning fresh_world
  = (Returned (),
     mkWorld (sent fresh_world ++ [rq])
       (invoked fresh_world
        ++ [OnSuccess
              (VArr ((λ r, of_json (encode_summary (report_dict r)))
                     <$> listed))])
       (ui fresh_world))
  ∧ length listed = (100 `min` size (table session_D))%nat
  ∧ (∀ r, r ∈ listed → ∃ i, table session_D !! i = Some r).
Proof.
  apply (page_lists_the_newest_hundred scouting_api listing_D detail_body
           session_D listed_D fresh_world);
    reflexivity.
Defined.

End BrowserExamples.
